(** * The netCDF-4 metadata index and attribute store

    A shallow embedding of two translation units of the netCDF-4 library:

    - the object index [NCindex] (ncindex.c): a vector of metadata objects
      in declaration order, optionally doubled by a name hash table
      (the code under [#ifdef NCIUSEHASH]);
    - the attribute functions of libsrc4/nc4attr.c: [nc4_get_att],
      [NC4_inq_att], [NC4_inq_attid], [NC4_rename_att], [NC4_del_att],
      [NC4_put_att].

    Conventions of the embedding.

    - A C function that updates the file metadata becomes a function from
      the state before the call to an [outcome]: either the returned error
      code with the state after the call, or a crash (a read through a NULL
      pointer, a failed [assert]).
    - A pointer to an object held by an index is its position in the
      index's vector: every slot of an attribute vector holds an object of
      its own, so positions and pointers correspond one to one.
    - Output parameters ([nc_type *xtype], [size_t *lenp], ...) are given as
      booleans saying whether the pointer is non-NULL; the values written
      through them are returned in a record of options.
    - Code of the library that is not part of the two translation units
      (the vector [NClist], the hash table [NC_hashmap], the type catalogue,
      the name checker, the HDF5 layer) is either modelled from the written
      specification, and marked so, or taken as a parameter. *)

From Stdlib Require Import ZArith String Ascii List Bool Lia.
From stdpp Require Import base tactics option list numbers strings.

Set Default Proof Using "Type".

(** ** Metadata objects *)

(** The sort tags of ncindex.c ([sortname]). *)
Inductive NC_SORT := NCNAT | NCVAR | NCDIM | NCATT | NCTYP | NCGRP.

(** The header every indexed object starts with: [sort], [name], [id] and
    the cached [hashkey] of the name. *)
Record NC_OBJ := mkOBJ {
  obj_sort : NC_SORT;
  obj_name : string;
  obj_id : nat;
  obj_hashkey : nat
}.

(** Objects are stored in an index through their header ("any object that
    will be inserted must have its name as the first field"). *)
Class Header (A : Type) := hdr : A -> NC_OBJ.

#[export] Instance NC_OBJ_header : Header NC_OBJ := fun o => o.

(** [strcmp(a,b)==0]. *)
Definition streq (a b : string) : bool := String.eqb a b.

(** ** NClist *)

Module NClist.

(** Modelled from the spec: the growable vector of object references
    (DynamicVector; nclist.c is not among the sources).  [append] adds at
    the end, [get] returns the reference or absent, [removeAt] compacts. *)
Definition nclistnew {A : Type} : list A := [].

Definition nclistlength {A : Type} (l : list A) : nat := length l.

Definition nclistget {A : Type} (l : list A) (i : nat) : option A := l !! i.

Definition nclistpush {A : Type} (l : list A) (x : A) : list A := l ++ [x].

(** [nclistremove] returns the removed element, or NULL when [i] is past
    the end, together with the compacted vector. *)
Definition nclistremove {A : Type} (l : list A) (i : nat) : option A * list A :=
  (l !! i, delete i l).

(** [nclistextract] hands the contents over and leaves the vector empty. *)
Definition nclistextract {A : Type} (l : list A) : list A * list A := (l, []).

End NClist.
Export NClist.

(** ** NC_hashmap *)

(** The entry states of the documentation of ncindex.c: [ACTIVE] is the bit
    [ncindexverify] tests ([e->flags & 1]); 128 is the mark it sets on
    the entries it has visited. *)
Definition EMPTY : Z := 0.
Definition ACTIVE : Z := 1.
Definition DELETED : Z := 2.
Definition TOUCHED : Z := 128.

Record NC_hentry := mkHentry {
  e_flags : Z;
  e_data : nat;
  e_hashkey : nat;
  e_key : string
}.

Record NC_hashmap := mkHashmap {
  hm_alloc : nat;
  hm_active : nat;
  hm_table : list NC_hentry
}.

(** What the hash table leaves open in the spec: the hash function (named
    [NC_hashmapkey] in nc4attr.c), the load-factor test on
    (capacity, active entries) and the capacity of the rebuilt table. *)
Record hashmap_policy := mkPolicy {
  NC_hashmapkey : string -> nat;
  overloaded : nat -> nat -> bool;
  enlarge : nat -> nat
}.

Definition empty_entry : NC_hentry :=
  {| e_flags := EMPTY; e_data := 0; e_hashkey := 0; e_key := "" |}.

Definition is_empty (e : NC_hentry) : bool := (e_flags e =? EMPTY)%Z.

Definition is_active (e : NC_hentry) : bool :=
  negb (Z.land (e_flags e) ACTIVE =? 0)%Z.

(** [keystr]: the key of an entry, stored in place when it is shorter than a
    pointer and behind the pointer otherwise; the string is the same. *)
Definition keystr (e : NC_hentry) : string := e_key e.

Section Hashmap.

Variable pol : hashmap_policy.

(** Modelled from the spec: the open-addressing table (OpenHashTable;
    nchashmap.c is not among the sources).  A probe starts at
    [hash(key) mod capacity], walks linearly, skips tombstones and entries
    of other keys, and stops at an Empty slot or at the Active slot of the
    key; it gives up after [capacity] slots. *)
Fixpoint locate (tbl : list NC_hentry) (cap : nat) (k : string)
    (fuel slot : nat) : option nat :=
  match fuel with
  | O => None
  | S fuel' =>
      match tbl !! slot with
      | None => None
      | Some e =>
          if is_empty e then Some slot
          else if is_active e && streq (keystr e) k then Some slot
          else locate tbl cap k fuel' (S slot mod cap)
      end
  end.

Definition NC_hashmapnew (startsize : nat) : NC_hashmap :=
  {| hm_alloc := startsize; hm_active := 0;
     hm_table := replicate startsize empty_entry |}.

(** The Active entry an insertion writes. *)
Definition written (data : nat) (k : string) : NC_hentry :=
  {| e_flags := ACTIVE; e_data := data; e_hashkey := NC_hashmapkey pol k;
     e_key := k |}.

(** Insert without the load test: used by [NC_hashmapadd] and by the
    rebuild. An existing entry of the key is overwritten. *)
Definition hashmap_store (m : NC_hashmap) (data : nat) (k : string)
    : bool * NC_hashmap :=
  match locate (hm_table m) (hm_alloc m) k (hm_alloc m)
          (NC_hashmapkey pol k mod hm_alloc m) with
  | None => (false, m)
  | Some slot =>
      let fresh :=
        match hm_table m !! slot with
        | Some e => is_empty e
        | None => false
        end in
      (true,
       {| hm_alloc := hm_alloc m;
          hm_active := if fresh then S (hm_active m) else hm_active m;
          hm_table := <[slot := written data k]> (hm_table m) |})
  end.

(** Full rehash into the larger table: Active entries are re-inserted in
    table order, tombstones are dropped. *)
Definition rehash (m : NC_hashmap) : NC_hashmap :=
  fold_left
    (fun acc e =>
       if is_active e then snd (hashmap_store acc (e_data e) (keystr e))
       else acc)
    (hm_table m)
    (NC_hashmapnew (enlarge pol (hm_alloc m))).

(** [NC_hashmapadd(map, data, key, keysize)]. *)
Definition NC_hashmapadd (m : NC_hashmap) (data : nat) (k : string)
    : bool * NC_hashmap :=
  hashmap_store
    (if overloaded pol (hm_alloc m) (hm_active m) then rehash m else m)
    data k.

(** [NC_hashmapget(map, key, keysize, &data)]: the probe of the insertion;
    an Empty slot means "not present". *)
Definition NC_hashmapget (m : NC_hashmap) (k : string) : option nat :=
  match locate (hm_table m) (hm_alloc m) k (hm_alloc m)
               (NC_hashmapkey pol k mod hm_alloc m) with
  | None => None
  | Some slot =>
      match hm_table m !! slot with
      | Some e => if is_active e then Some (e_data e) else None
      | None => None
      end
  end.

(** [NC_hashmapdeactivate(map, data)]: the Active entry holding [data]
    becomes a tombstone; the result says whether there was one. *)
Fixpoint deactivate (tbl : list NC_hentry) (data : nat)
    : option (list NC_hentry) :=
  match tbl with
  | [] => None
  | e :: tbl' =>
      if is_active e && (e_data e =? data) then
        Some ({| e_flags := DELETED; e_data := e_data e;
                 e_hashkey := e_hashkey e; e_key := e_key e |} :: tbl')
      else option_map (cons e) (deactivate tbl' data)
  end.

Definition NC_hashmapdeactivate (m : NC_hashmap) (data : nat)
    : bool * NC_hashmap :=
  match deactivate (hm_table m) data with
  | Some tbl =>
      (true, {| hm_alloc := hm_alloc m; hm_active := pred (hm_active m);
                hm_table := tbl |})
  | None => (false, m)
  end.

End Hashmap.

(** ** NCindex (ncindex.c) *)

(** The index: the vector and, under [NCIUSEHASH], the map from a name to
    the position of its object in the vector.  Without [NCIUSEHASH] the
    structure has no map; the model keeps an unused empty table there. *)
Record NCindex (A : Type) := mkIndex {
  idx_list : list A;
  idx_map : NC_hashmap
}.
Arguments mkIndex {A} _ _.
Arguments idx_list {A} _.
Arguments idx_map {A} _.

(** [#define DFALTTABLESIZE 7] ([SMALLTABLE] is defined). *)
Definition DFALTTABLESIZE : nat := 7.

Section Index.

(** [NCIUSEHASH] is tested by [#ifdef] throughout ncindex.c and defined in
    none of the sources: both configurations are embedded. *)
Variable NCIUSEHASH : bool.
Variable pol : hashmap_policy.
Context {A : Type} `{Header A}.

(** [ncindexlookup]: under [NCIUSEHASH] the position comes from the map
    and the object from the vector at that position; otherwise the vector
    is searched from the front for the first object of that name. *)
Definition ncindexlookup (ncindex : NCindex A) (name : string)
    : option (nat * A) :=
  if NCIUSEHASH then
    match NC_hashmapget pol (idx_map ncindex) name with
    | None => None
    | Some index =>
        match nclistget (idx_list ncindex) index with
        | Some obj => Some (index, obj)
        | None => None
        end
    end
  else list_find (fun o => obj_name (hdr o) = name) (idx_list ncindex).

(** [ncindexith]. *)
Definition ncindexith (index : NCindex A) (i : nat) : option A :=
  nclistget (idx_list index) i.

(** Modelled from the spec: [ncindexsize], the number of objects of the
    index (a macro of ncindex.h, which is not among the sources). *)
Definition ncindexsize (index : NCindex A) : nat :=
  nclistlength (idx_list index).

(** [ncindexadd]: the object is pushed first, then [index] is read from
    the length of the vector and handed to the map as the data of the
    name. The result of [NC_hashmapadd] is not looked at. *)
Definition ncindexadd (ncindex : NCindex A) (obj : A) : bool * NCindex A :=
  let l := nclistpush (idx_list ncindex) obj in
  if NCIUSEHASH then
    let index := nclistlength l in
    (true,
     {| idx_list := l;
        idx_map :=
          snd (NC_hashmapadd pol (idx_map ncindex) index
                 (obj_name (hdr obj))) |})
  else (true, {| idx_list := l; idx_map := idx_map ncindex |}).

(** [ncindexidel]: remove by position; the vector is compacted. *)
Definition ncindexidel (index : NCindex A) (i : nat) : bool * NCindex A :=
  match nclistremove (idx_list index) i with
  | (None, _) => (false, index)
  | (Some _, l) =>
      if NCIUSEHASH then
        let r := NC_hashmapdeactivate (idx_map index) i in
        (fst r, {| idx_list := l; idx_map := snd r |})
      else (true, {| idx_list := l; idx_map := idx_map index |})
  end.

(** [ncindexnew]. *)
Definition ncindexnew (size0 : nat) : NCindex A :=
  let size := if (size0 =? 0)%nat then DFALTTABLESIZE else size0 in
  {| idx_list := nclistnew;
     idx_map := if NCIUSEHASH then NC_hashmapnew size else NC_hashmapnew 0 |}.

(** Modelled from the spec: [ncindexclear] followed by [ncindexinit]
    (neither is among the sources): the vector and the table are discarded
    and replaced by empty ones sized as [ncindexnew] sizes them. *)
Definition ncindexinit (size : nat) : NCindex A := ncindexnew size.

(** [ncindexrehash]: the contents are extracted, the index is reset, and
    every object is added again with [ncindexadd]. *)
Definition ncindexrehash (index : NCindex A) : bool * NCindex A :=
  if NCIUSEHASH then
    let size := nclistlength (idx_list index) in
    let contents := fst (nclistextract (idx_list index)) in
    (true,
     fold_left (fun acc tmp => snd (ncindexadd acc tmp)) contents
       (ncindexinit size))
  else (true, index).

(** Modelled from the spec: [ncindexrebuild], "discard and reconstruct the
    hash table from current vector contents". nc4attr.c calls it; the
    routine of ncindex.c that does this is [ncindexrehash]. *)
Definition ncindexrebuild (index : NCindex A) : bool * NCindex A :=
  ncindexrehash index.

(** *** ncindexverify *)

(** First loop: every Active entry of the map must point to a vector slot
    holding an object of the entry's name. Returns the number of errors. *)
Definition verify_entries (l : list A) (m : NC_hashmap) : nat :=
  fold_left
    (fun nerrs mi =>
       match hm_table m !! mi with
       | Some e =>
           if is_active e then
             match nclistget l (e_data e) with
             | None => S nerrs
             | Some object =>
                 if streq (obj_name (hdr object)) (keystr e) then nerrs
                 else S nerrs
             end
           else nerrs
       | None => nerrs
       end)
    (seq 0 (hm_alloc m)) 0.

(** Inner loop of the second pass: the entries of the name [xp] among the
    first [active] slots are marked; an entry already marked is an error.
    State: table, errors, [match]. *)
Definition verify_mark (xp : string) (active : nat)
    (st : list NC_hentry * nat * bool) : list NC_hentry * nat * bool :=
  fold_left
    (fun '(tbl, nerrs, matched) mi =>
       match tbl !! mi with
       | Some e =>
           if is_active e && streq (keystr e) xp then
             (<[mi := {| e_flags := (e_flags e + TOUCHED)%Z;
                         e_data := e_data e; e_hashkey := e_hashkey e;
                         e_key := e_key e |}]> tbl,
              if (Z.land (e_flags e) TOUCHED =? TOUCHED)%Z then S nerrs
              else nerrs,
              true)
           else (tbl, nerrs, matched)
       | None => (tbl, nerrs, matched)
       end)
    (seq 0 active) st.

(** Second pass: walk the vector. *)
Definition verify_vector (l : list A) (active : nat)
    (st : list NC_hentry * nat) : list NC_hentry * nat :=
  fold_left
    (fun '(tbl, nerrs) o =>
       let '(tbl', nerrs', matched) :=
         verify_mark (obj_name (hdr o)) active (tbl, nerrs, false) in
       (tbl', if matched then nerrs' else S nerrs'))
    l st.

(** Third pass: an Active entry left unmarked is an error. *)
Definition verify_unmarked (tbl : list NC_hentry) (active : nat)
    (nerrs : nat) : nat :=
  fold_left
    (fun n mi =>
       match tbl !! mi with
       | Some e =>
           if is_active e then
             if (Z.land (e_flags e) TOUCHED =? TOUCHED)%Z then n else S n
           else n
       | None => n
       end)
    (seq 0 active) nerrs.

(** Last pass: [e->flags &= ~128]. *)
Definition verify_clear (tbl : list NC_hentry) (active : nat)
    : list NC_hentry :=
  fold_left
    (fun t mi =>
       match t !! mi with
       | Some e =>
           <[mi := {| e_flags := Z.land (e_flags e) (Z.lnot TOUCHED);
                      e_data := e_data e; e_hashkey := e_hashkey e;
                      e_key := e_key e |}]> t
       | None => t
       end)
    (seq 0 active) tbl.

(** [ncindexverify]: 1 when no error was counted, 0 otherwise, and the
    index with the flags as the passes leave them. The dump to stderr is
    left out. *)
Definition ncindexverify (lm : NCindex A) : Z * NCindex A :=
  if NCIUSEHASH then
    let l := idx_list lm in
    let m := idx_map lm in
    let nerrs1 := verify_entries l m in
    if (nclistlength l =? 0)%nat || (hm_active m =? 0)%nat then
      ((if (0 <? nerrs1)%nat then 0 else 1)%Z, lm)
    else
      let '(tbl2, nerrs2) :=
        verify_vector l (hm_active m) (hm_table m, nerrs1) in
      let nerrs3 := verify_unmarked tbl2 (hm_active m) nerrs2 in
      let tbl4 := verify_clear tbl2 (hm_active m) in
      ((if (0 <? nerrs3)%nat then 0 else 1)%Z,
       {| idx_list := l;
          idx_map := {| hm_alloc := hm_alloc m; hm_active := hm_active m;
                        hm_table := tbl4 |} |})
  else (1%Z, lm).

End Index.

(** ** Types, constants and error codes of the attribute functions *)

(** [nc_type] identifiers and the other constants, with the values of
    netcdf.h and nc4internal.h. *)
Definition nc_type := Z.

Definition NC_NAT : nc_type := (0)%Z.
Definition NC_BYTE : nc_type := (1)%Z.
Definition NC_CHAR : nc_type := (2)%Z.
Definition NC_SHORT : nc_type := (3)%Z.
Definition NC_INT : nc_type := (4)%Z.
Definition NC_FLOAT : nc_type := (5)%Z.
Definition NC_DOUBLE : nc_type := (6)%Z.
Definition NC_UBYTE : nc_type := (7)%Z.
Definition NC_USHORT : nc_type := (8)%Z.
Definition NC_UINT : nc_type := (9)%Z.
Definition NC_INT64 : nc_type := (10)%Z.
Definition NC_UINT64 : nc_type := (11)%Z.
Definition NC_STRING : nc_type := (12)%Z.
Definition NC_VLEN : nc_type := (13)%Z.
Definition NC_OPAQUE : nc_type := (14)%Z.
Definition NC_ENUM : nc_type := (15)%Z.
Definition NC_COMPOUND : nc_type := (16)%Z.

Definition NC_GLOBAL : Z := (-1)%Z.
Definition NC_MAX_NAME : nat := 256.
Definition X_INT_MAX : Z := (2147483647)%Z.
(** Bit of [h5->flags]: the file is in define mode. *)
Definition NC_INDEF : Z := (8)%Z.
(** Bit of [h5->cmode]: the file follows the classic model. *)
Definition NC_CLASSIC_MODEL : Z := (256)%Z.

Definition _FillValue : string := "_FillValue".
Definition NCPROPS : string := "_NCProperties".
Definition ISNETCDF4ATT : string := "_IsNetcdf4".
Definition SUPERBLOCKATT : string := "_SuperblockVersion".

(** The error codes the two files return. *)
Inductive nc_err :=
  | NC_NOERR | NC_EBADID | NC_EINVAL | NC_EPERM | NC_ENOTINDEFINE
  | NC_EINDEFINE | NC_ENAMEINUSE | NC_ENOTATT | NC_EBADTYPE | NC_ENOTVAR
  | NC_ECHAR | NC_EBADNAME | NC_ERANGE | NC_ENOMEM | NC_EMAXNAME
  | NC_EATTMETA | NC_EHDFERR | NC_ESTRICTNC3 | NC_ELATEFILL | NC_EINTERNAL.

(** [retval == NC_NOERR]. *)
Definition is_ok (e : nc_err) : bool :=
  match e with NC_NOERR => true | _ => false end.

(** [word & mask] is non-zero. *)
Definition flag_set (word mask : Z) : bool := negb (Z.land word mask =? 0)%Z.

(** Conversion of an [int] to [size_t], and the C integer casts of
    [nc4_get_att_special]. *)
Definition to_size_t (z : Z) : Z := (z mod 2 ^ 64)%Z.

Definition cast_unsigned (bits : Z) (z : Z) : Z := (z mod 2 ^ bits)%Z.

Definition cast_signed (bits : Z) (z : Z) : Z :=
  let u := (z mod 2 ^ bits)%Z in
  if (u <? 2 ^ (bits - 1))%Z then u else (u - 2 ^ bits)%Z.

(** What goes wrong without an error code. *)
Inductive fault := NullPointer | AssertFailed | WrongPayload.

Inductive result (A : Type) :=
  | Ok (a : A)
  | Crash (f : fault).
Arguments Ok {A} _.
Arguments Crash {A} _.

(** [nc_vlen_t] / [hvl_t]: a length and a pointer to the elements, NULL
    after a failed allocation. *)
Record nc_vlen_t := mkVlen {
  vl_len : nat;
  vl_p : option (list Z)
}.

(** A buffer behind a [void *]: an array of numeric or character elements,
    an array of C strings (each possibly NULL), or an array of
    variable-length elements. *)
Inductive payload :=
  | Raw (elems : list Z)
  | Strings (strs : list (option string))
  | Vlens (vls : list nc_vlen_t).

(** [malloc]/[strdup]/[calloc]: the allocator is a budget of allocations
    that still succeed. *)
Definition alloc (mem : nat) : option nat :=
  match mem with
  | O => None
  | S mem' => Some mem'
  end.

(** A loop that allocates a copy of each element and stops at the first
    failure: the cells written, whether all were copied, the budget left.
    [needs x] is false for an element copied without allocation (a NULL
    string). The source stores the result of the allocation in the
    destination cell before it tests it
    ([if (!(dest[i] = strdup(src[i]))) BAIL(NC_ENOMEM)]), so on a failure
    the cells written are the copied prefix followed by [failed x], the
    cell with its NULL pointer. *)
Fixpoint copy_each {X : Type} (needs : X -> bool) (failed : X -> X)
    (xs : list X) (mem : nat) : list X * bool * nat :=
  match xs with
  | [] => ([], true, mem)
  | x :: xs' =>
      if needs x then
        match alloc mem with
        | None => ([failed x], false, mem)
        | Some mem' =>
            let '(done, ok, mem'') := copy_each needs failed xs' mem' in
            (x :: done, ok, mem'')
        end
      else
        let '(done, ok, mem'') := copy_each needs failed xs' mem in
        (x :: done, ok, mem'')
  end.

(** The cell of a string after a failed [strdup], and of a variable-length
    element after a failed [malloc]: the length has been stored, the
    pointer is NULL. *)
Definition failed_string (s : option string) : option string := None.

Definition failed_vlen (v : nc_vlen_t) : nc_vlen_t :=
  {| vl_len := vl_len v; vl_p := None |}.

(** ** The metadata structures of nc4attr.c *)

Record NC_ATT_INFO_T := mkAtt {
  att_hdr : NC_OBJ;
  att_nc_typeid : nc_type;
  att_len : nat;
  att_data : option (list Z);
  att_stdata : option (list (option string));
  att_vldata : option (list nc_vlen_t);
  att_dirty : bool;
  att_created : bool
}.

#[export] Instance att_header : Header NC_ATT_INFO_T := att_hdr.

Record NC_TYPE_INFO_T := mkType {
  type_hdr_id : nc_type;
  nc_type_class : nc_type;
  base_nc_typeid : nc_type
}.

Record NC_VAR_INFO_T := mkVar {
  var_hdr : NC_OBJ;
  var_att : NCindex NC_ATT_INFO_T;
  type_info : NC_TYPE_INFO_T;
  written_to : bool;
  fill_value : option payload;
  var_created : bool;
  fill_val_changed : bool;
  attr_dirty : bool
}.

#[export] Instance var_header : Header NC_VAR_INFO_T := var_hdr.

Record NC_GRP_INFO_T := mkGrp {
  grp_parent : option nat;
  grp_vars : NCindex NC_VAR_INFO_T;
  grp_att : NCindex NC_ATT_INFO_T;
  hdf_grpid : Z
}.

Record NC_HDF5_FILE_INFO_T := mkH5 {
  h5_flags : Z;
  h5_cmode : Z;
  no_write : bool;
  propattr_version : Z;
  superblockversion : Z
}.

(** What [nc4_find_nc_grp_h5(ncid, &nc, &grp, &h5)] finds: the file (its
    external id), the group [ncid] names and the HDF5 file info. The
    lookup itself is not among the sources; the embedding starts where it
    has succeeded. *)
Record nc_file := mkFile {
  nc_ext_ncid : Z;
  nc_h5 : NC_HDF5_FILE_INFO_T;
  nc_grp : NC_GRP_INFO_T
}.

(** The collaborators of nc4attr.c that are defined elsewhere in the
    library: name normalisation and checking, the type catalogue, the type
    converter, the provenance builder, define mode and the HDF5 calls.
    [NC4_redef] acts on the HDF5 file info, where define mode is recorded.
    [nc4_convert_type src src_type dest_type len strict] returns the error
    code, [range_error] and the destination buffer. [H5Adelete] returns
    whether the call succeeded ([>= 0]). *)
Record externals := mkExternals {
  nc4_normalize_name : string -> nc_err * string;
  nc4_check_name : string -> nc_err * string;
  nc4typelen : nc_type -> Z;
  nc4_get_typelen_mem : NC_HDF5_FILE_INFO_T -> nc_type -> nc_err * nat;
  nc4_get_typeclass : NC_HDF5_FILE_INFO_T -> nc_type -> nc_err * nc_type;
  nc4_find_type :
    NC_HDF5_FILE_INFO_T -> nc_type -> nc_err * NC_TYPE_INFO_T;
  nc4_convert_type :
    option (list Z) -> nc_type -> nc_type -> nat -> bool ->
    nc_err * bool * list Z;
  NC4_buildpropinfo : NC_HDF5_FILE_INFO_T -> nc_err * string;
  NC4_isnetcdf4 : NC_HDF5_FILE_INFO_T -> Z;
  NC4_redef : NC_HDF5_FILE_INFO_T -> nc_err * NC_HDF5_FILE_INFO_T;
  H5Adelete : Z -> string -> bool;
  nc4_open_var_grp2 : NC_GRP_INFO_T -> Z -> nc_err * Z
}.

(** Modelled from the spec: the reserved attributes. "A small fixed set of
    globally reserved names (library-provenance string, modern binary model
    flag, underlying storage-format version flag)"; [ra_nameonly] is
    [flags & NAMEONLYFLAG]. The table and [NC_findreserved] are not among
    the sources. *)
Record NC_reservedatt := mkReserved {
  ra_name : string;
  ra_nameonly : bool
}.

Definition NC_reserved : list NC_reservedatt :=
  [ {| ra_name := NCPROPS; ra_nameonly := true |};
    {| ra_name := ISNETCDF4ATT; ra_nameonly := true |};
    {| ra_name := SUPERBLOCKATT; ra_nameonly := true |} ].

Definition NC_findreserved (name : string) : option NC_reservedatt :=
  find (fun ra => streq (ra_name ra) name) NC_reserved.

(** [ra != NULL && (ra->flags & NAMEONLYFLAG)]. *)
Definition reserved_nameonly (name : string) : bool :=
  match NC_findreserved name with
  | Some ra => ra_nameonly ra
  | None => false
  end.

(** [ncindexith(index, i)] called with an [int]: the conversion to [size_t]
    sends a negative [i] past the end of any vector. *)
Definition ncindexith_int {A : Type} (index : NCindex A) (i : Z) : option A :=
  if (i <? 0)%Z then None else ncindexith index (Z.to_nat i).

(** Where an attribute list lives: in the group or in a variable of it. *)
Inductive attloc := GroupAtts | VarAtts (varpos : nat).

(** [getattlist]: the list, or NULL when the variable does not exist;
    [assert(var->hdr.id == varid)]. *)
Definition getattlist (grp : NC_GRP_INFO_T) (varid : Z)
    : result (option (attloc * NCindex NC_ATT_INFO_T)) :=
  if (varid =? NC_GLOBAL)%Z then Ok (Some (GroupAtts, grp_att grp))
  else
    match ncindexith_int (grp_vars grp) varid with
    | None => Ok None
    | Some var =>
        if (Z.of_nat (obj_id (var_hdr var)) =? varid)%Z then
          Ok (Some (VarAtts (Z.to_nat varid), var_att var))
        else Crash AssertFailed
    end.

(** Writing through the pointer [getattlist] returned. *)
Definition set_var_att (var : NC_VAR_INFO_T) (l : NCindex NC_ATT_INFO_T)
    : NC_VAR_INFO_T :=
  {| var_hdr := var_hdr var; var_att := l; type_info := type_info var;
     written_to := written_to var; fill_value := fill_value var;
     var_created := var_created var;
     fill_val_changed := fill_val_changed var;
     attr_dirty := attr_dirty var |}.

Definition set_attlist (grp : NC_GRP_INFO_T) (loc : attloc)
    (l : NCindex NC_ATT_INFO_T) : NC_GRP_INFO_T :=
  match loc with
  | GroupAtts =>
      {| grp_parent := grp_parent grp; grp_vars := grp_vars grp;
         grp_att := l; hdf_grpid := hdf_grpid grp |}
  | VarAtts v =>
      {| grp_parent := grp_parent grp;
         grp_vars :=
           {| idx_list :=
                alter (fun var => set_var_att var l) v
                  (idx_list (grp_vars grp));
              idx_map := idx_map (grp_vars grp) |};
         grp_att := grp_att grp; hdf_grpid := hdf_grpid grp |}
  end.

Definition set_grp (F : nc_file) (grp : NC_GRP_INFO_T) : nc_file :=
  {| nc_ext_ncid := nc_ext_ncid F; nc_h5 := nc_h5 F; nc_grp := grp |}.

(** Writing through an attribute pointer: the object at position [p]. *)
Definition set_att (l : NCindex NC_ATT_INFO_T) (p : nat)
    (att : NC_ATT_INFO_T) : NCindex NC_ATT_INFO_T :=
  {| idx_list := <[p := att]> (idx_list l); idx_map := idx_map l |}.

(** [h5->flags & NC_INDEF] and [h5->cmode & NC_CLASSIC_MODEL]. *)
Definition indef (h5 : NC_HDF5_FILE_INFO_T) : bool :=
  flag_set (h5_flags h5) NC_INDEF.

Definition classic (h5 : NC_HDF5_FILE_INFO_T) : bool :=
  flag_set (h5_cmode h5) NC_CLASSIC_MODEL.

(** The values a get writes through its output pointers. *)
Record get_out := mkOut {
  out_xtype : option nc_type;
  out_len : option nat;
  out_attnum : option Z;
  out_data : option payload
}.

Definition no_out : get_out :=
  {| out_xtype := None; out_len := None; out_attnum := None;
     out_data := None |}.

(** The bytes of a C string. *)
Definition chars_of (s : string) : list Z :=
  map (fun c => Z.of_nat (nat_of_ascii c)) (list_ascii_of_string s).

(** The [switch (mem_type)] of [nc4_get_att_special]: the cast of [iv], or
    nothing for the [default] case. [char] is taken as signed. *)
Definition cast_iv (mem_type : nc_type) (iv : Z) : option Z :=
  if (mem_type =? NC_BYTE)%Z then Some (cast_signed 8 iv)
  else if (mem_type =? NC_SHORT)%Z then Some (cast_signed 16 iv)
  else if (mem_type =? NC_INT)%Z then Some (cast_signed 32 iv)
  else if (mem_type =? NC_UBYTE)%Z then Some (cast_unsigned 8 iv)
  else if (mem_type =? NC_USHORT)%Z then Some (cast_unsigned 16 iv)
  else if (mem_type =? NC_UINT)%Z then Some (cast_unsigned 32 iv)
  else if (mem_type =? NC_INT64)%Z then Some (cast_signed 64 iv)
  else if (mem_type =? NC_UINT64)%Z then Some (cast_unsigned 64 iv)
  else None.

(** The final lines of a get or put: a range error replaces the code. *)
Definition exit_code (retval : nc_err) (range_error : bool) : nc_err :=
  if range_error then NC_ERANGE else retval.

Definition is_byte_pair (t : nc_type) : bool :=
  (t =? NC_UBYTE)%Z || (t =? NC_BYTE)%Z.

(** The attribute [a] with its id set to [i]. *)
Definition with_id (a : NC_ATT_INFO_T) (i : nat) : NC_ATT_INFO_T :=
  {| att_hdr :=
       {| obj_sort := obj_sort (att_hdr a); obj_name := obj_name (att_hdr a);
          obj_id := i; obj_hashkey := obj_hashkey (att_hdr a) |};
     att_nc_typeid := att_nc_typeid a; att_len := att_len a;
     att_data := att_data a; att_stdata := att_stdata a;
     att_vldata := att_vldata a; att_dirty := att_dirty a;
     att_created := att_created a |}.

(** The numbering of an attribute list: the id of an attribute is its
    position in the vector. *)
Definition ids_are_positions (l : list NC_ATT_INFO_T) : Prop :=
  forall i a, l !! i = Some a -> obj_id (att_hdr a) = i.

(** The names of the attributes of a vector, in order. *)
Definition att_names (l : list NC_ATT_INFO_T) : list string :=
  (fun a => obj_name (att_hdr a)) <$> l.

(** ** The attribute functions (libsrc4/nc4attr.c) *)

Section Attributes.

Variable NCIUSEHASH : bool.
Variable pol : hashmap_policy.
Variable ext : externals.

(** [nc4_get_att_special]. *)
Definition nc4_get_att_special (h5 : NC_HDF5_FILE_INFO_T) (name : string)
    (filetypep : bool) (mem_type : nc_type) (lenp attnump data : bool)
    : nc_err * get_out :=
  if attnump then (NC_EATTMETA, no_out)
  else if streq name NCPROPS then
    if (propattr_version h5 =? 0)%Z then (NC_ENOTATT, no_out)
    else
      let mem_type := if (mem_type =? NC_NAT)%Z then NC_CHAR else mem_type in
      if negb (mem_type =? NC_CHAR)%Z then (NC_ECHAR, no_out)
      else
        let xt := if filetypep then Some NC_CHAR else None in
        let '(stat, propdata) := NC4_buildpropinfo ext h5 in
        if negb (is_ok stat) then
          (stat, {| out_xtype := xt; out_len := None; out_attnum := None;
                    out_data := None |})
        else
          let len := String.length propdata in
          (NC_NOERR,
           {| out_xtype := xt;
              out_len := if lenp then Some len else None;
              out_attnum := None;
              out_data :=
                if data then Some (Raw (chars_of propdata ++ [0%Z]))
                else None |})
  else if streq name ISNETCDF4ATT || streq name SUPERBLOCKATT then
    let xt := if filetypep then Some NC_INT else None in
    let ln := if lenp then Some 1 else None in
    let iv :=
      if streq name SUPERBLOCKATT then to_size_t (superblockversion h5)
      else to_size_t (NC4_isnetcdf4 ext h5) in
    let mem_type := if (mem_type =? NC_NAT)%Z then NC_INT else mem_type in
    if data then
      match cast_iv mem_type iv with
      | Some v =>
          (NC_NOERR,
           {| out_xtype := xt; out_len := ln; out_attnum := None;
              out_data := Some (Raw [v]) |})
      | None =>
          (NC_ERANGE,
           {| out_xtype := xt; out_len := ln; out_attnum := None;
              out_data := None |})
      end
    else
      (NC_NOERR,
       {| out_xtype := xt; out_len := ln; out_attnum := None;
          out_data := None |})
  else (NC_NOERR, no_out).

(** Modelled from the spec: [nc4_find_grp_att], "Resolve via ListIndex;
    NotFound if absent" (the function is not among the sources). The
    callers of nc4attr.c always pass the name ("Always locate the attribute
    by name, never by attnum"). *)
Definition nc4_find_grp_att (grp : NC_GRP_INFO_T) (varid : Z)
    (name : string) (attnum : Z)
    : result (nc_err + nat * NC_ATT_INFO_T) :=
  match getattlist grp varid with
  | Crash f => Crash f
  | Ok None => Ok (inl NC_ENOTVAR)
  | Ok (Some (_, attlist)) =>
      match ncindexlookup NCIUSEHASH pol attlist name with
      | None => Ok (inl NC_ENOTATT)
      | Some pa => Ok (inr pa)
      end
  end.

(** [nc4_get_att], lines 226-279: the copy to the caller's buffer and the
    exit. [bufr] is the converted buffer or [att->data]; [retval] is
    [NC_NOERR] on entry. *)
Definition nc4_get_att_copy (h5 : NC_HDF5_FILE_INFO_T)
    (att : NC_ATT_INFO_T) (out : get_out) (data : bool)
    (bufr : option (list Z)) (range_error : bool) (mem : nat)
    : result (nc_err * get_out) :=
  let with_data d :=
    {| out_xtype := out_xtype out; out_len := out_len out;
       out_attnum := out_attnum out; out_data := d |} in
  if data then
    match att_vldata att, att_stdata att with
    | Some vldata, _ =>
        let '(retval, type) := nc4_find_type ext h5 (att_nc_typeid att) in
        if negb (is_ok retval) then Ok (exit_code retval range_error, out)
        else
          let '(retval, base_typelen) :=
            nc4_get_typelen_mem ext h5 (base_nc_typeid type) in
          if negb (is_ok retval) then Ok (exit_code retval range_error, out)
          else
            let '(copied, ok, _) :=
              copy_each (fun _ => true) failed_vlen
                (take (att_len att) vldata) mem in
            if ok then
              Ok (exit_code NC_NOERR range_error,
                  with_data (Some (Vlens copied)))
            else
              Ok (exit_code NC_ENOMEM range_error,
                  with_data (Some (Vlens copied)))
    | None, Some stdata =>
        let '(copied, ok, _) :=
          copy_each (fun s : option string => bool_decide (s <> None))
            failed_string (take (att_len att) stdata) mem in
        if ok then
          Ok (exit_code NC_NOERR range_error,
              with_data (Some (Strings copied)))
        else
          Ok (exit_code NC_ENOMEM range_error,
              with_data (Some (Strings copied)))
    | None, None =>
        match bufr with
        | None => Crash NullPointer
        | Some b =>
            Ok (exit_code NC_NOERR range_error, with_data (Some (Raw b)))
        end
    end
  else Ok (exit_code NC_NOERR range_error, out).

(** [nc4_get_att], lines 166-224, for the attribute found. *)
Definition nc4_get_att_found (h5 : NC_HDF5_FILE_INFO_T)
    (att : NC_ATT_INFO_T) (xtype : bool) (mem_type : nc_type)
    (lenp attnum data : bool) (mem : nat) : result (nc_err * get_out) :=
  let mem_type :=
    if (mem_type =? NC_NAT)%Z then att_nc_typeid att else mem_type in
  if data && negb (att_len att =? 0)%nat
     && (((att_nc_typeid att =? NC_CHAR)%Z && negb (mem_type =? NC_CHAR)%Z)
         || (negb (att_nc_typeid att =? NC_CHAR)%Z
             && (mem_type =? NC_CHAR)%Z))
  then Ok (NC_ECHAR, no_out)
  else
    let out :=
      {| out_xtype := if xtype then Some (att_nc_typeid att) else None;
         out_len := if lenp then Some (att_len att) else None;
         out_attnum :=
           if attnum then Some (Z.of_nat (obj_id (att_hdr att))) else None;
         out_data := None |} in
    if (att_len att =? 0)%nat then Ok (NC_NOERR, out)
    else
      let '(retval, type_size) := nc4_get_typelen_mem ext h5 mem_type in
      if negb (is_ok retval) then Ok (retval, out)
      else if data && negb (att_len att =? 0)%nat
              && negb (mem_type =? att_nc_typeid att)%Z
              && negb (mem_type =? NC_NAT)%Z
              && negb ((mem_type =? NC_CHAR)%Z
                       && is_byte_pair (att_nc_typeid att))
      then
        match alloc mem with
        | None => Ok (NC_ENOMEM, out)
        | Some mem' =>
            let '(retval, range_error, bufr) :=
              nc4_convert_type ext (att_data att) (att_nc_typeid att)
                mem_type (att_len att) (classic h5) in
            if negb (is_ok retval) then
              Ok (exit_code retval range_error, out)
            else
              let range_error :=
                if classic h5 && is_byte_pair (att_nc_typeid att)
                   && is_byte_pair mem_type && range_error
                then false else range_error in
              nc4_get_att_copy h5 att out data (Some bufr) range_error mem'
        end
      else nc4_get_att_copy h5 att out data (att_data att) false mem.

(** [nc4_get_att]. [attnum] is the value behind the pointer, or [None] for
    a NULL pointer; [mem] is the allocation budget. *)
Definition nc4_get_att (F : nc_file) (ncid varid : Z) (name : option string)
    (xtype : bool) (mem_type : nc_type) (lenp : bool) (attnum : option Z)
    (data : bool) (mem : nat) : result (nc_err * get_out) :=
  let my_attnum := default (-1)%Z attnum in
  let grp := nc_grp F in
  let h5 := nc_h5 F in
  let continue :=
    match name with
    | None => Ok (NC_EBADNAME, no_out)
    | Some name =>
        let '(retval, norm_name) := nc4_normalize_name ext name in
        if negb (is_ok retval) then Ok (retval, no_out)
        else if (nc_ext_ncid F =? ncid)%Z && (varid =? NC_GLOBAL)%Z
                && reserved_nameonly norm_name
        then
          Ok (nc4_get_att_special h5 norm_name xtype mem_type lenp
                (bool_decide (attnum <> None)) data)
        else
          match nc4_find_grp_att grp varid norm_name my_attnum with
          | Crash f => Crash f
          | Ok (inl retval) => Ok (retval, no_out)
          | Ok (inr (_, att)) =>
              nc4_get_att_found h5 att xtype mem_type lenp
                (bool_decide (attnum <> None)) data mem
          end
    end in
  if (varid =? NC_GLOBAL)%Z then continue
  else
    match ncindexith_int (grp_vars grp) varid with
    | None => Ok (NC_ENOTVAR, no_out)
    | Some var =>
        if (Z.of_nat (obj_id (var_hdr var)) =? varid)%Z then continue
        else Crash AssertFailed
    end.

(** [NC4_inq_att], [NC4_inq_attid] and [NC4_get_att]. *)
Definition NC4_inq_att (F : nc_file) (ncid varid : Z) (name : option string)
    (xtypep lenp : bool) (mem : nat) : result (nc_err * get_out) :=
  nc4_get_att F ncid varid name xtypep NC_NAT lenp None false mem.

Definition NC4_inq_attid (F : nc_file) (ncid varid : Z)
    (name : option string) (attnump : option Z) (mem : nat)
    : result (nc_err * get_out) :=
  nc4_get_att F ncid varid name false NC_NAT false attnump false mem.

Definition NC4_get_att (F : nc_file) (ncid varid : Z) (name : option string)
    (value : bool) (memtype : nc_type) (mem : nat)
    : result (nc_err * get_out) :=
  nc4_get_att F ncid varid name false memtype false None value mem.

(** *** Rename *)

Definition set_h5 (F : nc_file) (h5 : NC_HDF5_FILE_INFO_T) : nc_file :=
  {| nc_ext_ncid := nc_ext_ncid F; nc_h5 := h5; nc_grp := nc_grp F |}.

(** [NC4_rename_att], lines 459-475: the attribute is deleted from the
    HDF5 file if it was created there. The result is an error code to
    return, or the new value of [att->created]. *)
Definition rename_delete_original (grp : NC_GRP_INFO_T) (varid : Z)
    (att : NC_ATT_INFO_T) : nc_err + bool :=
  if att_created att then
    if (varid =? NC_GLOBAL)%Z then
      if H5Adelete ext (hdf_grpid grp) (obj_name (att_hdr att)) then inr false
      else inl NC_EHDFERR
    else
      let '(retval, datasetid) := nc4_open_var_grp2 ext grp varid in
      if negb (is_ok retval) then inl retval
      else if H5Adelete ext datasetid (obj_name (att_hdr att)) then inr false
      else inl NC_EHDFERR
  else inr (att_created att).

(** Lines 477-483: the new name, its hash key, the dirty flag. The
    duplicate of the name is taken to succeed. *)
Definition renamed (att : NC_ATT_INFO_T) (norm_newname : string)
    (created : bool) : NC_ATT_INFO_T :=
  {| att_hdr :=
       {| obj_sort := obj_sort (att_hdr att); obj_name := norm_newname;
          obj_id := obj_id (att_hdr att);
          obj_hashkey := NC_hashmapkey pol norm_newname |};
     att_nc_typeid := att_nc_typeid att; att_len := att_len att;
     att_data := att_data att; att_stdata := att_stdata att;
     att_vldata := att_vldata att; att_dirty := true;
     att_created := created |}.

(** [NC4_rename_att]. The local [var] stays NULL, so the variable is not
    marked dirty. *)
Definition NC4_rename_att (F : nc_file) (ncid varid : Z)
    (name newname : option string) : result (nc_err * nc_file) :=
  match name, newname with
  | Some name, Some newname =>
      if (NC_MAX_NAME <? String.length newname)%nat then Ok (NC_EMAXNAME, F)
      else
        let grp := nc_grp F in
        let h5 := nc_h5 F in
        if no_write h5 then Ok (NC_EPERM, F)
        else
          let '(retval, norm_newname) := nc4_check_name ext newname in
          if negb (is_ok retval) then Ok (retval, F)
          else
            match getattlist grp varid with
            | Crash f => Crash f
            | Ok None => Ok (NC_ENOTVAR, F)
            | Ok (Some (loc, list)) =>
                match ncindexlookup NCIUSEHASH pol list norm_newname with
                | Some _ => Ok (NC_ENAMEINUSE, F)
                | None =>
                    let '(retval, norm_name) :=
                      nc4_normalize_name ext name in
                    if negb (is_ok retval) then Ok (retval, F)
                    else
                      match ncindexlookup NCIUSEHASH pol list norm_name with
                      | None => Ok (NC_ENOTATT, F)
                      | Some (p, att) =>
                          if negb (indef h5)
                             && (String.length (obj_name (att_hdr att))
                                 <? String.length norm_newname)%nat
                             && classic h5
                          then Ok (NC_ENOTINDEFINE, F)
                          else
                            match rename_delete_original grp varid att with
                            | inl retval => Ok (retval, F)
                            | inr created =>
                                let att' := renamed att norm_newname created in
                                let r :=
                                  ncindexrebuild NCIUSEHASH pol
                                    (set_att list p att') in
                                Ok (if fst r then NC_NOERR else NC_EINTERNAL,
                                    set_grp F (set_attlist grp loc (snd r)))
                            end
                      end
                end
            end
  | _, _ => Ok (NC_EINVAL, F)
  end.

(** *** Delete *)

(** Modelled from the spec: [nc4_att_list_del], "removes via ListIndex
    remove" (the function is not among the sources): the attribute is taken
    out of the index with [ncindexidel] at the position its id names. *)
Definition nc4_att_list_del (list : NCindex NC_ATT_INFO_T)
    (att : NC_ATT_INFO_T) : nc_err * NCindex NC_ATT_INFO_T :=
  (NC_NOERR, snd (ncindexidel NCIUSEHASH list (obj_id (att_hdr att)))).

(** The body of the renumbering loop:
    [if(a->hdr.id > deletedid) a->hdr.id--]. *)
Definition renumber (deletedid : nat) (a : NC_ATT_INFO_T) : NC_ATT_INFO_T :=
  if (deletedid <? obj_id (att_hdr a))%nat then
    with_id a (pred (obj_id (att_hdr a)))
  else a.

(** Lines 538-545 of [NC4_del_att] and 680-687, 694-701 of [NC4_put_att]:
    outside define mode a classic-model file is refused with
    [classic_err], any other file is put into define mode. *)
Definition require_define (h5 : NC_HDF5_FILE_INFO_T) (classic_err : nc_err)
    : nc_err * NC_HDF5_FILE_INFO_T :=
  if classic h5 then (classic_err, h5) else NC4_redef ext h5.

(** [NC4_del_att]. [locid] is initialised to 0 and never assigned, so
    [assert(locid)] fails for an attribute that was created in the file. *)
Definition NC4_del_att (F : nc_file) (ncid varid : Z) (name : option string)
    : result (nc_err * nc_file) :=
  match name with
  | None => Ok (NC_EINVAL, F)
  | Some name =>
      if no_write (nc_h5 F) then Ok (NC_EPERM, F)
      else
        let '(retval, h5) :=
          if negb (indef (nc_h5 F)) then
            require_define (nc_h5 F) NC_ENOTINDEFINE
          else (NC_NOERR, nc_h5 F) in
        let F := set_h5 F h5 in
        let grp := nc_grp F in
        if negb (is_ok retval) then Ok (retval, F)
        else
          match getattlist grp varid with
          | Crash f => Crash f
          | Ok None => Ok (NC_ENOTVAR, F)
          | Ok (Some (loc, attlist)) =>
              match ncindexlookup NCIUSEHASH pol attlist name with
              | None => Ok (NC_ENOTATT, F)
              | Some (_, att) =>
                  if att_created att then Crash AssertFailed
                  else
                    let deletedid := obj_id (att_hdr att) in
                    let '(retval, attlist) := nc4_att_list_del attlist att in
                    if negb (is_ok retval) then
                      Ok (retval, set_grp F (set_attlist grp loc attlist))
                    else
                      let attlist :=
                        {| idx_list :=
                             map (renumber deletedid) (idx_list attlist);
                           idx_map := idx_map attlist |} in
                      let r := ncindexrebuild NCIUSEHASH pol attlist in
                      Ok (if fst r then NC_NOERR else NC_EINTERNAL,
                          set_grp F (set_attlist grp loc (snd r)))
              end
          end
  end.

(** *** Put *)

(** Modelled from the spec: [nc4_att_list_add], "On first creation, append
    a new record", "id = current ListIndex length at append time" (the
    function is not among the sources). It returns the code, the index, and
    the new attribute with its position. *)
Definition nc4_att_list_add (list : NCindex NC_ATT_INFO_T) (name : string)
    : nc_err * NCindex NC_ATT_INFO_T * nat * NC_ATT_INFO_T :=
  let new_att :=
    {| att_hdr :=
         {| obj_sort := NCATT; obj_name := name; obj_id := ncindexsize list;
            obj_hashkey := NC_hashmapkey pol name |};
       att_nc_typeid := NC_NAT; att_len := 0; att_data := None;
       att_stdata := None; att_vldata := None; att_dirty := false;
       att_created := false |} in
  (NC_NOERR, snd (ncindexadd NCIUSEHASH pol list new_att), ncindexsize list,
   new_att).

(** Lines 734-755: the metadata is filled in and the string and
    variable-length payloads are released. *)
Definition put_metadata (att : NC_ATT_INFO_T) (file_type : nc_type)
    (len : nat) : NC_ATT_INFO_T :=
  {| att_hdr := att_hdr att; att_nc_typeid := file_type; att_len := len;
     att_data := att_data att; att_stdata := None; att_vldata := None;
     att_dirty := true; att_created := att_created att |}.

Definition set_payload (att : NC_ATT_INFO_T) (data : option (list Z))
    (stdata : option (list (option string)))
    (vldata : option (list nc_vlen_t)) : NC_ATT_INFO_T :=
  {| att_hdr := att_hdr att; att_nc_typeid := att_nc_typeid att;
     att_len := att_len att; att_data := data; att_stdata := stdata;
     att_vldata := vldata; att_dirty := att_dirty att;
     att_created := att_created att |}.

(** Lines 923-924: [att->dirty = NC_TRUE; att->created = NC_FALSE]. *)
Definition put_done (att : NC_ATT_INFO_T) : NC_ATT_INFO_T :=
  {| att_hdr := att_hdr att; att_nc_typeid := att_nc_typeid att;
     att_len := att_len att; att_data := att_data att;
     att_stdata := att_stdata att; att_vldata := att_vldata att;
     att_dirty := true; att_created := false |}.

(** [NC4_put_att], lines 840-938: the payload is copied by type class.
    [commit] writes the attribute back through its pointer. The result of
    a failed allocation is stored in the record before the function
    bails out, as in the source. *)
Definition put_copy (h5 : NC_HDF5_FILE_INFO_T)
    (commit : NC_ATT_INFO_T -> nc_file) (new_att : bool)
    (att : NC_ATT_INFO_T) (file_type : nc_type) (len : nat)
    (data : option payload) (mem_type : nc_type) (type_size : nat)
    (mem : nat) : result (nc_err * nc_file) :=
  if negb (att_len att =? 0)%nat then
    let '(retval, type_class) := nc4_get_typeclass ext h5 file_type in
    if negb (is_ok retval) then Ok (retval, commit att)
    else
      match data with
      | None => Crash AssertFailed
      | Some d =>
          if (type_class =? NC_VLEN)%Z then
            let '(retval, type) := nc4_find_type ext h5 file_type in
            if negb (is_ok retval) then Ok (retval, commit att)
            else
              let '(retval, base_typelen) :=
                nc4_get_typelen_mem ext h5 (base_nc_typeid type) in
              if negb (is_ok retval) then Ok (retval, commit att)
              else
                match alloc mem with
                | None =>
                    Ok (NC_ENOMEM,
                        commit (set_payload att (att_data att)
                                  (att_stdata att) None))
                | Some mem1 =>
                    match d with
                    | Vlens vldata1 =>
                        let '(copied, ok, _) :=
                          copy_each (fun _ => true) failed_vlen
                            (take (att_len att) vldata1) mem1 in
                        let att' :=
                          set_payload att (att_data att) (att_stdata att)
                            (Some copied) in
                        if ok then Ok (NC_NOERR, commit (put_done att'))
                        else Ok (NC_ENOMEM, commit att')
                    | _ => Crash WrongPayload
                    end
                end
          else if (type_class =? NC_STRING)%Z then
            match alloc mem with
            | None =>
                Ok (NC_ENOMEM,
                    commit (set_payload att (att_data att) None
                              (att_vldata att)))
            | Some mem1 =>
                let kept := if new_att then att_data att else None in
                match d with
                | Strings strs =>
                    let '(copied, ok, _) :=
                      copy_each
                        (fun s : option string => bool_decide (s <> None))
                        failed_string (take (att_len att) strs) mem1 in
                    let att' :=
                      set_payload att kept (Some copied) (att_vldata att) in
                    if ok then Ok (NC_NOERR, commit (put_done att'))
                    else Ok (NC_ENOMEM, commit att')
                | _ => Crash WrongPayload
                end
            end
          else
            match alloc mem with
            | None =>
                Ok (NC_ENOMEM,
                    commit (set_payload att None (att_stdata att)
                              (att_vldata att)))
            | Some mem1 =>
                match d with
                | Raw elems =>
                    if (type_class =? NC_OPAQUE)%Z
                       || (type_class =? NC_COMPOUND)%Z
                       || (type_class =? NC_ENUM)%Z
                    then
                      Ok (NC_NOERR,
                          commit
                            (put_done
                               (set_payload att (Some (take len elems))
                                  (att_stdata att) (att_vldata att))))
                    else
                      let '(retval, range_error, dest) :=
                        nc4_convert_type ext (Some elems) mem_type file_type
                          len (classic h5) in
                      let att' :=
                        set_payload att (Some dest) (att_stdata att)
                          (att_vldata att) in
                      if negb (is_ok retval) then Ok (retval, commit att')
                      else
                        Ok (if range_error then NC_ERANGE else NC_NOERR,
                            commit (put_done att'))
                | _ => Crash WrongPayload
                end
            end
      end
  else Ok (NC_NOERR, commit (put_done att)).

(** [NC4_put_att], lines 723-838: the record is appended if it is new, the
    metadata is filled in, and the [_FillValue] of a variable is handled.
    The local [var] is initialised to NULL and assigned nowhere in the
    function, so the first statement of the [_FillValue] branch,
    [att->nc_typeid != var->type_info->hdr.id], reads through a NULL
    pointer and the rest of the branch is never reached. *)
Definition put_store (F : nc_file) (loc : attloc)
    (attlist : NCindex NC_ATT_INFO_T) (found : option (nat * NC_ATT_INFO_T))
    (norm_name : string) (varid : Z) (file_type : nc_type) (len : nat)
    (data : option payload) (mem_type : nc_type) (type_size : nat)
    (mem : nat) : result (nc_err * nc_file) :=
  let new_att := bool_decide (found = None) in
  let '(ret, attlist, p, att) :=
    match found with
    | None => nc4_att_list_add attlist norm_name
    | Some (p, att) => (NC_NOERR, attlist, p, att)
    end in
  let commit att' :=
    set_grp F (set_attlist (nc_grp F) loc (set_att attlist p att')) in
  if negb (is_ok ret) then Ok (ret, commit att)
  else
    let att := put_metadata att file_type len in
    if streq (obj_name (att_hdr att)) _FillValue
       && negb (varid =? NC_GLOBAL)%Z
    then Crash NullPointer
    else
      put_copy (nc_h5 F) commit new_att att file_type len data mem_type
        type_size mem.

(** [len * nc4typelen(file_type) >
     (size_t)att->len * nc4typelen(att->nc_typeid)], in [size_t]. *)
Definition grows (att : NC_ATT_INFO_T) (file_type : nc_type) (len : nat)
    : bool :=
  (to_size_t (Z.of_nat (att_len att)
              * to_size_t (nc4typelen ext (att_nc_typeid att)))
   <? to_size_t (Z.of_nat len * to_size_t (nc4typelen ext file_type)))%Z.

(** [NC4_put_att]. *)
Definition NC4_put_att (F : nc_file) (ncid varid : Z) (name : option string)
    (file_type : nc_type) (len : nat) (data : option payload)
    (mem_type : nc_type) (mem : nat) : result (nc_err * nc_file) :=
  let grp := nc_grp F in
  let h5 := nc_h5 F in
  match getattlist grp varid with
  | Crash f => Crash f
  | Ok None => Ok (NC_ENOTVAR, F)
  | Ok (Some (loc, attlist)) =>
      if (X_INT_MAX <? Z.of_nat len)%Z then Ok (NC_EINVAL, F)
      else
        match name with
        | None => Ok (NC_EBADNAME, F)
        | Some name =>
            if (NC_MAX_NAME <? String.length name)%nat then
              Ok (NC_EBADNAME, F)
            else if negb (len =? 0)%nat && bool_decide (data = None) then
              Ok (NC_EINVAL, F)
            else if no_write h5 then Ok (NC_EPERM, F)
            else
              let '(retval, norm_name) := nc4_check_name ext name in
              if negb (is_ok retval) then Ok (retval, F)
              else if (nc_ext_ncid F =? ncid)%Z && (varid =? NC_GLOBAL)%Z
                      && bool_decide (grp_parent grp = None)
                      && reserved_nameonly name
              then Ok (NC_ENAMEINUSE, F)
              else
                let found := ncindexlookup NCIUSEHASH pol attlist norm_name in
                let outside :=
                  match found with
                  | None => negb (indef h5)
                  | Some (_, att) =>
                      negb (indef h5) && grows att file_type len
                  end in
                let '(retval, h5) :=
                  if outside then require_define h5 NC_EINDEFINE
                  else (NC_NOERR, h5) in
                let F := set_h5 F h5 in
                if negb (is_ok retval) then Ok (retval, F)
                else if (file_type =? NC_NAT)%Z || (mem_type =? NC_NAT)%Z
                then Ok (NC_EBADTYPE, F)
                else
                  let '(retval, type_size) :=
                    nc4_get_typelen_mem ext h5 file_type in
                  if negb (is_ok retval) then Ok (retval, F)
                  else if negb (file_type =? mem_type)%Z
                          && ((file_type =? NC_CHAR)%Z
                              || (mem_type =? NC_CHAR)%Z
                              || (file_type =? NC_STRING)%Z
                              || (mem_type =? NC_STRING)%Z)
                  then Ok (NC_ECHAR, F)
                  else if classic h5 && (NC_DOUBLE <? file_type)%Z then
                    Ok (NC_ESTRICTNC3, F)
                  else
                    put_store F loc attlist found norm_name varid file_type
                      len data mem_type type_size mem
        end
  end.

End Attributes.


(** ** Sample collaborators and data

    Concrete collaborators and small metadata states on which the
    functions above are run in the examples. *)

(** A hash table policy: the sum of the character codes as hash, a load
    factor of 3/4, and growth to [2 * capacity + 1]. *)
Definition sample_policy : hashmap_policy :=
  {| NC_hashmapkey :=
       fun s =>
         fold_left (fun h c => h + nat_of_ascii c) (list_ascii_of_string s) 0;
     overloaded := fun alloc active => (alloc * 3 / 4 <=? active)%nat;
     enlarge := fun alloc => 2 * alloc + 1 |}.

(** An object of a given name and id. *)
Definition sample_obj (name : string) (id : nat) : NC_OBJ :=
  {| obj_sort := NCATT; obj_name := name; obj_id := id;
     obj_hashkey := NC_hashmapkey sample_policy name |}.

(** The memory size of the atomic types. *)
Definition atomic_size (t : nc_type) : option nat :=
  if (t =? NC_BYTE)%Z || (t =? NC_CHAR)%Z || (t =? NC_UBYTE)%Z then Some 1
  else if (t =? NC_SHORT)%Z || (t =? NC_USHORT)%Z then Some 2
  else if (t =? NC_INT)%Z || (t =? NC_UINT)%Z || (t =? NC_FLOAT)%Z then Some 4
  else if (t =? NC_INT64)%Z || (t =? NC_UINT64)%Z || (t =? NC_DOUBLE)%Z
          || (t =? NC_STRING)%Z then Some 8
  else None.

(** The value range of the integer types. *)
Definition int_range (t : nc_type) : option (Z * Z) :=
  if (t =? NC_BYTE)%Z then Some (-128, 127)%Z
  else if (t =? NC_UBYTE)%Z then Some (0, 255)%Z
  else if (t =? NC_SHORT)%Z then Some (-32768, 32767)%Z
  else if (t =? NC_USHORT)%Z then Some (0, 65535)%Z
  else if (t =? NC_INT)%Z then Some (-2147483648, 2147483647)%Z
  else if (t =? NC_UINT)%Z then Some (0, 4294967295)%Z
  else if (t =? NC_INT64)%Z then
    Some (-9223372036854775808, 9223372036854775807)%Z
  else if (t =? NC_UINT64)%Z then Some (0, 18446744073709551615)%Z
  else None.

(** A converter between integer types: an element outside the range of the
    destination type sets [range_error] and is reduced modulo the width of
    the destination; other type pairs are refused. *)
Definition sample_convert (src : option (list Z)) (src_type dest_type : nc_type)
    (len : nat) (strict : bool) : nc_err * bool * list Z :=
  match src, int_range src_type, int_range dest_type with
  | Some xs, Some _, Some (lo, hi) =>
      (NC_NOERR,
       existsb (fun x => (x <? lo)%Z || (hi <? x)%Z) (take len xs),
       map (fun x => (lo + (x - lo) mod (hi - lo + 1))%Z) (take len xs))
  | _, _, _ => (NC_EBADTYPE, false, [])
  end.

Definition sample_redef (h5 : NC_HDF5_FILE_INFO_T)
    : nc_err * NC_HDF5_FILE_INFO_T :=
  if indef h5 then (NC_EINDEFINE, h5)
  else if no_write h5 then (NC_EPERM, h5)
  else
    (NC_NOERR,
     {| h5_flags := Z.lor (h5_flags h5) NC_INDEF; h5_cmode := h5_cmode h5;
        no_write := no_write h5; propattr_version := propattr_version h5;
        superblockversion := superblockversion h5 |}).

Definition sample_ext : externals :=
  {| nc4_normalize_name := fun s => (NC_NOERR, s);
     nc4_check_name :=
       fun s => if (String.length s =? 0)%nat then (NC_EBADNAME, s)
                else (NC_NOERR, s);
     nc4typelen :=
       fun t => match atomic_size t with
                | Some n => Z.of_nat n
                | None => (-1)%Z
                end;
     nc4_get_typelen_mem :=
       fun _ t => match atomic_size t with
                  | Some n => (NC_NOERR, n)
                  | None => (NC_EBADTYPE, 0)
                  end;
     nc4_get_typeclass :=
       fun _ t => match atomic_size t with
                  | Some _ =>
                      (NC_NOERR,
                       if (t =? NC_CHAR)%Z || (t =? NC_STRING)%Z then t
                       else if (t =? NC_FLOAT)%Z || (t =? NC_DOUBLE)%Z
                       then NC_FLOAT else NC_INT)
                  | None => (NC_EBADTYPE, NC_NAT)
                  end;
     nc4_find_type :=
       fun _ t =>
         (NC_EBADTYPE,
          {| type_hdr_id := t; nc_type_class := NC_NAT;
             base_nc_typeid := NC_NAT |});
     nc4_convert_type := sample_convert;
     NC4_buildpropinfo :=
       fun _ => (NC_NOERR, "version=1|netcdflibversion=4.6.1");
     NC4_isnetcdf4 := fun _ => 1%Z;
     NC4_redef := sample_redef;
     H5Adelete := fun _ _ => true;
     nc4_open_var_grp2 := fun _ _ => (NC_NOERR, 1%Z) |}.

(** A numeric attribute. *)
Definition sample_att (name : string) (id : nat) (t : nc_type)
    (data : list Z) : NC_ATT_INFO_T :=
  {| att_hdr := sample_obj name id; att_nc_typeid := t;
     att_len := length data; att_data := Some data; att_stdata := None;
     att_vldata := None; att_dirty := false; att_created := false |}.

(** An index without hash table holding the given objects. *)
Definition sample_index {A : Type} (l : list A) : NCindex A :=
  {| idx_list := l; idx_map := NC_hashmapnew 0 |}.

(** The root group of a file, with global attributes [atts] and no
    variable; [flags] and [cmode] as given, provenance version [pv]. *)
Definition sample_file (flags cmode pv : Z) (atts : list NC_ATT_INFO_T)
    : nc_file :=
  {| nc_ext_ncid := 65536;
     nc_h5 := {| h5_flags := flags; h5_cmode := cmode; no_write := false;
                 propattr_version := pv; superblockversion := 2 |};
     nc_grp := {| grp_parent := None; grp_vars := sample_index [];
                  grp_att := sample_index atts; hdf_grpid := 1 |} |}.

(** A file in define mode whose root group holds a signed-byte attribute
    "scale" with the value -1; [cmode] as given. *)
Definition scale_file (cmode : Z) : nc_file :=
  sample_file NC_INDEF cmode 1 [sample_att "scale" 0 NC_BYTE [(-1)%Z]].

(** A file whose root group holds a text attribute "title" with the given
    characters. *)
Definition title_file (text : list Z) : nc_file :=
  sample_file NC_INDEF 0 1 [sample_att "title" 0 NC_CHAR text].

(** A file in define mode ([flags]/[cmode] as given) whose root group
    holds four integer attributes "a0" .. "a3" numbered 0 .. 3. *)
Definition four_atts : list NC_ATT_INFO_T :=
  [ sample_att "a0" 0 NC_INT [10%Z]; sample_att "a1" 1 NC_INT [11%Z];
    sample_att "a2" 2 NC_INT [12%Z]; sample_att "a3" 3 NC_INT [13%Z] ].

Definition four_atts_file (flags cmode : Z) : nc_file :=
  sample_file flags cmode 1 four_atts.

(** A file in define mode whose root group holds the integer attribute
    "valid_range" = 1, 10. *)
Definition range_file : nc_file :=
  sample_file NC_INDEF 0 1 [sample_att "valid_range" 0 NC_INT [1; 10]%Z].

(** An attribute record with the given fields, no string or
    variable-length payload, not created in the file. *)
Definition plain_att (name : string) (id : nat) (t : nc_type) (len : nat)
    (data : option (list Z)) (dirty : bool) : NC_ATT_INFO_T :=
  {| att_hdr := sample_obj name id; att_nc_typeid := t; att_len := len;
     att_data := data; att_stdata := None; att_vldata := None;
     att_dirty := dirty; att_created := false |}.

(** A file in define mode whose root group holds one integer variable,
    of id 0, with no attribute and no data written. *)
Definition var_file : nc_file :=
  {| nc_ext_ncid := 65536;
     nc_h5 := {| h5_flags := NC_INDEF; h5_cmode := 0; no_write := false;
                 propattr_version := 1; superblockversion := 2 |};
     nc_grp :=
       {| grp_parent := None;
          grp_vars :=
            sample_index
              [ {| var_hdr :=
                     {| obj_sort := NCVAR; obj_name := "temperature";
                        obj_id := 0;
                        obj_hashkey :=
                          NC_hashmapkey sample_policy "temperature" |};
                   var_att := sample_index [];
                   type_info :=
                     {| type_hdr_id := NC_INT; nc_type_class := NC_INT;
                        base_nc_typeid := NC_NAT |};
                   written_to := false; fill_value := None;
                   var_created := false; fill_val_changed := false;
                   attr_dirty := false |} ];
          grp_att := sample_index []; hdf_grpid := 1 |} |}.

(** ** Further sample data *)

(** An index with hash table whose one entry, in slot 0, maps "units" to
    position 0 of the vector, where the object "units" is. *)
Definition units_index : NCindex NC_OBJ :=
  {| idx_list := [sample_obj "units" 0];
     idx_map :=
       {| hm_alloc := 7; hm_active := 1;
          hm_table :=
            written sample_policy 0 "units" :: replicate 6 empty_entry |} |}.

(** A file in define mode whose root group holds the string attribute
    "flag_meanings" with three elements, the second a NULL string. *)
Definition strings_file : nc_file :=
  sample_file NC_INDEF 0 1
    [ {| att_hdr := sample_obj "flag_meanings" 0; att_nc_typeid := NC_STRING;
         att_len := 3; att_data := None;
         att_stdata := Some [Some "good"; None; Some "bad"];
         att_vldata := None; att_dirty := false; att_created := false |} ].

(** The file of [range_file] opened read-only. *)
Definition read_only_file : nc_file :=
  {| nc_ext_ncid := 65536;
     nc_h5 := {| h5_flags := 0; h5_cmode := 0; no_write := true;
                 propattr_version := 1; superblockversion := 2 |};
     nc_grp := nc_grp range_file |}.

(** An index with hash table holding the object "units" at position 0, the
    map built by adding the name with that position to a fresh map of the
    default size. *)
Definition hashed_units_index : NCindex NC_OBJ :=
  {| idx_list := [sample_obj "units" 0];
     idx_map :=
       snd (NC_hashmapadd sample_policy (NC_hashmapnew DFALTTABLESIZE) 0
              "units") |}.

(** *** A file built under [NCIUSEHASH]

    The attribute list of a file in the configuration with hash table:
    the index [ncindexnew] returns, to which each attribute is added with
    [ncindexadd], as [nc4_att_list_add] does at the first put of a
    name. *)
Definition hashed_index (atts : list NC_ATT_INFO_T) : NCindex NC_ATT_INFO_T :=
  fold_left (fun index att => snd (ncindexadd true sample_policy index att))
    atts (ncindexnew true 0).

(** The root group of a file with the global attributes [atts] and no
    variable, in that configuration. *)
Definition hashed_file (flags cmode : Z) (atts : list NC_ATT_INFO_T)
    : nc_file :=
  {| nc_ext_ncid := 65536;
     nc_h5 := {| h5_flags := flags; h5_cmode := cmode; no_write := false;
                 propattr_version := 1; superblockversion := 2 |};
     nc_grp := {| grp_parent := None; grp_vars := ncindexnew true 0;
                  grp_att := hashed_index atts; hdf_grpid := 1 |} |}.

(** A put of one integer under [NCIUSEHASH] that must succeed. *)
Definition put_int (F : option nc_file) (name : string) (v : Z)
    : option nc_file :=
  match F with
  | Some F =>
      match NC4_put_att true sample_policy sample_ext F 65536 NC_GLOBAL
              (Some name) NC_INT 1 (Some (Raw [v])) NC_INT 1 with
      | Ok (NC_NOERR, F') => Some F'
      | _ => None
      end
  | None => None
  end.

(** The four integer attributes "a0" .. "a3" as four puts leave them. *)
Definition four_put_atts : list NC_ATT_INFO_T :=
  [ plain_att "a0" 0 NC_INT 1 (Some [10%Z]) true;
    plain_att "a1" 1 NC_INT 1 (Some [11%Z]) true;
    plain_att "a2" 2 NC_INT 1 (Some [12%Z]) true;
    plain_att "a3" 3 NC_INT 1 (Some [13%Z]) true ].

(** The file in define mode that holds them. *)
Definition hashed_four_atts_file : nc_file :=
  hashed_file NC_INDEF 0 four_put_atts.

(** The return code and the global attributes a call leaves. *)
Definition global_atts (r : result (nc_err * nc_file))
    : option (nc_err * list NC_ATT_INFO_T) :=
  match r with
  | Ok (retval, F) => Some (retval, idx_list (grp_att (nc_grp F)))
  | Crash _ => None
  end.
(** * Properties *)

(** ** Basic facts *)

Lemma streq_true (a b : string) : streq a b = true <-> a = b.
Proof. unfold streq. apply String.eqb_eq. Qed.

Lemma streq_refl (a : string) : streq a a = true.
Proof. apply streq_true. reflexivity. Qed.

Lemma streq_false (a b : string) : streq a b = false <-> a <> b.
Proof. unfold streq. apply String.eqb_neq. Qed.

(** ** The hash table *)

Section HashmapFacts.

Variable pol : hashmap_policy.

Lemma written_stops data k :
  is_empty (written pol data k) = false /\
  is_active (written pol data k) && streq (keystr (written pol data k)) k = true.
Proof.
  split; [reflexivity|].
  unfold keystr; simpl. rewrite streq_refl. reflexivity.
Qed.

(** A probe stops only at a slot that is Empty or holds the key. *)
Lemma locate_stops tbl cap k fuel s i :
  locate tbl cap k fuel s = Some i ->
  exists e, tbl !! i = Some e /\
    (is_empty e = true \/ is_active e && streq (keystr e) k = true).
Proof.
  revert s. induction fuel as [|fuel IH]; intros s; simpl; [discriminate|].
  destruct (tbl !! s) as [e|] eqn:Hs; [|discriminate].
  destruct (is_empty e) eqn:He.
  - intros [= <-]. eauto.
  - destruct (is_active e && streq (keystr e) k) eqn:Hk.
    + intros [= <-]. eauto.
    + apply IH.
Qed.

(** Writing the key's entry at the slot the probe found does not move the
    slot the probe finds. *)
Lemma locate_written tbl cap k fuel s i data :
  locate tbl cap k fuel s = Some i ->
  locate (<[i := written pol data k]> tbl) cap k fuel s = Some i.
Proof.
  revert s. induction fuel as [|fuel IH]; intros s; simpl; [discriminate|].
  destruct (tbl !! s) as [e|] eqn:Hs; [|discriminate].
  destruct (decide (i = s)) as [->|Hne].
  - intros _. rewrite list_lookup_insert_eq by (eapply lookup_lt_Some; eauto).
    destruct (written_stops data k) as [-> ->]. reflexivity.
  - rewrite list_lookup_insert_ne by done. rewrite Hs.
    destruct (is_empty e); [intros [= ?]; congruence|].
    destruct (is_active e && streq (keystr e) k); [intros [= ?]; congruence|].
    apply IH.
Qed.

(** After a store that found a slot, the key is found with the data. *)
Lemma hashmap_store_get m data k :
  NC_hashmapget pol (snd (hashmap_store pol m data k)) k =
  if fst (hashmap_store pol m data k) then Some data
  else NC_hashmapget pol m k.
Proof.
  unfold hashmap_store.
  destruct (locate (hm_table m) (hm_alloc m) k (hm_alloc m)
              (NC_hashmapkey pol k mod hm_alloc m)) as [slot|] eqn:Hl;
    [|reflexivity].
  cbn [fst snd]. unfold NC_hashmapget. cbn [hm_table hm_alloc].
  rewrite (locate_written _ _ _ _ _ _ data Hl).
  destruct (locate_stops _ _ _ _ _ _ Hl) as (e & He & _).
  rewrite list_lookup_insert_eq by (eapply lookup_lt_Some; eauto).
  reflexivity.
Qed.

(** A store that finds no slot leaves the table as it is, and the key is
    not found in it. *)
Lemma hashmap_store_full m data k :
  fst (hashmap_store pol m data k) = false ->
  snd (hashmap_store pol m data k) = m /\ NC_hashmapget pol m k = None.
Proof.
  unfold hashmap_store, NC_hashmapget.
  destruct (locate (hm_table m) (hm_alloc m) k (hm_alloc m)
              (NC_hashmapkey pol k mod hm_alloc m)); [discriminate|].
  intros _. split; reflexivity.
Qed.

(** What a lookup of the key returns right after [NC_hashmapadd]. *)
Lemma NC_hashmapadd_get m data k :
  NC_hashmapget pol (snd (NC_hashmapadd pol m data k)) k =
  if fst (NC_hashmapadd pol m data k) then Some data else None.
Proof.
  unfold NC_hashmapadd. rewrite hashmap_store_get.
  destruct (fst (hashmap_store pol _ data k)) eqn:Hf; [reflexivity|].
  apply hashmap_store_full in Hf. apply Hf.
Qed.

End HashmapFacts.

(** ** The index *)

Section IndexFacts.

Variable pol : hashmap_policy.
Context {A : Type} `{Header A}.

Lemma ncindexadd_list flag (idx : NCindex A) (obj : A) :
  idx_list (snd (ncindexadd flag pol idx obj)) = idx_list idx ++ [obj].
Proof. unfold ncindexadd, nclistpush. destruct flag; reflexivity. Qed.

Lemma ncindexadd_map (idx : NCindex A) (obj : A) :
  idx_map (snd (ncindexadd true pol idx obj)) =
  snd (NC_hashmapadd pol (idx_map idx) (S (length (idx_list idx)))
         (obj_name (hdr obj))).
Proof.
  unfold ncindexadd, nclistpush, nclistlength. cbn [snd idx_map].
  rewrite length_app, Nat.add_1_r. reflexivity.
Qed.

(** C1, as the code has it under [NCIUSEHASH]: [ncindexadd] appends the
    object at position [length] of the vector, but the hash entry it
    writes for the object's name holds [length + 1], read off the vector
    after the push. The entry therefore never resolves to the position of
    the object, and [ncindexlookup] of the name of the object just added
    returns NULL, for every index, object, hash function and growth
    policy. *)
Theorem ncindexadd_hash_entry_past_position (idx : NCindex A) (obj : A) :
  let n := length (idx_list idx) in
  let idx' := snd (ncindexadd true pol idx obj) in
  ncindexith idx' n = Some obj /\
  NC_hashmapget pol (idx_map idx') (obj_name (hdr obj)) =
    (if fst (NC_hashmapadd pol (idx_map idx) (S n) (obj_name (hdr obj)))
     then Some (S n) else None) /\
  NC_hashmapget pol (idx_map idx') (obj_name (hdr obj)) <> Some n /\
  ncindexlookup true pol idx' (obj_name (hdr obj)) = None.
Proof.
  intros n idx'.
  assert (Hlist : idx_list idx' = idx_list idx ++ [obj])
    by apply ncindexadd_list.
  assert (Hget : NC_hashmapget pol (idx_map idx') (obj_name (hdr obj)) =
                 if fst (NC_hashmapadd pol (idx_map idx) (S n)
                           (obj_name (hdr obj)))
                 then Some (S n) else None).
  { subst idx'. rewrite ncindexadd_map. apply NC_hashmapadd_get. }
  split; [|split; [exact Hget|split]].
  - unfold ncindexith, nclistget. rewrite Hlist.
    rewrite lookup_app_r by done. subst n.
    rewrite Nat.sub_diag. reflexivity.
  - rewrite Hget. destruct (fst _); [|discriminate].
    intros [= Hn]. lia.
  - unfold ncindexlookup. rewrite Hget.
    destruct (fst _); [|reflexivity].
    unfold nclistget. rewrite Hlist.
    rewrite lookup_ge_None_2; [reflexivity|].
    rewrite length_app. simpl. subst n. lia.
Qed.

End IndexFacts.

(** ** ncindexverify on the index ncindexadd builds *)

Section VerifyFacts.

Variable pol : hashmap_policy.
Context {A : Type} `{Header A}.

Lemma fold_left_grows {X : Type} (g : nat -> X -> nat) (xs : list X) (a : nat) :
  (forall n x, n <= g n x) -> a <= fold_left g xs a.
Proof.
  intros Hg. revert a. induction xs as [|x xs IH]; intros a; simpl; [lia|].
  specialize (IH (g a x)). specialize (Hg a x). lia.
Qed.

Lemma fold_left_counts {X : Type} (g : nat -> X -> nat) (xs : list X)
    (a : nat) (x : X) :
  (forall n y, n <= g n y) -> (forall n, n < g n x) -> x ∈ xs ->
  a < fold_left g xs a.
Proof.
  intros Hg Hx Hin. revert a.
  induction Hin as [x xs|x y xs Hin IH]; intros a; simpl.
  - pose proof (fold_left_grows g xs (g a x) Hg). specialize (Hx a). lia.
  - specialize (IH Hx (g a y)). specialize (Hg a y). lia.
Qed.

(** An Active entry whose data is past the end of the vector is counted by
    the first pass. *)
Lemma verify_entries_counts (l : list A) (m : NC_hashmap) i e :
  i < hm_alloc m -> hm_table m !! i = Some e -> is_active e = true ->
  nclistget l (e_data e) = None -> 0 < verify_entries l m.
Proof.
  intros Hi He Ha Hn. unfold verify_entries.
  apply fold_left_counts with (x := i).
  - intros n y. destruct (hm_table m !! y) as [e'|]; [|lia].
    destruct (is_active e'); [|lia].
    destruct (nclistget l (e_data e')); [|lia].
    destruct (streq _ _); lia.
  - intros n. rewrite He, Ha, Hn. lia.
  - apply elem_of_seq. lia.
Qed.

Lemma verify_mark_grows xp active tbl n b :
  n <= snd (fst (verify_mark xp active (tbl, n, b))).
Proof.
  unfold verify_mark. generalize (seq 0 active) as ms.
  intros ms. revert tbl n b.
  induction ms as [|mi ms IH]; intros tbl n b; simpl; [lia|].
  destruct (tbl !! mi) as [e|]; [|apply IH].
  destruct (is_active e && streq (keystr e) xp); [|apply IH].
  etransitivity; [|apply IH].
  destruct (Z.land (e_flags e) TOUCHED =? TOUCHED)%Z; lia.
Qed.

Lemma verify_vector_grows (l : list A) active tbl n :
  n <= snd (verify_vector l active (tbl, n)).
Proof.
  unfold verify_vector. revert tbl n.
  induction l as [|o l IH]; intros tbl n; simpl; [lia|].
  pose proof (verify_mark_grows (obj_name (hdr o)) active tbl n false) as Hm.
  destruct (verify_mark (obj_name (hdr o)) active (tbl, n, false))
    as [[tbl' n'] matched]. simpl in Hm.
  etransitivity; [|apply IH]. destruct matched; lia.
Qed.

Lemma verify_unmarked_grows tbl active n :
  n <= verify_unmarked tbl active n.
Proof.
  unfold verify_unmarked. apply fold_left_grows.
  intros k mi. destruct (tbl !! mi) as [e|]; [|lia].
  destruct (is_active e); [|lia].
  destruct (Z.land (e_flags e) TOUCHED =? TOUCHED)%Z; lia.
Qed.

(** Errors of the first pass make [ncindexverify] fail. *)
Lemma ncindexverify_fails (lm : NCindex A) :
  0 < verify_entries (idx_list lm) (idx_map lm) ->
  fst (ncindexverify true lm) = 0%Z.
Proof.
  intros Hpos. unfold ncindexverify.
  destruct ((nclistlength (idx_list lm) =? 0) || (hm_active (idx_map lm) =? 0)).
  - cbn [fst]. destruct (0 <? _) eqn:Hlt; [reflexivity|].
    apply Nat.ltb_ge in Hlt. lia.
  - pose proof (verify_vector_grows (idx_list lm) (hm_active (idx_map lm))
                  (hm_table (idx_map lm))
                  (verify_entries (idx_list lm) (idx_map lm))) as Hv.
    destruct (verify_vector _ _ _) as [tbl2 nerrs2]. cbn [snd] in Hv.
    cbn [fst].
    pose proof (verify_unmarked_grows tbl2 (hm_active (idx_map lm)) nerrs2).
    destruct (0 <? _) eqn:Hlt; [reflexivity|].
    apply Nat.ltb_ge in Hlt. lia.
Qed.

(** A probe that starts inside the table ends inside it. *)
Lemma locate_inside tbl cap k fuel s i :
  locate tbl cap k fuel s = Some i -> s < cap -> i < cap.
Proof.
  revert s. induction fuel as [|fuel IH]; intros s; simpl; [discriminate|].
  destruct (tbl !! s) as [e|]; [|discriminate].
  destruct (is_empty e); [intros [= <-]; done|].
  destruct (is_active e && streq (keystr e) k); [intros [= <-]; done|].
  intros Hl Hs. apply (IH _ Hl). apply Nat.mod_upper_bound. lia.
Qed.

(** The slot a successful store wrote. *)
Lemma hashmap_store_slot m data k :
  fst (hashmap_store pol m data k) = true ->
  exists i, i < hm_alloc (snd (hashmap_store pol m data k)) /\
    hm_table (snd (hashmap_store pol m data k)) !! i
    = Some (written pol data k).
Proof.
  unfold hashmap_store.
  destruct (locate (hm_table m) (hm_alloc m) k (hm_alloc m)
              (NC_hashmapkey pol k mod hm_alloc m)) as [slot|] eqn:Hl;
    [|discriminate].
  intros _. exists slot. cbn [snd hm_alloc hm_table]. split.
  - destruct (hm_alloc m) as [|c] eqn:Hc; [discriminate|].
    eapply locate_inside; [exact Hl|]. apply Nat.mod_upper_bound. lia.
  - destruct (locate_stops _ _ _ _ _ _ Hl) as (e & He & _).
    apply list_lookup_insert_eq. eapply lookup_lt_Some; eauto.
Qed.

(** Whenever the map took the name of the object just added, the index
    that [ncindexadd] built is rejected by [ncindexverify]: the entry
    points past the end of the vector ("bad data"). *)
Lemma ncindexadd_fails_verify (idx : NCindex A) (obj : A) :
  fst (NC_hashmapadd pol (idx_map idx) (S (length (idx_list idx)))
         (obj_name (hdr obj))) = true ->
  fst (ncindexverify true (snd (ncindexadd true pol idx obj))) = 0%Z.
Proof.
  intros Hadd. apply ncindexverify_fails.
  rewrite ncindexadd_map, ncindexadd_list.
  unfold NC_hashmapadd in *.
  destruct (hashmap_store_slot _ _ _ Hadd) as (i & Hi & He).
  eapply verify_entries_counts; [exact Hi|exact He|reflexivity|].
  unfold nclistget. apply lookup_ge_None_2.
  rewrite length_app. simpl. lia.
Qed.

End VerifyFacts.

(** On a fresh index of the default size, with the sample policy: the
    object "units" is appended at position 0, its hash entry holds 1, the
    lookup of "units" returns NULL and [ncindexverify] returns 0. *)
Example ncindexadd_fresh_index :
  let idx := snd (ncindexadd true sample_policy
                    (ncindexnew true 0) (sample_obj "units" 0)) in
  ncindexith idx 0 = Some (sample_obj "units" 0) /\
  NC_hashmapget sample_policy (idx_map idx) "units" = Some 1 /\
  ncindexlookup true sample_policy idx "units" = None /\
  fst (ncindexverify true idx) = 0%Z.
Proof. vm_compute. repeat split. Qed.

(** Without [NCIUSEHASH] the same calls find the object. *)
Example ncindexadd_fresh_index_linear :
  let idx := snd (ncindexadd false sample_policy
                    (ncindexnew false 0) (sample_obj "units" 0)) in
  ncindexlookup false sample_policy idx "units"
  = Some (0, sample_obj "units" 0).
Proof. vm_compute. reflexivity. Qed.

(** ** Reading attributes *)

Lemma set_h5_same (F : nc_file) : set_h5 F (nc_h5 F) = F.
Proof. destruct F; reflexivity. Qed.

Lemma set_grp_same (F : nc_file) : set_grp F (nc_grp F) = F.
Proof. destruct F; reflexivity. Qed.

(** An object a lookup returns is the object at the returned position. *)
Lemma ncindexlookup_Some flag pol {A : Type} `{Header A} (idx : NCindex A)
    (name : string) p a :
  ncindexlookup flag pol idx name = Some (p, a) -> idx_list idx !! p = Some a.
Proof.
  unfold ncindexlookup, nclistget. destruct flag.
  - destruct (NC_hashmapget pol (idx_map idx) name) as [i|]; [|discriminate].
    destruct (idx_list idx !! i) as [o|] eqn:Hi; [|discriminate].
    intros [= <- <-]. exact Hi.
  - intros Hf. apply list_find_Some in Hf. apply Hf.
Qed.

Section GetFacts.

Variable NCIUSEHASH : bool.
Variable pol : hashmap_policy.
Variable ext : externals.

(** Lines 136-164 of [nc4_get_att]: when the container exists, the name
    normalises, the name is not routed to the reserved attributes and the
    index resolves it, the rest of the function runs on the attribute the
    index returned. *)
Lemma nc4_get_att_resolved F ncid varid nm norm loc attlist p att
    xtype mem_type lenp attnum data mem :
  getattlist (nc_grp F) varid = Ok (Some (loc, attlist)) ->
  nc4_normalize_name ext nm = (NC_NOERR, norm) ->
  (nc_ext_ncid F =? ncid)%Z && (varid =? NC_GLOBAL)%Z
    && reserved_nameonly norm = false ->
  ncindexlookup NCIUSEHASH pol attlist norm = Some (p, att) ->
  nc4_get_att NCIUSEHASH pol ext F ncid varid (Some nm) xtype mem_type lenp
    attnum data mem
  = nc4_get_att_found ext (nc_h5 F) att xtype mem_type lenp
      (bool_decide (attnum <> None)) data mem.
Proof.
  intros Hlist Hnorm Hres Hlook.
  assert (Hfind : nc4_find_grp_att NCIUSEHASH pol (nc_grp F) varid norm
                    (default (-1)%Z attnum) = Ok (inr (p, att))).
  { unfold nc4_find_grp_att. rewrite Hlist, Hlook. reflexivity. }
  unfold nc4_get_att. rewrite Hnorm. cbn [is_ok negb].
  rewrite Hres, Hfind.
  unfold getattlist in Hlist.
  destruct (varid =? NC_GLOBAL)%Z; [reflexivity|].
  destruct (ncindexith_int (grp_vars (nc_grp F)) varid) as [var|];
    [|discriminate].
  destruct (Z.of_nat (obj_id (var_hdr var)) =? varid)%Z;
    [reflexivity|discriminate].
Qed.

(** The effective memory type: [NC_NAT] stands for the stored type. *)
Lemma nc4_get_att_found_nodata h5 att xtype mem_type lenp attnum mem :
  att_len att = 0 \/
    fst (nc4_get_typelen_mem ext h5
           (if (mem_type =? NC_NAT)%Z then att_nc_typeid att else mem_type))
    = NC_NOERR ->
  nc4_get_att_found ext h5 att xtype mem_type lenp attnum false mem
  = Ok (NC_NOERR,
        {| out_xtype := if xtype then Some (att_nc_typeid att) else None;
           out_len := if lenp then Some (att_len att) else None;
           out_attnum :=
             if attnum then Some (Z.of_nat (obj_id (att_hdr att))) else None;
           out_data := None |}).
Proof.
  intros Hok. unfold nc4_get_att_found. cbn [andb].
  destruct (att_len att =? 0) eqn:Hlen; [reflexivity|].
  destruct Hok as [H0|Hok]; [rewrite H0 in Hlen; discriminate|].
  destruct (nc4_get_typelen_mem ext h5 _) as [retval sz].
  cbn [fst] in Hok. subst retval. reflexivity.
Qed.

(** The metadata-only get where it succeeds: a get with a NULL data pointer
    of an attribute the index resolves (and that is not routed to the
    reserved attributes), for a zero-length attribute or a requested
    memory type known to the type catalogue ([NC_NAT] standing for the
    stored type): no conversion and no character check take place; the call
    returns [NC_NOERR] with the stored type, the element count and the
    attribute id written through the pointers that were given. This is the
    call [NC4_inq_att] and [NC4_inq_attid] make, so neither can return
    [NC_ERANGE] or [NC_ECHAR]. *)
Theorem nc4_get_att_metadata_only F ncid varid nm norm loc attlist p att
    xtype mem_type lenp attnum mem :
  getattlist (nc_grp F) varid = Ok (Some (loc, attlist)) ->
  nc4_normalize_name ext nm = (NC_NOERR, norm) ->
  (nc_ext_ncid F =? ncid)%Z && (varid =? NC_GLOBAL)%Z
    && reserved_nameonly norm = false ->
  ncindexlookup NCIUSEHASH pol attlist norm = Some (p, att) ->
  (att_len att = 0 \/
   fst (nc4_get_typelen_mem ext (nc_h5 F)
          (if (mem_type =? NC_NAT)%Z then att_nc_typeid att else mem_type))
   = NC_NOERR) ->
  nc4_get_att NCIUSEHASH pol ext F ncid varid (Some nm) xtype mem_type lenp
    attnum false mem
  = Ok (NC_NOERR,
        {| out_xtype := if xtype then Some (att_nc_typeid att) else None;
           out_len := if lenp then Some (att_len att) else None;
           out_attnum :=
             if bool_decide (attnum <> None)
             then Some (Z.of_nat (obj_id (att_hdr att))) else None;
           out_data := None |})
  /\ (mem_type = NC_NAT ->
      NC4_inq_att NCIUSEHASH pol ext F ncid varid (Some nm) true true mem
      = Ok (NC_NOERR,
            {| out_xtype := Some (att_nc_typeid att);
               out_len := Some (att_len att);
               out_attnum := None; out_data := None |})
      /\ forall a,
          NC4_inq_attid NCIUSEHASH pol ext F ncid varid (Some nm) (Some a) mem
          = Ok (NC_NOERR,
                {| out_xtype := None; out_len := None;
                   out_attnum := Some (Z.of_nat (obj_id (att_hdr att)));
                   out_data := None |})).
Proof.
  intros Hlist Hnorm Hres Hlook Hok. split.
  - rewrite (nc4_get_att_resolved F ncid varid nm norm loc attlist p att)
      by assumption.
    apply nc4_get_att_found_nodata. exact Hok.
  - intros ->. unfold NC4_inq_att, NC4_inq_attid. split; [|intros a].
    + rewrite (nc4_get_att_resolved F ncid varid nm norm loc attlist p att)
        by assumption.
      rewrite nc4_get_att_found_nodata by exact Hok. reflexivity.
    + rewrite (nc4_get_att_resolved F ncid varid nm norm loc attlist p att)
        by assumption.
      rewrite nc4_get_att_found_nodata by exact Hok. reflexivity.
Qed.

(** C6, amended: the character check of a get is guarded by
    [data && att->len] and compares with [NC_CHAR] only. For an attribute
    the index resolves: when data is requested and the stored length is
    not zero, a get in which exactly one of the stored type and the
    requested type ([NC_NAT] standing for the stored type) is [NC_CHAR]
    fails with [NC_ECHAR] and writes nothing; a get of a zero-length
    attribute succeeds whatever the two types are. *)
Theorem nc4_get_att_char_check F ncid varid nm norm loc attlist p att
    xtype mem_type lenp attnum mem :
  getattlist (nc_grp F) varid = Ok (Some (loc, attlist)) ->
  nc4_normalize_name ext nm = (NC_NOERR, norm) ->
  (nc_ext_ncid F =? ncid)%Z && (varid =? NC_GLOBAL)%Z
    && reserved_nameonly norm = false ->
  ncindexlookup NCIUSEHASH pol attlist norm = Some (p, att) ->
  (att_len att <> 0 ->
   let mt := if (mem_type =? NC_NAT)%Z then att_nc_typeid att else mem_type in
   (att_nc_typeid att = NC_CHAR /\ mt <> NC_CHAR) \/
   (att_nc_typeid att <> NC_CHAR /\ mt = NC_CHAR) ->
   nc4_get_att NCIUSEHASH pol ext F ncid varid (Some nm) xtype mem_type lenp
     attnum true mem
   = Ok (NC_ECHAR, no_out))
  /\ (att_len att = 0 ->
      forall data,
        nc4_get_att NCIUSEHASH pol ext F ncid varid (Some nm) xtype mem_type
          lenp attnum data mem
        = Ok (NC_NOERR,
              {| out_xtype := if xtype then Some (att_nc_typeid att) else None;
                 out_len := if lenp then Some 0 else None;
                 out_attnum :=
                   if bool_decide (attnum <> None)
                   then Some (Z.of_nat (obj_id (att_hdr att))) else None;
                 out_data := None |})).
Proof.
  intros Hlist Hnorm Hres Hlook. split.
  - intros Hlen mt Hmis.
    rewrite (nc4_get_att_resolved F ncid varid nm norm loc attlist p att)
      by assumption.
    unfold nc4_get_att_found. fold mt.
    apply Nat.eqb_neq in Hlen. rewrite Hlen. cbn [andb negb].
    destruct Hmis as [[Ha Hm]|[Ha Hm]].
    + apply Z.eqb_eq in Ha. apply Z.eqb_neq in Hm. rewrite Ha, Hm.
      reflexivity.
    + apply Z.eqb_neq in Ha. apply Z.eqb_eq in Hm. rewrite Ha, Hm.
      reflexivity.
  - intros Hlen data.
    rewrite (nc4_get_att_resolved F ncid varid nm norm loc attlist p att)
      by assumption.
    unfold nc4_get_att_found. rewrite Hlen. cbn [Nat.eqb negb andb].
    rewrite andb_false_r. reflexivity.
Qed.

(** C3: a get that asks for the data of an attribute the index resolves,
    in a numeric memory type that differs from the stored numeric type:
    the stored values are converted with [nc4_convert_type]; the converted
    buffer is what the caller receives, and the call returns [NC_ERANGE]
    exactly when the converter reported a range error and the pair is not
    the one exempted, which is: the file follows the classic model and both
    the stored and the requested type are [NC_BYTE] or [NC_UBYTE]. *)
Theorem nc4_get_att_range_warning F ncid varid nm norm loc attlist p att
    xtype mem_type lenp attnum mem type_size range_error bufr :
  getattlist (nc_grp F) varid = Ok (Some (loc, attlist)) ->
  nc4_normalize_name ext nm = (NC_NOERR, norm) ->
  (nc_ext_ncid F =? ncid)%Z && (varid =? NC_GLOBAL)%Z
    && reserved_nameonly norm = false ->
  ncindexlookup NCIUSEHASH pol attlist norm = Some (p, att) ->
  att_len att <> 0 ->
  att_vldata att = None -> att_stdata att = None ->
  mem_type <> NC_NAT -> mem_type <> att_nc_typeid att ->
  mem_type <> NC_CHAR -> att_nc_typeid att <> NC_CHAR ->
  nc4_get_typelen_mem ext (nc_h5 F) mem_type = (NC_NOERR, type_size) ->
  0 < mem ->
  nc4_convert_type ext (att_data att) (att_nc_typeid att) mem_type
    (att_len att) (classic (nc_h5 F)) = (NC_NOERR, range_error, bufr) ->
  nc4_get_att NCIUSEHASH pol ext F ncid varid (Some nm) xtype mem_type lenp
    attnum true mem
  = Ok (if range_error
           && negb (classic (nc_h5 F) && is_byte_pair (att_nc_typeid att)
                    && is_byte_pair mem_type)
        then NC_ERANGE else NC_NOERR,
        {| out_xtype := if xtype then Some (att_nc_typeid att) else None;
           out_len := if lenp then Some (att_len att) else None;
           out_attnum :=
             if bool_decide (attnum <> None)
             then Some (Z.of_nat (obj_id (att_hdr att))) else None;
           out_data := Some (Raw bufr) |}).
Proof.
  intros Hlist Hnorm Hres Hlook Hlen Hvl Hst Hnat Hdiff Hmc Hac Hsize Hmem
    Hconv.
  rewrite (nc4_get_att_resolved F ncid varid nm norm loc attlist p att)
    by assumption.
  unfold nc4_get_att_found.
  apply Nat.eqb_neq in Hlen. apply Z.eqb_neq in Hnat, Hdiff, Hmc, Hac.
  rewrite Hnat, Hlen, Hac, Hmc. cbn [andb negb orb].
  rewrite Hsize. cbn [is_ok negb]. rewrite Hdiff, Hnat. cbn [andb negb].
  destruct mem as [|mem']; [lia|]. cbn [alloc].
  rewrite Hconv. cbn [is_ok negb].
  unfold nc4_get_att_copy. rewrite Hvl, Hst. unfold exit_code.
  destruct (classic (nc_h5 F) && is_byte_pair (att_nc_typeid att)
            && is_byte_pair mem_type);
    destruct range_error; reflexivity.
Qed.

(** C10, as the code has it: the memory type is consulted although the data
    pointer is NULL. For an attribute of non-zero length the size of the
    requested memory type ([NC_NAT] standing for the stored type) is
    looked up before any test of [data]; when [nc4_get_typelen_mem]
    refuses the type with the code [e], the metadata-only get returns
    [e] and not [NC_NOERR], after the stored type, the length and the id
    have been written through the pointers given. [NC4_get_att] with a
    NULL value pointer is such a call. *)
Theorem nc4_get_att_null_data_consults_mem_type F ncid varid nm norm loc
    attlist p att xtype mem_type lenp attnum mem e type_size :
  getattlist (nc_grp F) varid = Ok (Some (loc, attlist)) ->
  nc4_normalize_name ext nm = (NC_NOERR, norm) ->
  (nc_ext_ncid F =? ncid)%Z && (varid =? NC_GLOBAL)%Z
    && reserved_nameonly norm = false ->
  ncindexlookup NCIUSEHASH pol attlist norm = Some (p, att) ->
  att_len att <> 0 ->
  nc4_get_typelen_mem ext (nc_h5 F)
    (if (mem_type =? NC_NAT)%Z then att_nc_typeid att else mem_type)
  = (e, type_size) ->
  e <> NC_NOERR ->
  nc4_get_att NCIUSEHASH pol ext F ncid varid (Some nm) xtype mem_type lenp
    attnum false mem
  = Ok (e,
        {| out_xtype := if xtype then Some (att_nc_typeid att) else None;
           out_len := if lenp then Some (att_len att) else None;
           out_attnum :=
             if bool_decide (attnum <> None)
             then Some (Z.of_nat (obj_id (att_hdr att))) else None;
           out_data := None |})
  /\ NC4_get_att NCIUSEHASH pol ext F ncid varid (Some nm) false mem_type mem
     = Ok (e, no_out).
Proof.
  intros Hlist Hnorm Hres Hlook Hlen Hsize He.
  assert (Hfound : forall xtype lenp attnum,
             nc4_get_att_found ext (nc_h5 F) att xtype mem_type lenp attnum
               false mem
             = Ok (e,
                   {| out_xtype :=
                        if xtype then Some (att_nc_typeid att) else None;
                      out_len := if lenp then Some (att_len att) else None;
                      out_attnum :=
                        if attnum then Some (Z.of_nat (obj_id (att_hdr att)))
                        else None;
                      out_data := None |})).
  { intros xt lp an. unfold nc4_get_att_found. cbn [andb].
    apply Nat.eqb_neq in Hlen. rewrite Hlen, Hsize.
    assert (Hne : negb (is_ok e) = true)
      by (destruct e; try reflexivity; contradiction).
    rewrite Hne. reflexivity. }
  split.
  - rewrite (nc4_get_att_resolved F ncid varid nm norm loc attlist p att)
      by assumption.
    apply Hfound.
  - unfold NC4_get_att.
    rewrite (nc4_get_att_resolved F ncid varid nm norm loc attlist p att)
      by assumption.
    apply Hfound.
Qed.

End GetFacts.

(** Closes the side conditions of an instance on concrete data. *)
Ltac evaluated :=
  solve
    [ reflexivity
    | lia
    | discriminate
    | let H := fresh in intro H; vm_compute in H; discriminate
    | vm_compute; reflexivity
    | vm_compute; lia
    | apply (bool_decide_unpack _); vm_compute; exact I
    | split; evaluated
    | left; evaluated
    | right; evaluated ].

(** The signed byte -1 read as an unsigned byte from a file that does not
    follow the classic model: 255 with [NC_ERANGE]. *)
Lemma nc4_get_att_range_warning_witness :
  nc4_get_att false sample_policy sample_ext (scale_file 0) 65536 NC_GLOBAL
    (Some "scale") false NC_UBYTE false None true 1
  = Ok (NC_ERANGE,
        {| out_xtype := None; out_len := None; out_attnum := None;
           out_data := Some (Raw [255%Z]) |}).
Proof.
  apply (nc4_get_att_range_warning false sample_policy sample_ext
           (scale_file 0) 65536 NC_GLOBAL "scale" "scale" GroupAtts
           (sample_index [sample_att "scale" 0 NC_BYTE [(-1)%Z]]) 0
           (sample_att "scale" 0 NC_BYTE [(-1)%Z]) false NC_UBYTE false None
           1 1 true [255%Z]); evaluated.
Defined.

(** The same read from a classic-model file succeeds without warning, and
    a read as a short of a value that does not fit is still reported
    there. *)
Example nc4_get_att_classic_byte_pair :
  nc4_get_att false sample_policy sample_ext (scale_file NC_CLASSIC_MODEL)
    65536 NC_GLOBAL (Some "scale") false NC_UBYTE false None true 1
  = Ok (NC_NOERR,
        {| out_xtype := None; out_len := None; out_attnum := None;
           out_data := Some (Raw [255%Z]) |})
  /\ nc4_get_att false sample_policy sample_ext (scale_file NC_CLASSIC_MODEL)
       65536 NC_GLOBAL (Some "scale") false NC_USHORT false None true 1
     = Ok (NC_ERANGE,
           {| out_xtype := None; out_len := None; out_attnum := None;
              out_data := Some (Raw [65535%Z]) |}).
Proof. split; vm_compute; reflexivity. Qed.

(** C6 as stated fails: a zero-length text attribute read as [NC_INT] into
    a buffer succeeds, and so does the text attribute "Hi" read as
    [NC_INT] with a NULL data pointer, though exactly one of the two types
    is the character type. *)
Lemma nc4_get_att_char_check_counterexample :
  nc4_get_att false sample_policy sample_ext (title_file []) 65536 NC_GLOBAL
    (Some "title") false NC_INT false None true 1
  = Ok (NC_NOERR, no_out)
  /\ nc4_get_att false sample_policy sample_ext (title_file [72; 105]%Z) 65536
       NC_GLOBAL (Some "title") false NC_INT false None false 1
     = Ok (NC_NOERR, no_out).
Proof. split; vm_compute; reflexivity. Qed.

(** The text attribute "Hi" read as [NC_INT] into a buffer. *)
Lemma nc4_get_att_char_check_witness :
  nc4_get_att false sample_policy sample_ext (title_file [72; 105]%Z) 65536
    NC_GLOBAL (Some "title") false NC_INT false None true 1
  = Ok (NC_ECHAR, no_out).
Proof.
  apply (nc4_get_att_char_check false sample_policy sample_ext
           (title_file [72; 105]%Z) 65536 NC_GLOBAL "title" "title" GroupAtts
           (sample_index [sample_att "title" 0 NC_CHAR [72; 105]%Z]) 0
           (sample_att "title" 0 NC_CHAR [72; 105]%Z) false NC_INT false None
           1); evaluated.
Defined.

(** [NC4_inq_att] of the text attribute "Hi". *)
Lemma nc4_get_att_metadata_only_witness :
  NC4_inq_att false sample_policy sample_ext (title_file [72; 105]%Z) 65536
    NC_GLOBAL (Some "title") true true 0
  = Ok (NC_NOERR,
        {| out_xtype := Some NC_CHAR; out_len := Some 2; out_attnum := None;
           out_data := None |}).
Proof.
  apply (nc4_get_att_metadata_only false sample_policy sample_ext
           (title_file [72; 105]%Z) 65536 NC_GLOBAL "title" "title" GroupAtts
           (sample_index [sample_att "title" 0 NC_CHAR [72; 105]%Z]) 0
           (sample_att "title" 0 NC_CHAR [72; 105]%Z) true NC_NAT true None
           0); evaluated.
Defined.

(** "valid_range", two integers: the get with a NULL data pointer and the
    memory type 99, which is no type, fails with [NC_EBADTYPE]. *)
Lemma nc4_get_att_null_data_consults_mem_type_witness :
  nc4_get_att false sample_policy sample_ext range_file 65536 NC_GLOBAL
    (Some "valid_range") true 99%Z true None false 1
  = Ok (NC_EBADTYPE,
        {| out_xtype := Some NC_INT; out_len := Some 2; out_attnum := None;
           out_data := None |})
  /\ NC4_get_att false sample_policy sample_ext range_file 65536 NC_GLOBAL
       (Some "valid_range") false 99%Z 1
     = Ok (NC_EBADTYPE, no_out).
Proof.
  apply (nc4_get_att_null_data_consults_mem_type false sample_policy
           sample_ext range_file 65536 NC_GLOBAL "valid_range" "valid_range"
           GroupAtts (grp_att (nc_grp range_file)) 0
           (sample_att "valid_range" 0 NC_INT [1; 10]%Z) true 99%Z true None
           1 NC_EBADTYPE 0); evaluated.
Defined.

(** ** Rebuilding and removing *)

Section RebuildFacts.

Variable pol : hashmap_policy.
Context {A : Type} `{Header A}.

Lemma readd_list flag (xs : list A) (acc : NCindex A) :
  idx_list (fold_left (fun acc tmp => snd (ncindexadd flag pol acc tmp))
              xs acc)
  = idx_list acc ++ xs.
Proof.
  revert acc. induction xs as [|x xs IH]; intros acc; simpl.
  - rewrite app_nil_r. reflexivity.
  - rewrite IH, ncindexadd_list, <- app_assoc. reflexivity.
Qed.

(** A rebuild keeps the vector. *)
Lemma ncindexrebuild_list flag (idx : NCindex A) :
  idx_list (snd (ncindexrebuild flag pol idx)) = idx_list idx.
Proof.
  unfold ncindexrebuild, ncindexrehash. destruct flag; [|reflexivity].
  cbn [snd fst nclistextract]. rewrite readd_list.
  unfold ncindexinit, ncindexnew, nclistnew. reflexivity.
Qed.

Lemma ncindexrebuild_ok flag (idx : NCindex A) :
  fst (ncindexrebuild flag pol idx) = true.
Proof.
  unfold ncindexrebuild, ncindexrehash. destruct flag; reflexivity.
Qed.

(** Under the hash table a rebuild is a function of the vector alone. *)
Lemma ncindexrebuild_of_list (idx idx' : NCindex A) :
  idx_list idx = idx_list idx' ->
  ncindexrebuild true pol idx = ncindexrebuild true pol idx'.
Proof.
  intros Heq.
  unfold ncindexrebuild, ncindexrehash, nclistextract, nclistlength.
  cbn [fst]. rewrite Heq. reflexivity.
Qed.

(** The index a rebuild returns is the index a rebuild of it returns:
    the map is the one built from the vector. *)
Lemma ncindexrebuild_rebuilt flag (idx : NCindex A) :
  ncindexrebuild flag pol (snd (ncindexrebuild flag pol idx))
  = (true, snd (ncindexrebuild flag pol idx)).
Proof.
  destruct flag; [|reflexivity].
  rewrite (ncindexrebuild_of_list _ idx) by apply ncindexrebuild_list.
  reflexivity.
Qed.

(** Removing by position compacts the vector. *)
Lemma ncindexidel_list flag (idx : NCindex A) (i : nat) :
  idx_list (snd (ncindexidel flag idx i)) = delete i (idx_list idx).
Proof.
  unfold ncindexidel, nclistremove.
  destruct (idx_list idx !! i) eqn:Hi.
  - destruct flag; reflexivity.
  - cbn [snd]. symmetry. revert i Hi.
    induction (idx_list idx) as [|x l IH]; intros [|i] Hi;
      try reflexivity; try discriminate.
    simpl. f_equal. apply IH. exact Hi.
Qed.

End RebuildFacts.

(** Renumbering after the removal of position [k] restores the
    numbering. *)
Lemma renumber_delete_lookup (l : list NC_ATT_INFO_T) (k j : nat) :
  ids_are_positions l ->
  (renumber k <$> delete k l) !! j =
  if (j <? k)%nat then l !! j else (fun a => with_id a j) <$> l !! S j.
Proof.
  intros Hwf. rewrite list_lookup_fmap.
  destruct (j <? k)%nat eqn:Hjk.
  - apply Nat.ltb_lt in Hjk. rewrite list_lookup_delete_lt by done.
    destruct (l !! j) as [a|] eqn:Ha; [|reflexivity]. simpl.
    unfold renumber. rewrite (Hwf _ _ Ha).
    destruct (k <? j)%nat eqn:Hkj; [apply Nat.ltb_lt in Hkj; lia|reflexivity].
  - apply Nat.ltb_ge in Hjk. rewrite list_lookup_delete_ge by done.
    destruct (l !! S j) as [a|] eqn:Ha; [|reflexivity]. simpl.
    unfold renumber. rewrite (Hwf _ _ Ha).
    destruct (k <? S j)%nat eqn:Hkj; [reflexivity|].
    apply Nat.ltb_ge in Hkj. lia.
Qed.

Lemma renumber_delete_numbered (l : list NC_ATT_INFO_T) (k : nat) :
  ids_are_positions l -> ids_are_positions (renumber k <$> delete k l).
Proof.
  intros Hwf j a. rewrite renumber_delete_lookup by done.
  destruct (j <? k)%nat; [apply Hwf|].
  destruct (l !! S j); [|discriminate]. intros [= <-]. reflexivity.
Qed.

(** ** Deleting attributes *)

Section DelFacts.

Variable NCIUSEHASH : bool.
Variable pol : hashmap_policy.
Variable ext : externals.

(** [NC4_del_att] once define mode is settled ([h5'] is the file info
    after lines 538-545) and the index has resolved the name to an
    attribute that was not created in the file: the attribute list becomes
    the rebuild of the compacted, renumbered vector. *)
Lemma NC4_del_att_removes F ncid varid name loc attlist p att h5' :
  no_write (nc_h5 F) = false ->
  (if negb (indef (nc_h5 F)) then require_define ext (nc_h5 F) NC_ENOTINDEFINE
   else (NC_NOERR, nc_h5 F)) = (NC_NOERR, h5') ->
  getattlist (nc_grp F) varid = Ok (Some (loc, attlist)) ->
  ncindexlookup NCIUSEHASH pol attlist name = Some (p, att) ->
  att_created att = false ->
  exists attlist',
    NC4_del_att NCIUSEHASH pol ext F ncid varid (Some name)
    = Ok (NC_NOERR, set_grp (set_h5 F h5') (set_attlist (nc_grp F) loc attlist'))
    /\ idx_list attlist'
       = renumber (obj_id (att_hdr att))
           <$> delete (obj_id (att_hdr att)) (idx_list attlist)
    /\ ncindexrebuild NCIUSEHASH pol attlist' = (true, attlist').
Proof.
  intros Hw Hdef Hlist Hlook Hcr.
  set (k := obj_id (att_hdr att)).
  set (compacted :=
         {| idx_list := map (renumber k)
                          (idx_list (snd (ncindexidel NCIUSEHASH attlist k)));
            idx_map := idx_map (snd (ncindexidel NCIUSEHASH attlist k)) |}).
  exists (snd (ncindexrebuild NCIUSEHASH pol compacted)).
  split; [|split].
  - unfold NC4_del_att. rewrite Hw, Hdef. cbn [is_ok negb].
    cbn [set_h5 nc_grp]. rewrite Hlist, Hlook, Hcr.
    unfold nc4_att_list_del. cbn [is_ok negb]. fold k. fold compacted.
    rewrite ncindexrebuild_ok. reflexivity.
  - rewrite ncindexrebuild_list. unfold compacted. cbn [idx_list].
    rewrite ncindexidel_list. reflexivity.
  - apply ncindexrebuild_rebuilt.
Qed.

(** An attribute that was created in the file cannot be deleted:
    [assert(locid)] fails, since [locid] is still 0. Every delete that
    succeeds is therefore one of an attribute not yet created there. *)
Lemma NC4_del_att_created F ncid varid name loc attlist p att h5' :
  no_write (nc_h5 F) = false ->
  (if negb (indef (nc_h5 F)) then require_define ext (nc_h5 F) NC_ENOTINDEFINE
   else (NC_NOERR, nc_h5 F)) = (NC_NOERR, h5') ->
  getattlist (nc_grp F) varid = Ok (Some (loc, attlist)) ->
  ncindexlookup NCIUSEHASH pol attlist name = Some (p, att) ->
  att_created att = true ->
  NC4_del_att NCIUSEHASH pol ext F ncid varid (Some name)
  = Crash AssertFailed.
Proof.
  intros Hw Hdef Hlist Hlook Hcr.
  unfold NC4_del_att. rewrite Hw, Hdef. cbn [is_ok negb].
  cbn [set_h5 nc_grp]. rewrite Hlist, Hlook, Hcr. reflexivity.
Qed.

(** The delete in terms of the attribute the index resolves the name to: a
    delete that gets past define mode (the file is in define mode, or it
    does not follow the classic model and [NC4_redef] succeeds), of an
    attribute the index resolves (one not yet created in the file), from
    a list numbered by position, succeeds; the attribute of id [k] is taken
    out of the vector, which is compacted in its order; every attribute
    whose id was greater than [k] has its id decremented by one and is
    otherwise unchanged, the attributes below [k] are unchanged; ids are
    positions again; and the index is the one a rebuild from the vector
    gives. *)
Theorem NC4_del_att_renumbers F ncid varid name loc attlist p att h5' :
  no_write (nc_h5 F) = false ->
  (if negb (indef (nc_h5 F)) then require_define ext (nc_h5 F) NC_ENOTINDEFINE
   else (NC_NOERR, nc_h5 F)) = (NC_NOERR, h5') ->
  getattlist (nc_grp F) varid = Ok (Some (loc, attlist)) ->
  ncindexlookup NCIUSEHASH pol attlist name = Some (p, att) ->
  att_created att = false ->
  ids_are_positions (idx_list attlist) ->
  let k := obj_id (att_hdr att) in
  exists attlist',
    NC4_del_att NCIUSEHASH pol ext F ncid varid (Some name)
    = Ok (NC_NOERR,
          set_grp (set_h5 F h5') (set_attlist (nc_grp F) loc attlist'))
    /\ idx_list attlist !! k = Some att
    /\ idx_list attlist' = renumber k <$> delete k (idx_list attlist)
    /\ length (idx_list attlist') = length (idx_list attlist) - 1
    /\ (forall j a, idx_list attlist !! j = Some a -> j < k ->
        idx_list attlist' !! j = Some a)
    /\ (forall j a, idx_list attlist !! j = Some a -> k < j ->
        idx_list attlist' !! (j - 1) = Some (with_id a (j - 1)))
    /\ ids_are_positions (idx_list attlist')
    /\ ncindexrebuild NCIUSEHASH pol attlist' = (true, attlist').
Proof.
  intros Hw Hdef Hlist Hlook Hcr Hwf k.
  pose proof (ncindexlookup_Some _ _ _ _ _ _ Hlook) as Hp.
  assert (Hk : k = p) by (apply Hwf; exact Hp).
  destruct (NC4_del_att_removes F ncid varid name loc attlist p att h5')
    as (attlist' & Hdel & Hl & Hre); try assumption.
  fold k in Hl.
  exists attlist'. repeat split; try assumption.
  - rewrite Hk. exact Hp.
  - rewrite Hl, length_fmap. apply length_delete. rewrite Hk, Hp. eauto.
  - intros j a Ha Hj. rewrite Hl, renumber_delete_lookup by done.
    apply Nat.ltb_lt in Hj. rewrite Hj. exact Ha.
  - intros j a Ha Hj. rewrite Hl, renumber_delete_lookup by done.
    destruct (j - 1 <? k)%nat eqn:Hlt; [apply Nat.ltb_lt in Hlt; lia|].
    replace (S (j - 1)) with j by lia. rewrite Ha. reflexivity.
  - rewrite Hl. apply renumber_delete_numbered. exact Hwf.
Qed.


End DelFacts.

(** The attributes numbered 0, 1, 2, 3: deleting the one of id 1 leaves
    three, numbered 0, 1, 2 in their order; the former 2 is found at 1 and
    the former 3 at 2. *)
Lemma NC4_del_att_renumbers_witness :
  exists attlist',
    NC4_del_att false sample_policy sample_ext (four_atts_file NC_INDEF 0)
      65536 NC_GLOBAL (Some "a1")
    = Ok (NC_NOERR,
          set_grp (four_atts_file NC_INDEF 0)
            (set_attlist (nc_grp (four_atts_file NC_INDEF 0)) GroupAtts
               attlist'))
    /\ idx_list attlist'
       = [ sample_att "a0" 0 NC_INT [10%Z]; sample_att "a2" 1 NC_INT [12%Z];
           sample_att "a3" 2 NC_INT [13%Z] ].
Proof.
  destruct (NC4_del_att_renumbers false sample_policy sample_ext
              (four_atts_file NC_INDEF 0) 65536 NC_GLOBAL "a1" GroupAtts
              (sample_index four_atts) 1 (sample_att "a1" 1 NC_INT [11%Z])
              (nc_h5 (four_atts_file NC_INDEF 0)))
    as (attlist' & Hdel & _ & Hl & _); try evaluated.
  - intros [|[|[|[|i]]]] a; vm_compute; try discriminate;
      intros [= <-]; reflexivity.
  - exists attlist'. split; [exact Hdel|]. rewrite Hl. reflexivity.
Defined.



(** ** Lookup by name without the hash table *)

Section LinearLookup.

Variable pol : hashmap_policy.

(** The search finds nothing exactly when the name is not in the
    vector. *)
Lemma lookup_linear_None (idx : NCindex NC_ATT_INFO_T) (name : string) :
  ncindexlookup false pol idx name = None <->
  name ∉ att_names (idx_list idx).
Proof.
  unfold ncindexlookup, att_names. rewrite list_find_None, Forall_forall.
  split.
  - intros Hall Hin. apply list_elem_of_fmap in Hin as (a & -> & Ha).
    exact (Hall a Ha eq_refl).
  - intros Hnin a Ha Hname. apply Hnin. apply list_elem_of_fmap.
    exists a. split; [symmetry; exact Hname|exact Ha].
Qed.

Lemma lookup_linear_name (idx : NCindex NC_ATT_INFO_T) (name : string) p a :
  ncindexlookup false pol idx name = Some (p, a) ->
  obj_name (att_hdr a) = name.
Proof.
  unfold ncindexlookup. intros Hf. apply list_find_Some in Hf. apply Hf.
Qed.

(** A name of the vector is found. *)
Lemma lookup_linear_Some (idx : NCindex NC_ATT_INFO_T) (name : string) :
  name ∈ att_names (idx_list idx) ->
  exists p a, ncindexlookup false pol idx name = Some (p, a).
Proof.
  intros Hin.
  destruct (ncindexlookup false pol idx name) as [[p a]|] eqn:Hl; [eauto|].
  apply lookup_linear_None in Hl. contradiction.
Qed.

(** In a vector without duplicate names, the attribute of a name is found
    at its position. *)
Lemma lookup_linear_at (idx : NCindex NC_ATT_INFO_T) p a :
  NoDup (att_names (idx_list idx)) ->
  idx_list idx !! p = Some a ->
  ncindexlookup false pol idx (obj_name (att_hdr a)) = Some (p, a).
Proof.
  intros Hnd Hp. unfold ncindexlookup. apply list_find_Some.
  split; [exact Hp|split; [reflexivity|]].
  intros j y Hj Hlt Hname.
  assert (j = p); [|lia].
  eapply (NoDup_lookup _ j p (obj_name (att_hdr a)) Hnd).
  - unfold att_names. rewrite list_lookup_fmap, Hj. simpl. f_equal.
    exact Hname.
  - unfold att_names. rewrite list_lookup_fmap, Hp. reflexivity.
Qed.

End LinearLookup.

(** ** Renaming attributes *)

Section RenameFacts.

Variable pol : hashmap_policy.
Variable ext : externals.

Lemma att_names_lookup (l : list NC_ATT_INFO_T) (i : nat) (a : NC_ATT_INFO_T) :
  l !! i = Some a -> obj_name (att_hdr a) ∈ att_names l.
Proof.
  intros Hi. unfold att_names. apply list_elem_of_fmap.
  exists a. split; [reflexivity|]. apply list_elem_of_lookup. eauto.
Qed.

(** The rename with the index without hash table. [nn] is the checked new name and
    [on] the normalised old name of a rename on a writable file. The
    rename fails with [NC_ENAMEINUSE] if [nn] is the name of an attribute
    of the list; otherwise with [NC_ENOTATT] if [on] is not; otherwise, in
    a classic-model file outside define mode, with [NC_ENOTINDEFINE] if
    [nn] is strictly longer than [on]. In the remaining cases (define
    mode, or not the classic model, or [nn] not longer), once the copy in
    the file, if any, is deleted, the rename succeeds: the attribute stays
    at its position with its id, carries the new name, is found under
    [nn] and no attribute is found under [on]. *)
Theorem NC4_rename_att_checks F ncid varid name newname nn on loc attlist :
  String.length newname <= NC_MAX_NAME ->
  no_write (nc_h5 F) = false ->
  nc4_check_name ext newname = (NC_NOERR, nn) ->
  nc4_normalize_name ext name = (NC_NOERR, on) ->
  getattlist (nc_grp F) varid = Ok (Some (loc, attlist)) ->
  let names := att_names (idx_list attlist) in
  let rename :=
    NC4_rename_att false pol ext F ncid varid (Some name) (Some newname) in
  (nn ∈ names -> rename = Ok (NC_ENAMEINUSE, F))
  /\ (nn ∉ names -> on ∉ names -> rename = Ok (NC_ENOTATT, F))
  /\ (nn ∉ names -> on ∈ names ->
      indef (nc_h5 F) = false -> classic (nc_h5 F) = true ->
      String.length on < String.length nn ->
      rename = Ok (NC_ENOTINDEFINE, F))
  /\ (nn ∉ names -> NoDup names ->
      forall p att created,
        idx_list attlist !! p = Some att -> obj_name (att_hdr att) = on ->
        (indef (nc_h5 F) = true \/ classic (nc_h5 F) = false
         \/ String.length nn <= String.length on) ->
        rename_delete_original ext (nc_grp F) varid att = inr created ->
        exists list',
          rename = Ok (NC_NOERR, set_grp F (set_attlist (nc_grp F) loc list'))
          /\ idx_list list' = <[p := renamed pol att nn created]> (idx_list attlist)
          /\ obj_id (att_hdr (renamed pol att nn created))
             = obj_id (att_hdr att)
          /\ ncindexlookup false pol list' nn
             = Some (p, renamed pol att nn created)
          /\ ncindexlookup false pol list' on = None).
Proof.
  intros Hmax Hw Hcheck Hnorm Hlist names rename.
  assert (Hstart :
            rename =
            match ncindexlookup false pol attlist nn with
            | Some _ => Ok (NC_ENAMEINUSE, F)
            | None =>
                match ncindexlookup false pol attlist on with
                | None => Ok (NC_ENOTATT, F)
                | Some (p, att) =>
                    if negb (indef (nc_h5 F))
                       && (String.length (obj_name (att_hdr att))
                           <? String.length nn)%nat
                       && classic (nc_h5 F)
                    then Ok (NC_ENOTINDEFINE, F)
                    else
                      match rename_delete_original ext (nc_grp F) varid att with
                      | inl retval => Ok (retval, F)
                      | inr created =>
                          Ok (if fst (ncindexrebuild false pol
                                        (set_att attlist p
                                           (renamed pol att nn created)))
                              then NC_NOERR else NC_EINTERNAL,
                              set_grp F
                                (set_attlist (nc_grp F) loc
                                   (snd (ncindexrebuild false pol
                                           (set_att attlist p
                                              (renamed pol att nn created))))))
                      end
                end
            end).
  { subst rename. unfold NC4_rename_att.
    apply Nat.ltb_ge in Hmax. rewrite Hmax, Hw, Hcheck. cbn [is_ok negb].
    rewrite Hlist.
    destruct (ncindexlookup false pol attlist nn); [reflexivity|].
    rewrite Hnorm. cbn [is_ok negb]. reflexivity. }
  split; [|split; [|split]].
  - intros Hin. rewrite Hstart.
    destruct (lookup_linear_Some pol attlist nn Hin) as (p & a & ->).
    reflexivity.
  - intros Hnn Hon. rewrite Hstart.
    apply (lookup_linear_None pol) in Hnn, Hon. rewrite Hnn, Hon.
    reflexivity.
  - intros Hnn Hon Hin Hcl Hlen. rewrite Hstart.
    apply (lookup_linear_None pol) in Hnn. rewrite Hnn.
    destruct (lookup_linear_Some pol attlist on Hon) as (p & a & Hl).
    rewrite Hl. rewrite (lookup_linear_name pol _ _ _ _ Hl).
    apply Nat.ltb_lt in Hlen. rewrite Hin, Hcl, Hlen. reflexivity.
  - intros Hnn Hnd p att created Hp Hname Hcase Hdel.
    pose proof Hnn as Hnn'. apply (lookup_linear_None pol) in Hnn'.
    pose proof (lookup_linear_at pol attlist p att Hnd Hp) as Hl.
    rewrite Hname in Hl.
    assert (Hcond : negb (indef (nc_h5 F))
                    && (String.length (obj_name (att_hdr att))
                        <? String.length nn)%nat
                    && classic (nc_h5 F) = false).
    { rewrite Hname. destruct Hcase as [->| [->|Hle]].
      - reflexivity.
      - apply andb_false_r.
      - apply Nat.ltb_ge in Hle. rewrite Hle. rewrite andb_false_r.
        reflexivity. }
    exists (set_att attlist p (renamed pol att nn created)).
    assert (Hlt : p < length (idx_list attlist)) by (eapply lookup_lt_Some; eauto).
    split; [|split; [|split; [|split]]].
    + rewrite Hstart, Hnn', Hl, Hcond, Hdel. reflexivity.
    + reflexivity.
    + reflexivity.
    + unfold ncindexlookup. apply list_find_Some. cbn [set_att idx_list].
      split; [apply list_lookup_insert_eq; exact Hlt|].
      split; [reflexivity|].
      intros j y Hj Hjp Hy. rewrite list_lookup_insert_ne in Hj by lia.
      apply Hnn. rewrite <- Hy. eapply att_names_lookup. exact Hj.
    + apply lookup_linear_None. cbn [set_att idx_list]. intros Hin.
      unfold att_names in Hin. apply list_elem_of_fmap in Hin as (a & Ha & Hin).
      apply list_elem_of_lookup in Hin as (j & Hj).
      destruct (decide (j = p)) as [->|Hne].
      * rewrite list_lookup_insert_eq in Hj by exact Hlt.
        injection Hj as <-. cbn in Ha. apply Hnn. rewrite <- Ha, <- Hname.
        eapply att_names_lookup. exact Hp.
      * rewrite list_lookup_insert_ne in Hj by done.
        apply Hne.
        eapply (NoDup_lookup _ j p on Hnd).
        -- unfold names, att_names. rewrite list_lookup_fmap, Hj. simpl.
           congruence.
        -- unfold names, att_names. rewrite list_lookup_fmap, Hp. simpl.
           congruence.
Qed.

End RenameFacts.

(** "a1" of the four attributes is renamed to "b1". *)
Lemma NC4_rename_att_checks_witness :
  exists attlist',
    NC4_rename_att false sample_policy sample_ext (four_atts_file NC_INDEF 0)
      65536 NC_GLOBAL (Some "a1") (Some "b1")
    = Ok (NC_NOERR,
          set_grp (four_atts_file NC_INDEF 0)
            (set_attlist (nc_grp (four_atts_file NC_INDEF 0)) GroupAtts
               attlist'))
    /\ ncindexlookup false sample_policy attlist' "b1"
       = Some (1, plain_att "b1" 1 NC_INT 1 (Some [11%Z]) true)
    /\ ncindexlookup false sample_policy attlist' "a1" = None.
Proof.
  destruct (NC4_rename_att_checks sample_policy sample_ext
              (four_atts_file NC_INDEF 0) 65536 NC_GLOBAL "a1" "b1" "b1" "a1"
              GroupAtts (sample_index four_atts))
    as (_ & _ & _ & Hok); try evaluated.
  destruct (Hok ltac:(evaluated) ltac:(evaluated) 1
              (sample_att "a1" 1 NC_INT [11%Z]) false
              ltac:(evaluated) ltac:(evaluated) ltac:(evaluated)
              ltac:(evaluated))
    as (attlist' & Hren & _ & _ & Hnew & Hold).
  exists attlist'. split; [exact Hren|]. split; [exact Hnew|exact Hold].
Defined.

(** The error cases on the four attributes: a name in use, an absent
    attribute, and, in a classic-model file outside define mode, a longer
    name refused and a name of the same length accepted. *)
Example NC4_rename_att_errors :
  NC4_rename_att false sample_policy sample_ext (four_atts_file NC_INDEF 0)
    65536 NC_GLOBAL (Some "a1") (Some "a2")
  = Ok (NC_ENAMEINUSE, four_atts_file NC_INDEF 0)
  /\ NC4_rename_att false sample_policy sample_ext (four_atts_file NC_INDEF 0)
       65536 NC_GLOBAL (Some "a9") (Some "b1")
     = Ok (NC_ENOTATT, four_atts_file NC_INDEF 0)
  /\ NC4_rename_att false sample_policy sample_ext
       (four_atts_file 0 NC_CLASSIC_MODEL) 65536 NC_GLOBAL (Some "a1")
       (Some "a1_long")
     = Ok (NC_ENOTINDEFINE, four_atts_file 0 NC_CLASSIC_MODEL)
  /\ fst <$> (match NC4_rename_att false sample_policy sample_ext
                      (four_atts_file 0 NC_CLASSIC_MODEL) 65536 NC_GLOBAL
                      (Some "a1") (Some "b1") with
              | Ok r => Some r
              | Crash _ => None
              end)
     = Some NC_NOERR.
Proof. repeat split; vm_compute; reflexivity. Qed.

(** ** Writing attributes and the reserved names *)

(** The reserved names are the three of the table. *)
Lemma reserved_nameonly_names (name : string) :
  reserved_nameonly name = true ->
  name = NCPROPS \/ name = ISNETCDF4ATT \/ name = SUPERBLOCKATT.
Proof.
  unfold reserved_nameonly, NC_findreserved, NC_reserved. cbn [find ra_name].
  destruct (streq NCPROPS name) eqn:H1;
    [apply streq_true in H1; auto|].
  destruct (streq ISNETCDF4ATT name) eqn:H2;
    [apply streq_true in H2; auto|].
  destruct (streq SUPERBLOCKATT name) eqn:H3;
    [apply streq_true in H3; auto|].
  discriminate.
Qed.

Section PutFacts.

Variable NCIUSEHASH : bool.
Variable pol : hashmap_policy.
Variable ext : externals.

(** Lines 635-670 of [NC4_put_att]: a put on the root group, addressed by
    the file's own ncid, of a global attribute under a reserved name is
    refused once the arguments and the name have passed the checks that
    precede. *)
Lemma NC4_put_att_reserved F name file_type len data mem_type mem norm :
  reserved_nameonly name = true ->
  (Z.of_nat len <= X_INT_MAX)%Z ->
  (len = 0 \/ data <> None) ->
  no_write (nc_h5 F) = false ->
  nc4_check_name ext name = (NC_NOERR, norm) ->
  grp_parent (nc_grp F) = None ->
  NC4_put_att NCIUSEHASH pol ext F (nc_ext_ncid F) NC_GLOBAL (Some name)
    file_type len data mem_type mem
  = Ok (NC_ENAMEINUSE, F).
Proof.
  intros Hres Hlen Hdata Hw Hcheck Hroot.
  unfold NC4_put_att, getattlist. cbn [Z.eqb NC_GLOBAL].
  apply Z.ltb_ge in Hlen. rewrite Hlen.
  assert (Hname : (NC_MAX_NAME <? String.length name) = false).
  { apply Nat.ltb_ge.
    destruct (reserved_nameonly_names name Hres) as [->|[->| ->]];
      vm_compute; lia. }
  rewrite Hname.
  assert (Hd : negb (len =? 0) && bool_decide (data = None) = false).
  { destruct Hdata as [->|Hd]; [reflexivity|].
    rewrite bool_decide_eq_false_2 by exact Hd. apply andb_false_r. }
  rewrite Hd, Hw, Hcheck. cbn [is_ok negb].
  rewrite Z.eqb_refl, Hroot, Hres. reflexivity.
Qed.

(** A get on the root group, addressed by the file's own ncid, of a
    global attribute under a reserved name is answered by
    [nc4_get_att_special]. *)
Lemma nc4_get_att_reserved F name xtype mem_type lenp attnum data mem :
  reserved_nameonly name = true ->
  nc4_normalize_name ext name = (NC_NOERR, name) ->
  nc4_get_att NCIUSEHASH pol ext F (nc_ext_ncid F) NC_GLOBAL (Some name)
    xtype mem_type lenp attnum data mem
  = Ok (nc4_get_att_special ext (nc_h5 F) name xtype mem_type lenp
          (bool_decide (attnum <> None)) data).
Proof.
  intros Hres Hnorm. unfold nc4_get_att. cbn [Z.eqb NC_GLOBAL].
  rewrite Hnorm. cbn [is_ok negb]. rewrite Z.eqb_refl, Hres. reflexivity.
Qed.

(** C7, amended. For each of the three reserved names, on the root group
    addressed by the file's own ncid: a put of a global attribute under
    the name is refused with [NC_ENAMEINUSE] (on a writable file, once the
    arguments pass the checks that precede); a query for the attribute id
    fails with [NC_EATTMETA]; a get is answered from the file info alone,
    whatever the attribute index holds: for the two flags it yields one
    [NC_INT] value, cast to the requested type when that is the native type
    or one of the eight integer types (when data is requested in another
    type the get fails with [NC_ERANGE]); for the provenance name it
    yields the provenance string when the file records provenance, the
    requested type is native or [NC_CHAR] and the string can be built, and
    fails with [NC_ENOTATT] when the file records none. *)
Theorem reserved_attributes F name :
  reserved_nameonly name = true ->
  nc4_normalize_name ext name = (NC_NOERR, name) ->
  let ncid := nc_ext_ncid F in
  let h5 := nc_h5 F in
  (forall file_type len data mem_type mem norm,
      (Z.of_nat len <= X_INT_MAX)%Z -> (len = 0 \/ data <> None) ->
      no_write h5 = false -> nc4_check_name ext name = (NC_NOERR, norm) ->
      grp_parent (nc_grp F) = None ->
      NC4_put_att NCIUSEHASH pol ext F ncid NC_GLOBAL (Some name) file_type
        len data mem_type mem
      = Ok (NC_ENAMEINUSE, F))
  /\ (forall a mem,
         NC4_inq_attid NCIUSEHASH pol ext F ncid NC_GLOBAL (Some name)
           (Some a) mem
         = Ok (NC_EATTMETA, no_out))
  /\ (forall xtype mem_type lenp data mem,
         nc4_get_att NCIUSEHASH pol ext F ncid NC_GLOBAL (Some name) xtype
           mem_type lenp None data mem
         = Ok (nc4_get_att_special ext h5 name xtype mem_type lenp false data))
  /\ (name <> NCPROPS ->
      forall xtype mem_type lenp,
        let iv :=
          if streq name SUPERBLOCKATT then to_size_t (superblockversion h5)
          else to_size_t (NC4_isnetcdf4 ext h5) in
        let mt := if (mem_type =? NC_NAT)%Z then NC_INT else mem_type in
        nc4_get_att_special ext h5 name xtype mem_type lenp false true
        = match cast_iv mt iv with
          | Some v =>
              (NC_NOERR,
               {| out_xtype := if xtype then Some NC_INT else None;
                  out_len := if lenp then Some 1 else None;
                  out_attnum := None; out_data := Some (Raw [v]) |})
          | None =>
              (NC_ERANGE,
               {| out_xtype := if xtype then Some NC_INT else None;
                  out_len := if lenp then Some 1 else None;
                  out_attnum := None; out_data := None |})
          end)
  /\ (name = NCPROPS ->
      (propattr_version h5 = 0%Z ->
       forall xtype mem_type lenp data,
         nc4_get_att_special ext h5 name xtype mem_type lenp false data
         = (NC_ENOTATT, no_out))
      /\ (propattr_version h5 <> 0%Z ->
          forall xtype mem_type lenp propdata,
            mem_type = NC_NAT \/ mem_type = NC_CHAR ->
            NC4_buildpropinfo ext h5 = (NC_NOERR, propdata) ->
            nc4_get_att_special ext h5 name xtype mem_type lenp false true
            = (NC_NOERR,
               {| out_xtype := if xtype then Some NC_CHAR else None;
                  out_len :=
                    if lenp then Some (String.length propdata) else None;
                  out_attnum := None;
                  out_data := Some (Raw (chars_of propdata ++ [0%Z])) |}))).
Proof.
  intros Hres Hnorm ncid h5.
  split; [|split; [|split; [|split]]].
  - intros. eapply NC4_put_att_reserved; eauto.
  - intros a mem. unfold NC4_inq_attid.
    rewrite nc4_get_att_reserved by assumption. reflexivity.
  - intros. rewrite nc4_get_att_reserved by assumption. reflexivity.
  - intros Hnp xtype mem_type lenp iv mt.
    unfold nc4_get_att_special.
    apply streq_false in Hnp. rewrite Hnp.
    assert (Hflag : streq name ISNETCDF4ATT || streq name SUPERBLOCKATT = true).
    { destruct (reserved_nameonly_names name Hres) as [->|[->| ->]].
      - rewrite streq_refl in Hnp. discriminate.
      - rewrite streq_refl. reflexivity.
      - rewrite streq_refl. apply orb_true_r. }
    rewrite Hflag. fold iv. fold mt.
    destruct (cast_iv mt iv); reflexivity.
  - intros ->. split.
    + intros Hv xtype mem_type lenp data. unfold nc4_get_att_special.
      rewrite streq_refl, Hv. reflexivity.
    + intros Hv xtype mem_type lenp propdata Hmt Hbuild.
      unfold nc4_get_att_special. rewrite streq_refl.
      apply Z.eqb_neq in Hv. rewrite Hv.
      destruct Hmt as [->| ->];
        cbn [Z.eqb Pos.eqb negb NC_NAT NC_CHAR];
        rewrite Hbuild; reflexivity.
Qed.

(** C5, on the index without hash table: a put of [_FillValue] on a
    variable, in define mode, with arguments that pass the checks of lines
    635-721, never reaches the checks of the fill value. The local [var]
    they read through is NULL ([NC_VAR_INFO_T *var = NULL], assigned
    nowhere), so the call crashes at [var->type_info], whatever the
    element count, the type, and whether data was written. *)
Theorem NC4_put_att_fill_value_null_var F ncid varid name file_type len data
    mem_type mem loc attlist type_size :
  varid <> NC_GLOBAL ->
  getattlist (nc_grp F) varid = Ok (Some (loc, attlist)) ->
  (Z.of_nat len <= X_INT_MAX)%Z ->
  String.length name <= NC_MAX_NAME ->
  (len = 0 \/ data <> None) ->
  no_write (nc_h5 F) = false ->
  nc4_check_name ext name = (NC_NOERR, _FillValue) ->
  indef (nc_h5 F) = true ->
  file_type <> NC_NAT ->
  mem_type = file_type ->
  nc4_get_typelen_mem ext (nc_h5 F) file_type = (NC_NOERR, type_size) ->
  (classic (nc_h5 F) = false \/ (file_type <= NC_DOUBLE)%Z) ->
  NC4_put_att false pol ext F ncid varid (Some name) file_type len data
    mem_type mem
  = Crash NullPointer.
Proof.
  intros Hvar Hlist Hlen Hname Hdata Hw Hcheck Hin Hnat -> Hsize Hcl.
  unfold NC4_put_att. rewrite Hlist.
  apply Z.ltb_ge in Hlen. rewrite Hlen.
  apply Nat.ltb_ge in Hname. rewrite Hname.
  assert (Hd : negb (len =? 0) && bool_decide (data = None) = false).
  { destruct Hdata as [->|Hd]; [reflexivity|].
    rewrite bool_decide_eq_false_2 by exact Hd. apply andb_false_r. }
  rewrite Hd, Hw, Hcheck. cbn [is_ok negb].
  apply Z.eqb_neq in Hvar. rewrite Hvar.
  rewrite andb_false_r. cbn [andb].
  assert (Hout : (let found := ncindexlookup false pol attlist _FillValue in
                  match found with
                  | None => negb (indef (nc_h5 F))
                  | Some (_, att) =>
                      negb (indef (nc_h5 F)) && grows ext att file_type len
                  end) = false).
  { cbv zeta. rewrite Hin.
    destruct (ncindexlookup false pol attlist _FillValue) as [[? ?]|];
      reflexivity. }
  cbv zeta in Hout. rewrite Hout. cbn [is_ok negb].
  rewrite set_h5_same.
  apply Z.eqb_neq in Hnat. rewrite Hnat. cbn [orb].
  rewrite Hsize. cbn [is_ok negb]. rewrite Z.eqb_refl. cbn [negb andb].
  assert (Hc : classic (nc_h5 F) && (NC_DOUBLE <? file_type)%Z = false).
  { destruct Hcl as [->|Hle]; [reflexivity|].
    apply Z.ltb_ge in Hle. rewrite Hle. apply andb_false_r. }
  rewrite Hc. unfold put_store.
  destruct (ncindexlookup false pol attlist _FillValue) as [[p att]|] eqn:Hl.
  - cbn [is_ok negb put_metadata att_hdr].
    rewrite (lookup_linear_name pol _ _ _ _ Hl), streq_refl, Hvar.
    reflexivity.
  - unfold nc4_att_list_add. cbn [is_ok negb put_metadata att_hdr obj_name].
    rewrite streq_refl, Hvar. reflexivity.
Qed.

End PutFacts.

(** C7 as stated fails: on a file that records no provenance, the get of
    the provenance name fails with [NC_ENOTATT]; and the get of the
    netCDF-4 flag as a double fails with [NC_ERANGE]. *)
Lemma reserved_attributes_counterexample :
  nc4_get_att false sample_policy sample_ext (sample_file NC_INDEF 0 0 [])
    65536 NC_GLOBAL (Some NCPROPS) false NC_NAT false None true 1
  = Ok (NC_ENOTATT, no_out)
  /\ nc4_get_att false sample_policy sample_ext (sample_file NC_INDEF 0 1 [])
       65536 NC_GLOBAL (Some ISNETCDF4ATT) false NC_DOUBLE false None true 1
     = Ok (NC_ERANGE, no_out).
Proof. split; vm_compute; reflexivity. Qed.

(** The superblock version of a file, read in the native type: the value
    2 of the file info, with no attribute in the index. *)
Lemma reserved_attributes_witness :
  nc4_get_att false sample_policy sample_ext (sample_file NC_INDEF 0 1 [])
    65536 NC_GLOBAL (Some SUPERBLOCKATT) true NC_NAT true None true 1
  = Ok (NC_NOERR,
        {| out_xtype := Some NC_INT; out_len := Some 1; out_attnum := None;
           out_data := Some (Raw [2%Z]) |})
  /\ NC4_put_att false sample_policy sample_ext (sample_file NC_INDEF 0 1 [])
       65536 NC_GLOBAL (Some SUPERBLOCKATT) NC_INT 1 (Some (Raw [3%Z])) NC_INT 1
     = Ok (NC_ENAMEINUSE, sample_file NC_INDEF 0 1 [])
  /\ NC4_inq_attid false sample_policy sample_ext
       (sample_file NC_INDEF 0 1 []) 65536 NC_GLOBAL (Some SUPERBLOCKATT)
       (Some 0%Z) 1
     = Ok (NC_EATTMETA, no_out).
Proof.
  destruct (reserved_attributes false sample_policy sample_ext
              (sample_file NC_INDEF 0 1 []) SUPERBLOCKATT)
    as (Hput & Hid & Hget & Hflag & _); [evaluated|evaluated|].
  split; [|split].
  - rewrite Hget. rewrite (Hflag ltac:(evaluated)). reflexivity.
  - apply (Hput NC_INT 1 (Some (Raw [3%Z])) NC_INT 1 SUPERBLOCKATT);
      evaluated.
  - apply Hid.
Defined.

(** A put of [_FillValue] with one integer on the integer variable 0,
    which has no data written: the call crashes. *)
Lemma NC4_put_att_fill_value_null_var_witness :
  NC4_put_att false sample_policy sample_ext var_file 65536 0
    (Some "_FillValue") NC_INT 1 (Some (Raw [(-999)%Z])) NC_INT 8
  = Crash NullPointer.
Proof.
  apply (NC4_put_att_fill_value_null_var sample_policy sample_ext var_file
           65536 0 "_FillValue" NC_INT 1 (Some (Raw [(-999)%Z])) NC_INT 8
           (VarAtts 0) (sample_index []) 4); evaluated.
Defined.

(** The same call with two elements, with a type that is not the
    variable's, or on the global list: the first two crash as well, and
    the last, which the fill-value branch ignores, stores the attribute. *)
Example NC4_put_att_fill_value_cases :
  NC4_put_att false sample_policy sample_ext var_file 65536 0
    (Some "_FillValue") NC_INT 2 (Some (Raw [1; 2]%Z)) NC_INT 8
  = Crash NullPointer
  /\ NC4_put_att false sample_policy sample_ext var_file 65536 0
       (Some "_FillValue") NC_SHORT 1 (Some (Raw [1%Z])) NC_SHORT 8
     = Crash NullPointer
  /\ fst <$> (match NC4_put_att false sample_policy sample_ext var_file 65536
                      NC_GLOBAL (Some "_FillValue") NC_INT 2
                      (Some (Raw [1; 2]%Z)) NC_INT 8 with
              | Ok r => Some r
              | Crash _ => None
              end)
     = Some NC_NOERR.
Proof. repeat split; vm_compute; reflexivity. Qed.

(** C9 on the code: two puts that fail with [NC_ENOMEM] when the
    allocation of the payload fails (line 907). The put of three integers
    on the existing attribute "valid_range" (1, 10) leaves it with the new
    length 3, the dirty flag and no payload: the old payload was freed
    before the new one was allocated. The put of the new attribute
    "history" leaves a record appended to the list, with type, length and
    dirty flag set and no payload. Neither store is as it was before the
    call. *)
Theorem NC4_put_att_failure_leaves_changes :
  NC4_put_att false sample_policy sample_ext range_file 65536 NC_GLOBAL
    (Some "valid_range") NC_INT 3 (Some (Raw [1; 5; 10]%Z)) NC_INT 0
  = Ok (NC_ENOMEM,
        sample_file NC_INDEF 0 1
          [plain_att "valid_range" 0 NC_INT 3 None true])
  /\ NC4_put_att false sample_policy sample_ext range_file 65536 NC_GLOBAL
       (Some "history") NC_INT 1 (Some (Raw [7%Z])) NC_INT 0
     = Ok (NC_ENOMEM,
           sample_file NC_INDEF 0 1
             [sample_att "valid_range" 0 NC_INT [1; 10]%Z;
              plain_att "history" 1 NC_INT 1 None true])
  /\ sample_file NC_INDEF 0 1 [plain_att "valid_range" 0 NC_INT 3 None true]
     <> range_file
  /\ sample_file NC_INDEF 0 1
       [sample_att "valid_range" 0 NC_INT [1; 10]%Z;
        plain_att "history" 1 NC_INT 1 None true]
     <> range_file.
Proof.
  split; [vm_compute; reflexivity|].
  split; [vm_compute; reflexivity|].
  split; intros Heq; vm_compute in Heq; discriminate.
Qed.

(** With memory available the same put of "valid_range" succeeds, and a
    put whose conversion is refused also returns after the record was
    changed. *)
Example NC4_put_att_other_outcomes :
  NC4_put_att false sample_policy sample_ext range_file 65536 NC_GLOBAL
    (Some "valid_range") NC_INT 3 (Some (Raw [1; 5; 10]%Z)) NC_INT 1
  = Ok (NC_NOERR,
        sample_file NC_INDEF 0 1
          [plain_att "valid_range" 0 NC_INT 3 (Some [1; 5; 10]%Z) true])
  /\ NC4_put_att false sample_policy sample_ext range_file 65536 NC_GLOBAL
       (Some "valid_range") NC_INT 3 (Some (Raw [1; 5; 10]%Z)) NC_OPAQUE 1
     = Ok (NC_EBADTYPE,
           sample_file NC_INDEF 0 1
             [plain_att "valid_range" 0 NC_INT 3 (Some []) true]).
Proof. split; vm_compute; reflexivity. Qed.

(** ** The attribute functions on a list built under [NCIUSEHASH]

    With the hash table, [nc4_att_list_add] enters every new attribute
    through [ncindexadd], whose hash entry holds the position of the
    attribute plus one. The lookups by name of the attribute functions
    therefore resolve a name to the attribute that follows the one of
    that name, and the last name to nothing. *)

Section HashedAttributes.

Variable pol : hashmap_policy.
Variable ext : externals.

(** Under [NCIUSEHASH] the name of the object last added resolves to
    nothing, for every index, hash function and growth policy: the entry
    of the name, if the map took it, points past the end of the vector. *)
Lemma ncindexlookup_hash_last_added {A : Type} `{Header A} (idx : NCindex A)
    (obj : A) :
  ncindexlookup true pol (snd (ncindexadd true pol idx obj))
    (obj_name (hdr obj)) = None.
Proof.
  unfold ncindexlookup. rewrite ncindexadd_map, NC_hashmapadd_get.
  destruct (fst _); [|reflexivity].
  unfold nclistget. rewrite ncindexadd_list.
  rewrite lookup_ge_None_2; [reflexivity|].
  rewrite length_app. simpl. lia.
Qed.

(** So the attribute last added to a list, which is in the list, can be
    neither deleted nor renamed by its name: both calls answer
    [NC_ENOTATT], whatever the hash function. *)
Lemma NC4_del_att_hash_last_added F ncid varid loc idx att h5' :
  no_write (nc_h5 F) = false ->
  (if negb (indef (nc_h5 F)) then require_define ext (nc_h5 F) NC_ENOTINDEFINE
   else (NC_NOERR, nc_h5 F)) = (NC_NOERR, h5') ->
  getattlist (nc_grp F) varid
  = Ok (Some (loc, snd (ncindexadd true pol idx att))) ->
  NC4_del_att true pol ext F ncid varid (Some (obj_name (att_hdr att)))
  = Ok (NC_ENOTATT, set_h5 F h5').
Proof.
  intros Hw Hdef Hlist. unfold NC4_del_att.
  rewrite Hw, Hdef. cbn [is_ok negb set_h5 nc_grp].
  rewrite Hlist.
  pose proof (ncindexlookup_hash_last_added idx att) as Hlast.
  change (hdr att) with (att_hdr att) in Hlast. rewrite Hlast. reflexivity.
Qed.

Lemma NC4_rename_att_hash_last_added F ncid varid name newname nn loc idx
    att :
  String.length newname <= NC_MAX_NAME ->
  no_write (nc_h5 F) = false ->
  nc4_check_name ext newname = (NC_NOERR, nn) ->
  nc4_normalize_name ext name = (NC_NOERR, obj_name (att_hdr att)) ->
  getattlist (nc_grp F) varid
  = Ok (Some (loc, snd (ncindexadd true pol idx att))) ->
  ncindexlookup true pol (snd (ncindexadd true pol idx att)) nn = None ->
  NC4_rename_att true pol ext F ncid varid (Some name) (Some newname)
  = Ok (NC_ENOTATT, F).
Proof.
  intros Hlen Hw Hcheck Hnorm Hlist Hnn. unfold NC4_rename_att.
  apply Nat.ltb_ge in Hlen. rewrite Hlen, Hw, Hcheck. cbn [is_ok negb].
  rewrite Hlist, Hnn, Hnorm. cbn [is_ok negb].
  pose proof (ncindexlookup_hash_last_added idx att) as Hlast.
  change (hdr att) with (att_hdr att) in Hlast. rewrite Hlast. reflexivity.
Qed.

End HashedAttributes.

(** The file that holds "a0" .. "a3" is the file four puts build from the
    empty file. *)
Example hashed_four_atts_file_built :
  put_int
    (put_int
       (put_int (put_int (Some (hashed_file NC_INDEF 0 [])) "a0" 10) "a1" 11)
       "a2" 12)
    "a3" 13
  = Some hashed_four_atts_file.
Proof. vm_compute. reflexivity. Qed.

(** What the names resolve to in that file: each name but the last to the
    next attribute. *)
Example hashed_four_atts_file_lookups :
  let lookup :=
    ncindexlookup true sample_policy
      (grp_att (nc_grp hashed_four_atts_file)) in
  lookup "a0" = Some (1, plain_att "a1" 1 NC_INT 1 (Some [11%Z]) true)
  /\ lookup "a1" = Some (2, plain_att "a2" 2 NC_INT 1 (Some [12%Z]) true)
  /\ lookup "a2" = Some (3, plain_att "a3" 3 NC_INT 1 (Some [13%Z]) true)
  /\ lookup "a3" = None.
Proof. vm_compute. repeat split. Qed.

(** C2, as the code has it under [NCIUSEHASH]. In the file that four puts
    of "a0" .. "a3" build, the delete of "a0" succeeds and removes "a1":
    "a0" is still in the list, at id 0, and the attributes after "a1"
    have moved down with their ids. The index rebuilt from the compacted
    vector resolves "a0" to the attribute "a2", "a2" to "a3" and "a3" to
    nothing. The delete of "a3", the last attribute, fails with
    [NC_ENOTATT] and changes nothing. *)
Theorem NC4_del_att_hash_removes_neighbour :
  let del name :=
    NC4_del_att true sample_policy sample_ext hashed_four_atts_file 65536
      NC_GLOBAL (Some name) in
  put_int
    (put_int
       (put_int (put_int (Some (hashed_file NC_INDEF 0 [])) "a0" 10) "a1" 11)
       "a2" 12)
    "a3" 13
  = Some hashed_four_atts_file
  /\ (exists F',
      del "a0" = Ok (NC_NOERR, F')
      /\ idx_list (grp_att (nc_grp F'))
         = [ plain_att "a0" 0 NC_INT 1 (Some [10%Z]) true;
             plain_att "a2" 1 NC_INT 1 (Some [12%Z]) true;
             plain_att "a3" 2 NC_INT 1 (Some [13%Z]) true ]
      /\ ncindexlookup true sample_policy (grp_att (nc_grp F')) "a0"
         = Some (1, plain_att "a2" 1 NC_INT 1 (Some [12%Z]) true)
      /\ ncindexlookup true sample_policy (grp_att (nc_grp F')) "a2"
         = Some (2, plain_att "a3" 2 NC_INT 1 (Some [13%Z]) true)
      /\ ncindexlookup true sample_policy (grp_att (nc_grp F')) "a3" = None)
  /\ del "a3" = Ok (NC_ENOTATT, hashed_four_atts_file).
Proof.
  intros del. split; [vm_compute; reflexivity|]. split.
  - eexists. split; [vm_compute; reflexivity|]. vm_compute. repeat split.
  - vm_compute. reflexivity.
Qed.

(** The same delete on the same attributes without the hash table removes
    "a0". *)
Example NC4_del_att_linear_removes_named :
  global_atts
    (NC4_del_att false sample_policy sample_ext
       (sample_file NC_INDEF 0 1 four_put_atts) 65536 NC_GLOBAL (Some "a0"))
  = Some (NC_NOERR,
          [ plain_att "a1" 0 NC_INT 1 (Some [11%Z]) true;
            plain_att "a2" 1 NC_INT 1 (Some [12%Z]) true;
            plain_att "a3" 2 NC_INT 1 (Some [13%Z]) true ]).
Proof. vm_compute. reflexivity. Qed.

(** C8, as the code has it under [NCIUSEHASH]. In the file that four puts
    of "a0" .. "a3" build: the rename of "a1" to "b1" succeeds and
    renames "a2", "a1" keeping its name; the rename of "a0" to "a3", a
    name in use, is not refused with [NC_ENAMEINUSE] but succeeds and
    renames "a1", leaving two attributes called "a3"; the rename of "a3",
    which is in the list, fails with [NC_ENOTATT]. *)
Theorem NC4_rename_att_hash_renames_neighbour :
  let rename name newname :=
    global_atts
      (NC4_rename_att true sample_policy sample_ext hashed_four_atts_file
         65536 NC_GLOBAL (Some name) (Some newname)) in
  put_int
    (put_int
       (put_int (put_int (Some (hashed_file NC_INDEF 0 [])) "a0" 10) "a1" 11)
       "a2" 12)
    "a3" 13
  = Some hashed_four_atts_file
  /\ rename "a1" "b1"
     = Some (NC_NOERR,
             [ plain_att "a0" 0 NC_INT 1 (Some [10%Z]) true;
               plain_att "a1" 1 NC_INT 1 (Some [11%Z]) true;
               plain_att "b1" 2 NC_INT 1 (Some [12%Z]) true;
               plain_att "a3" 3 NC_INT 1 (Some [13%Z]) true ])
  /\ rename "a0" "a3"
     = Some (NC_NOERR,
             [ plain_att "a0" 0 NC_INT 1 (Some [10%Z]) true;
               plain_att "a3" 1 NC_INT 1 (Some [11%Z]) true;
               plain_att "a2" 2 NC_INT 1 (Some [12%Z]) true;
               plain_att "a3" 3 NC_INT 1 (Some [13%Z]) true ])
  /\ rename "a3" "b3" = Some (NC_ENOTATT, four_put_atts).
Proof. intros rename. vm_compute. repeat split. Qed.

(** The same renames on the same attributes without the hash table: "a1"
    itself is renamed, and the name in use is refused. *)
Example NC4_rename_att_linear_renames_named :
  let rename name newname :=
    global_atts
      (NC4_rename_att false sample_policy sample_ext
         (sample_file NC_INDEF 0 1 four_put_atts) 65536 NC_GLOBAL (Some name)
         (Some newname)) in
  rename "a1" "b1"
  = Some (NC_NOERR,
          [ plain_att "a0" 0 NC_INT 1 (Some [10%Z]) true;
            plain_att "b1" 1 NC_INT 1 (Some [11%Z]) true;
            plain_att "a2" 2 NC_INT 1 (Some [12%Z]) true;
            plain_att "a3" 3 NC_INT 1 (Some [13%Z]) true ])
  /\ rename "a0" "a3" = Some (NC_ENAMEINUSE, four_put_atts)
  /\ fst <$> rename "a3" "b3" = Some NC_NOERR.
Proof. intros rename. vm_compute. repeat split. Qed.

(** * Further properties of the index *)

Section IndexMore.

Variable pol : hashmap_policy.
Context {A : Type} `{Header A}.

(** The linear search in a vector extended by one object. *)
Lemma lookup_linear_push (idx : NCindex A) (obj : A) (m : NC_hashmap)
    (name : string) :
  ncindexlookup false pol {| idx_list := idx_list idx ++ [obj]; idx_map := m |}
    name =
  match ncindexlookup false pol idx name with
  | Some found => Some found
  | None =>
      if decide (obj_name (hdr obj) = name)
      then Some (ncindexsize idx, obj) else None
  end.
Proof.
  unfold ncindexlookup, ncindexsize, nclistlength. cbn [idx_list].
  destruct (list_find (fun o => obj_name (hdr o) = name) (idx_list idx))
    as [[p a]|] eqn:Hf.
  - apply list_find_app_l. exact Hf.
  - rewrite list_find_app_r by exact Hf. cbn [list_find].
    destruct (decide (obj_name (hdr obj) = name)); reflexivity.
Qed.

(** X1: lookup after [ncindexadd], without the hash table. An object that a
    name found before is still what the name finds, also when the object
    added carries the same name: [ncindexadd] does not refuse a duplicate
    and the search stops at the earlier object. A name that found nothing
    finds the added object, at the end of the vector, exactly when it is
    the object's name. *)
Theorem ncindexadd_then_lookup (idx : NCindex A) (obj : A) (name : string) :
  ncindexlookup false pol (snd (ncindexadd false pol idx obj)) name =
  match ncindexlookup false pol idx name with
  | Some found => Some found
  | None =>
      if decide (obj_name (hdr obj) = name)
      then Some (ncindexsize idx, obj) else None
  end.
Proof.
  unfold ncindexadd, nclistpush. cbn [snd]. apply lookup_linear_push.
Qed.

(** X2: [ncindexidel] and the bounds of the vector. A position past the end is
    refused and the index is left as it is. A position inside is removed:
    the size drops by one, the objects before it keep their positions and
    the objects after it move down by one; without the hash table the call
    then reports success. *)
Theorem ncindexidel_positions flag (idx : NCindex A) (i : nat) :
  (ncindexsize idx <= i -> ncindexidel flag idx i = (false, idx))
  /\ (i < ncindexsize idx ->
      let idx' := snd (ncindexidel flag idx i) in
      ncindexsize idx' = ncindexsize idx - 1
      /\ (forall j, j < i -> ncindexith idx' j = ncindexith idx j)
      /\ (forall j, i <= j -> ncindexith idx' j = ncindexith idx (S j))
      /\ fst (ncindexidel false idx i) = true).
Proof.
  unfold ncindexsize, nclistlength, ncindexith, nclistget. split.
  - intros Hge. unfold ncindexidel, nclistremove.
    rewrite lookup_ge_None_2 by exact Hge. reflexivity.
  - intros Hlt. cbv zeta.
    destruct (lookup_lt_is_Some_2 (idx_list idx) i Hlt) as [o Ho].
    rewrite ncindexidel_list. repeat split.
    + apply length_delete. eauto.
    + intros j Hj. apply list_lookup_delete_lt. exact Hj.
    + intros j Hj. apply list_lookup_delete_ge. exact Hj.
    + unfold ncindexidel, nclistremove. rewrite Ho. reflexivity.
Qed.

(** A table with no Active entry for the data [i] has nothing to
    deactivate. *)
Lemma deactivate_None (tbl : list NC_hentry) (i : nat) :
  forallb (fun e => negb (is_active e && (e_data e =? i))) tbl = true ->
  deactivate tbl i = None.
Proof.
  induction tbl as [|e tbl IH]; simpl; [reflexivity|].
  destruct (is_active e && (e_data e =? i)); simpl; [discriminate|].
  intros Hall. rewrite (IH Hall). reflexivity.
Qed.

(** X3: [ncindexidel] under the hash table removes the object from the vector
    before it looks at the map: when no Active entry of the map holds the
    position, the call reports failure although the vector has been
    compacted. *)
Theorem ncindexidel_reports_failure_after_removal (idx : NCindex A)
    (i : nat) :
  i < ncindexsize idx ->
  forallb (fun e => negb (is_active e && (e_data e =? i)))
    (hm_table (idx_map idx)) = true ->
  ncindexidel true idx i
  = (false, {| idx_list := delete i (idx_list idx); idx_map := idx_map idx |}).
Proof.
  intros Hlt Hall. unfold ncindexidel, nclistremove.
  destruct (lookup_lt_is_Some_2 (idx_list idx) i Hlt) as [o ->].
  unfold NC_hashmapdeactivate. rewrite (deactivate_None _ _ Hall).
  reflexivity.
Qed.

(** X4: [ncindexrehash] reports success (allocation failures, which the
    model leaves out, apart) and keeps the vector, in its order; a second
    rehash gives the index of the first; without the hash table it changes
    nothing. *)
Theorem ncindexrehash_keeps_vector flag (idx : NCindex A) :
  fst (ncindexrehash flag pol idx) = true
  /\ idx_list (snd (ncindexrehash flag pol idx)) = idx_list idx
  /\ ncindexrehash flag pol (snd (ncindexrehash flag pol idx))
     = ncindexrehash flag pol idx
  /\ snd (ncindexrehash false pol idx) = idx.
Proof.
  split; [apply (ncindexrebuild_ok pol flag idx)|].
  split; [apply (ncindexrebuild_list pol flag idx)|].
  split; [|reflexivity].
  pose proof (ncindexrebuild_rebuilt pol flag idx) as Hr.
  pose proof (ncindexrebuild_ok pol flag idx) as Hok.
  unfold ncindexrebuild in *. rewrite Hr.
  destruct (ncindexrehash flag pol idx) as [ok idx']. cbn [fst snd] in *.
  rewrite Hok. reflexivity.
Qed.

(** A bad entry is counted by the first pass of [ncindexverify]: an Active
    entry, in one of the [alloc] slots, that points past the end of the
    vector or to an object of another name. *)
Lemma verify_entries_bad (l : list A) (m : NC_hashmap) i e :
  i < hm_alloc m -> hm_table m !! i = Some e -> is_active e = true ->
  match nclistget l (e_data e) with
  | Some o => streq (obj_name (hdr o)) (keystr e) = false
  | None => True
  end ->
  0 < verify_entries l m.
Proof.
  intros Hi He Ha Hbad. unfold verify_entries.
  apply fold_left_counts with (x := i).
  - intros n y. destruct (hm_table m !! y) as [e'|]; [|lia].
    destruct (is_active e'); [|lia].
    destruct (nclistget l (e_data e')); [|lia].
    destruct (streq _ _); lia.
  - intros n. rewrite He, Ha.
    destruct (nclistget l (e_data e)); [rewrite Hbad|]; lia.
  - apply elem_of_seq. lia.
Qed.

(** X5: what a successful [ncindexverify] guarantees: every Active entry in the
    [alloc] slots of the map points to a position of the vector, and the
    object there carries the entry's key as its name. *)
Theorem ncindexverify_sound (lm : NCindex A) i e :
  fst (ncindexverify true lm) = 1%Z ->
  i < hm_alloc (idx_map lm) ->
  hm_table (idx_map lm) !! i = Some e ->
  is_active e = true ->
  exists o, ncindexith lm (e_data e) = Some o
            /\ obj_name (hdr o) = keystr e.
Proof.
  intros Hv Hi He Ha. unfold ncindexith.
  destruct (nclistget (idx_list lm) (e_data e)) as [o|] eqn:Ho.
  - exists o. split; [reflexivity|].
    destruct (streq (obj_name (hdr o)) (keystr e)) eqn:Hs;
      [apply streq_true; exact Hs|].
    rewrite ncindexverify_fails in Hv; [discriminate|].
    eapply verify_entries_bad; eauto. rewrite Ho. exact Hs.
  - rewrite ncindexverify_fails in Hv; [discriminate|].
    eapply verify_entries_bad; eauto. rewrite Ho. exact I.
Qed.

(** Marking an entry keeps it Active or not as it was: the mark is an even
    number added to the flags. *)
Lemma is_active_marked (e : NC_hentry) :
  is_active {| e_flags := (e_flags e + TOUCHED)%Z; e_data := e_data e;
               e_hashkey := e_hashkey e; e_key := e_key e |}
  = is_active e.
Proof.
  unfold is_active, ACTIVE, TOUCHED. cbn [e_flags].
  change 1%Z with (Z.ones 1). rewrite !Z.land_ones by lia.
  change (2 ^ 1)%Z with 2%Z. change 128%Z with (64 * 2)%Z.
  rewrite Z_mod_plus_full. reflexivity.
Qed.

(** The marking pass for a name that no Active entry among the slots
    walked carries: nothing is marked and nothing is matched. *)
Lemma verify_mark_no_match xp (ms : list nat) (st : list NC_hentry * nat * bool) :
  (forall mi e, mi ∈ ms -> fst (fst st) !! mi = Some e ->
                is_active e = true -> keystr e <> xp) ->
  fold_left
    (fun '(tbl, nerrs, matched) mi =>
       match tbl !! mi with
       | Some e =>
           if is_active e && streq (keystr e) xp then
             (<[mi := {| e_flags := (e_flags e + TOUCHED)%Z;
                         e_data := e_data e; e_hashkey := e_hashkey e;
                         e_key := e_key e |}]> tbl,
              if (Z.land (e_flags e) TOUCHED =? TOUCHED)%Z then S nerrs
              else nerrs,
              true)
           else (tbl, nerrs, matched)
       | None => (tbl, nerrs, matched)
       end) ms st = st.
Proof.
  induction ms as [|mi ms IH]; intros Hno; [reflexivity|].
  destruct st as [[tbl n] b]. cbn [fold_left fst] in *.
  destruct (tbl !! mi) as [e|] eqn:He.
  - destruct (is_active e) eqn:Ha; cbn [andb].
    + rewrite (proj2 (streq_false _ _)
                 (Hno mi e ltac:(left) He Ha)).
      apply IH. intros mj e' Hin. apply Hno. right. exact Hin.
    + apply IH. intros mj e' Hin. apply Hno. right. exact Hin.
  - apply IH. intros mj e' Hin. apply Hno. right. exact Hin.
Qed.

(** The marking pass for any name changes neither the keys nor which
    entries are Active. *)
Lemma verify_mark_keeps xp (ms : list nat) (st : list NC_hentry * nat * bool)
    (Q : nat -> NC_hentry -> Prop) :
  (forall i e, Q i e ->
     Q i {| e_flags := (e_flags e + TOUCHED)%Z; e_data := e_data e;
            e_hashkey := e_hashkey e; e_key := e_key e |}) ->
  (forall i e, fst (fst st) !! i = Some e -> Q i e) ->
  forall i e,
    fst (fst (fold_left
      (fun '(tbl, nerrs, matched) mi =>
         match tbl !! mi with
         | Some e =>
             if is_active e && streq (keystr e) xp then
               (<[mi := {| e_flags := (e_flags e + TOUCHED)%Z;
                           e_data := e_data e; e_hashkey := e_hashkey e;
                           e_key := e_key e |}]> tbl,
                if (Z.land (e_flags e) TOUCHED =? TOUCHED)%Z then S nerrs
                else nerrs,
                true)
             else (tbl, nerrs, matched)
         | None => (tbl, nerrs, matched)
         end) ms st)) !! i = Some e -> Q i e.
Proof.
  intros HQ. revert st.
  induction ms as [|mi ms IH]; intros [[tbl n] b] Hst; [exact Hst|].
  cbn [fold_left fst] in *.
  destruct (tbl !! mi) as [e0|] eqn:He0; [|apply IH; exact Hst].
  destruct (is_active e0 && streq (keystr e0) xp); [|apply IH; exact Hst].
  apply IH. cbn [fst]. intros i e Hi.
  destruct (decide (i = mi)) as [->|Hne].
  - rewrite list_lookup_insert_eq in Hi
      by (eapply lookup_lt_Some; exact He0).
    injection Hi as <-. apply HQ. apply Hst. exact He0.
  - rewrite list_lookup_insert_ne in Hi
      by (intros Heq; apply Hne; symmetry; exact Heq).
    apply Hst. exact Hi.
Qed.

(** The second pass, one object at a time. *)
Lemma verify_vector_cons (x : A) (l : list A) active tbl n :
  verify_vector (x :: l) active (tbl, n)
  = let '(tbl', n', matched) :=
      verify_mark (obj_name (hdr x)) active (tbl, n, false) in
    verify_vector l active (tbl', if matched then n' else S n').
Proof.
  unfold verify_vector. cbn [fold_left].
  destruct (verify_mark (obj_name (hdr x)) active (tbl, n, false))
    as [[tbl' n'] matched].
  reflexivity.
Qed.

(** The second pass counts an object whose name no Active entry among the
    first [active] slots carries. *)
Lemma verify_vector_counts (l : list A) (o : A) active tbl n :
  o ∈ l ->
  (forall mi e, mi < active -> tbl !! mi = Some e -> is_active e = true ->
                keystr e <> obj_name (hdr o)) ->
  n < snd (verify_vector l active (tbl, n)).
Proof.
  intros Hin. revert tbl n.
  induction Hin as [o l|o x l Hin IH]; intros tbl n Hno;
    rewrite verify_vector_cons.
  - assert (Hm : verify_mark (obj_name (hdr o)) active (tbl, n, false)
                 = (tbl, n, false)).
    { apply verify_mark_no_match. cbn [fst]. intros mi e Hmi. apply Hno.
      apply elem_of_seq in Hmi. lia. }
    rewrite Hm.
    pose proof (verify_vector_grows l active tbl (S n)). lia.
  - pose proof (verify_mark_grows (obj_name (hdr x)) active tbl n false)
      as Hgrow.
    pose proof (verify_mark_keeps (obj_name (hdr x)) (seq 0 active)
                  (tbl, n, false)
                  (fun i e => i < active -> is_active e = true ->
                              keystr e <> obj_name (hdr o))) as Hkeep.
    change (fold_left _ (seq 0 active) (tbl, n, false))
      with (verify_mark (obj_name (hdr x)) active (tbl, n, false)) in Hkeep.
    destruct (verify_mark (obj_name (hdr x)) active (tbl, n, false))
      as [[tbl' n'] matched].
    cbn [fst snd] in Hgrow, Hkeep.
    assert (Hno' : forall mi e, mi < active -> tbl' !! mi = Some e ->
                     is_active e = true -> keystr e <> obj_name (hdr o)).
    { intros mi e Hmi He Ha. refine (Hkeep _ _ mi e He Hmi Ha).
      - intros i e0 HQ Hi. rewrite is_active_marked. exact (HQ Hi).
      - intros i e0 He0 Hi. exact (Hno i e0 Hi He0). }
    destruct matched.
    + pose proof (IH tbl' n' Hno'). lia.
    + pose proof (IH tbl' (S n') Hno'). lia.
Qed.

(** X6: the second pass of [ncindexverify] looks for the entry of an object
    among the first [active] slots of the table, [active] being the number
    of entries and not the size of the table. An index is rejected as
    soon as one of its objects has no entry of its name in those slots,
    wherever else in the table its entry may be. *)
Theorem ncindexverify_walks_active_slots (lm : NCindex A) (o : A) :
  o ∈ idx_list lm ->
  hm_active (idx_map lm) <> 0 ->
  (forall mi e, mi < hm_active (idx_map lm) ->
     hm_table (idx_map lm) !! mi = Some e -> is_active e = true ->
     keystr e <> obj_name (hdr o)) ->
  fst (ncindexverify true lm) = 0%Z.
Proof.
  intros Hin Hactive Hno. unfold ncindexverify.
  assert (Hl : (nclistlength (idx_list lm) =? 0) = false).
  { apply Nat.eqb_neq. unfold nclistlength.
    destruct (idx_list lm); [inversion Hin|discriminate]. }
  apply Nat.eqb_neq in Hactive. rewrite Hl, Hactive. cbn [orb].
  pose proof (verify_vector_counts (idx_list lm) o (hm_active (idx_map lm))
                (hm_table (idx_map lm))
                (verify_entries (idx_list lm) (idx_map lm)) Hin Hno) as Hc.
  destruct (verify_vector _ _ _) as [tbl2 nerrs2]. cbn [snd] in Hc.
  cbn [fst].
  pose proof (verify_unmarked_grows tbl2 (hm_active (idx_map lm)) nerrs2).
  destruct (0 <? _) eqn:Hlt; [reflexivity|].
  apply Nat.ltb_ge in Hlt. lia.
Qed.

End IndexMore.

(** The index of one object added to a fresh index under the hash table:
    the removal of position 0 empties the vector and reports failure, the
    entry of the object holding 1. *)
Lemma ncindexidel_reports_failure_after_removal_witness :
  ncindexidel true
    (snd (ncindexadd true sample_policy (ncindexnew true 0)
            (sample_obj "units" 0))) 0
  = (false,
     {| idx_list := [];
        idx_map :=
          idx_map (snd (ncindexadd true sample_policy (ncindexnew true 0)
                          (sample_obj "units" 0))) |}).
Proof.
  apply (ncindexidel_reports_failure_after_removal
           (snd (ncindexadd true sample_policy (ncindexnew true 0)
                   (sample_obj "units" 0))) 0); evaluated.
Defined.

(** An index that [ncindexverify] accepts. *)
Lemma ncindexverify_sound_witness :
  exists o, ncindexith units_index 0 = Some o /\ obj_name (hdr o) = "units".
Proof.
  apply (ncindexverify_sound units_index 0 (written sample_policy 0 "units"));
    evaluated.
Defined.

(** An index whose map holds the object's name with the object's
    position, in the slot the hash function picks (slot 3 of 7): the
    lookup finds the object, and [ncindexverify] rejects the index. *)
Lemma ncindexverify_walks_active_slots_witness :
  ncindexlookup true sample_policy hashed_units_index "units"
  = Some (0, sample_obj "units" 0)
  /\ fst (ncindexverify true hashed_units_index) = 0%Z.
Proof.
  split; [reflexivity|].
  apply (ncindexverify_walks_active_slots hashed_units_index
           (sample_obj "units" 0)).
  - evaluated.
  - evaluated.
  - intros mi e Hmi. destruct mi as [|mi]; [|vm_compute in Hmi; lia].
    vm_compute. intros [= <-]. discriminate.
Defined.

(** * Further properties of the attribute functions *)

(** A copy loop with budget for every element that needs an allocation
    copies them all. *)
Lemma copy_each_enough {X : Type} (needs : X -> bool) (failed : X -> X)
    (xs : list X) (mem : nat) :
  length (List.filter needs xs) <= mem ->
  copy_each needs failed xs mem
  = (xs, true, mem - length (List.filter needs xs)).
Proof.
  revert mem. induction xs as [|x xs IH]; intros mem Hmem; simpl in *.
  - rewrite Nat.sub_0_r. reflexivity.
  - destruct (needs x); simpl in *.
    + destruct mem as [|mem']; [lia|]. cbn [alloc].
      rewrite IH by lia. reflexivity.
    + rewrite IH by lia. reflexivity.
Qed.


(** A variable id that names no variable of the group. *)
Lemma ncindexith_int_outside {A : Type} (index : NCindex A) (i : Z) :
  (i < 0 \/ Z.of_nat (ncindexsize index) <= i)%Z ->
  ncindexith_int index i = None.
Proof.
  intros Hout. unfold ncindexith_int, ncindexith, nclistget.
  destruct (i <? 0)%Z eqn:Hneg; [reflexivity|].
  apply Z.ltb_ge in Hneg. apply lookup_ge_None_2.
  unfold ncindexsize, nclistlength in Hout. lia.
Qed.

Section GetMore.

Variable NCIUSEHASH : bool.
Variable pol : hashmap_policy.
Variable ext : externals.

(** A get of a name the list does not hold. *)
Lemma nc4_get_att_unresolved F ncid varid nm norm loc attlist
    xtype mem_type lenp attnum data mem :
  getattlist (nc_grp F) varid = Ok (Some (loc, attlist)) ->
  nc4_normalize_name ext nm = (NC_NOERR, norm) ->
  (nc_ext_ncid F =? ncid)%Z && (varid =? NC_GLOBAL)%Z
    && reserved_nameonly norm = false ->
  ncindexlookup NCIUSEHASH pol attlist norm = None ->
  nc4_get_att NCIUSEHASH pol ext F ncid varid (Some nm) xtype mem_type lenp
    attnum data mem
  = Ok (NC_ENOTATT, no_out).
Proof.
  intros Hlist Hnorm Hres Hlook.
  assert (Hfind : nc4_find_grp_att NCIUSEHASH pol (nc_grp F) varid norm
                    (default (-1)%Z attnum) = Ok (inl NC_ENOTATT)).
  { unfold nc4_find_grp_att. rewrite Hlist, Hlook. reflexivity. }
  unfold nc4_get_att. rewrite Hnorm. cbn [is_ok negb].
  rewrite Hres, Hfind.
  unfold getattlist in Hlist.
  destruct (varid =? NC_GLOBAL)%Z; [reflexivity|].
  destruct (ncindexith_int (grp_vars (nc_grp F)) varid) as [var|];
    [|discriminate].
  destruct (Z.of_nat (obj_id (var_hdr var)) =? varid)%Z;
    [reflexivity|discriminate].
Qed.

(** The attribute found, read in its stored type from a plain buffer. *)
Lemma nc4_get_att_found_same_type h5 att xtype mem_type lenp attnum mem
    type_size values :
  att_len att <> 0 ->
  att_vldata att = None -> att_stdata att = None ->
  att_data att = Some values ->
  mem_type = NC_NAT \/ mem_type = att_nc_typeid att ->
  nc4_get_typelen_mem ext h5 (att_nc_typeid att) = (NC_NOERR, type_size) ->
  nc4_get_att_found ext h5 att xtype mem_type lenp attnum true mem
  = Ok (NC_NOERR,
        {| out_xtype := if xtype then Some (att_nc_typeid att) else None;
           out_len := if lenp then Some (att_len att) else None;
           out_attnum :=
             if attnum then Some (Z.of_nat (obj_id (att_hdr att))) else None;
           out_data := Some (Raw values) |}).
Proof.
  intros Hlen Hvl Hst Hdata Hmt Hsize.
  unfold nc4_get_att_found. apply Nat.eqb_neq in Hlen.
  assert (Hm : (if (mem_type =? NC_NAT)%Z then att_nc_typeid att
                else mem_type) = att_nc_typeid att).
  { destruct Hmt as [->| ->]; [reflexivity|].
    destruct (att_nc_typeid att =? NC_NAT)%Z; reflexivity. }
  rewrite Hm, Hlen.
  destruct (att_nc_typeid att =? NC_CHAR)%Z; cbn [andb negb orb];
    rewrite Hsize; cbn [is_ok negb]; rewrite Z.eqb_refl; cbn [andb negb];
    unfold nc4_get_att_copy; rewrite Hvl, Hst, Hdata; reflexivity.
Qed.

(** X7: a get in the stored type, of an attribute with a plain data buffer:
    the buffer is handed over as it is. Nothing is converted and nothing
    is allocated, so the get succeeds with no memory left, whatever the
    converter would do. *)
Theorem nc4_get_att_same_type F ncid varid nm norm loc attlist p att
    xtype mem_type lenp attnum mem type_size values :
  getattlist (nc_grp F) varid = Ok (Some (loc, attlist)) ->
  nc4_normalize_name ext nm = (NC_NOERR, norm) ->
  (nc_ext_ncid F =? ncid)%Z && (varid =? NC_GLOBAL)%Z
    && reserved_nameonly norm = false ->
  ncindexlookup NCIUSEHASH pol attlist norm = Some (p, att) ->
  att_len att <> 0 ->
  att_vldata att = None -> att_stdata att = None ->
  att_data att = Some values ->
  mem_type = NC_NAT \/ mem_type = att_nc_typeid att ->
  nc4_get_typelen_mem ext (nc_h5 F) (att_nc_typeid att)
    = (NC_NOERR, type_size) ->
  nc4_get_att NCIUSEHASH pol ext F ncid varid (Some nm) xtype mem_type lenp
    attnum true mem
  = Ok (NC_NOERR,
        {| out_xtype := if xtype then Some (att_nc_typeid att) else None;
           out_len := if lenp then Some (att_len att) else None;
           out_attnum :=
             if bool_decide (attnum <> None)
             then Some (Z.of_nat (obj_id (att_hdr att))) else None;
           out_data := Some (Raw values) |}).
Proof.
  intros Hlist Hnorm Hres Hlook Hlen Hvl Hst Hdata Hmt Hsize.
  rewrite (nc4_get_att_resolved NCIUSEHASH pol ext F ncid varid nm norm loc
             attlist p att) by assumption.
  eapply nc4_get_att_found_same_type; eassumption.
Qed.

(** The attribute found, a string array read in its stored type: the
    first [len] strings go through the copy loop. *)
Lemma nc4_get_att_found_strings h5 att xtype mem_type lenp attnum mem
    type_size strs :
  att_len att <> 0 ->
  att_vldata att = None -> att_stdata att = Some strs ->
  mem_type = NC_NAT \/ mem_type = att_nc_typeid att ->
  nc4_get_typelen_mem ext h5 (att_nc_typeid att) = (NC_NOERR, type_size) ->
  nc4_get_att_found ext h5 att xtype mem_type lenp attnum true mem
  = let '(copied, ok, _) :=
      copy_each (fun s : option string => bool_decide (s <> None))
        failed_string (take (att_len att) strs) mem in
    Ok (if ok then NC_NOERR else NC_ENOMEM,
        {| out_xtype := if xtype then Some (att_nc_typeid att) else None;
           out_len := if lenp then Some (att_len att) else None;
           out_attnum :=
             if attnum then Some (Z.of_nat (obj_id (att_hdr att))) else None;
           out_data := Some (Strings copied) |}).
Proof.
  intros Hlen Hvl Hst Hmt Hsize.
  unfold nc4_get_att_found. apply Nat.eqb_neq in Hlen.
  assert (Hm : (if (mem_type =? NC_NAT)%Z then att_nc_typeid att
                else mem_type) = att_nc_typeid att).
  { destruct Hmt as [->| ->]; [reflexivity|].
    destruct (att_nc_typeid att =? NC_NAT)%Z; reflexivity. }
  rewrite Hm, Hlen.
  destruct (att_nc_typeid att =? NC_CHAR)%Z; cbn [andb negb orb];
    rewrite Hsize; cbn [is_ok negb]; rewrite Z.eqb_refl; cbn [andb negb];
    unfold nc4_get_att_copy; rewrite Hvl, Hst;
    destruct (copy_each _ _ (take (att_len att) strs) mem)
      as [[copied ok] left];
    destruct ok; reflexivity.
Qed.


End GetMore.

Section UnknownVariable.

Variable NCIUSEHASH : bool.
Variable pol : hashmap_policy.
Variable ext : externals.

(** X10: a variable id other than [NC_GLOBAL] that is negative or past the
    last variable of the group. A get and a put fail with [NC_ENOTVAR]
    whatever their other arguments are, the check of the variable being
    their first. A rename checks its names and the write permission
    before; a delete has by then also settled define mode, so that a file
    outside define mode is left in define mode by the refused delete. *)
Theorem unknown_variable F ncid varid :
  varid <> NC_GLOBAL ->
  (varid < 0 \/ Z.of_nat (ncindexsize (grp_vars (nc_grp F))) <= varid)%Z ->
  (forall name xtype mem_type lenp attnum data mem,
      nc4_get_att NCIUSEHASH pol ext F ncid varid name xtype mem_type lenp
        attnum data mem
      = Ok (NC_ENOTVAR, no_out))
  /\ (forall name file_type len data mem_type mem,
         NC4_put_att NCIUSEHASH pol ext F ncid varid name file_type len data
           mem_type mem
         = Ok (NC_ENOTVAR, F))
  /\ (forall name newname norm,
         String.length newname <= NC_MAX_NAME ->
         no_write (nc_h5 F) = false ->
         nc4_check_name ext newname = (NC_NOERR, norm) ->
         NC4_rename_att NCIUSEHASH pol ext F ncid varid (Some name)
           (Some newname)
         = Ok (NC_ENOTVAR, F))
  /\ (forall name h5',
         no_write (nc_h5 F) = false ->
         (if negb (indef (nc_h5 F))
          then require_define ext (nc_h5 F) NC_ENOTINDEFINE
          else (NC_NOERR, nc_h5 F)) = (NC_NOERR, h5') ->
         NC4_del_att NCIUSEHASH pol ext F ncid varid (Some name)
         = Ok (NC_ENOTVAR, set_h5 F h5')).
Proof.
  intros Hvar Hout. apply Z.eqb_neq in Hvar.
  pose proof (ncindexith_int_outside (grp_vars (nc_grp F)) varid Hout) as Hith.
  assert (Hlist : getattlist (nc_grp F) varid = Ok None).
  { unfold getattlist. rewrite Hvar, Hith. reflexivity. }
  repeat split.
  - intros. unfold nc4_get_att. rewrite Hvar, Hith. reflexivity.
  - intros. unfold NC4_put_att. rewrite Hlist. reflexivity.
  - intros name newname norm Hlen Hw Hcheck. unfold NC4_rename_att.
    apply Nat.ltb_ge in Hlen. rewrite Hlen, Hw, Hcheck. cbn [is_ok negb].
    rewrite Hlist. reflexivity.
  - intros name h5' Hw Hdef. unfold NC4_del_att. rewrite Hw, Hdef.
    cbn [is_ok negb set_h5 nc_grp]. rewrite Hlist. reflexivity.
Qed.

End UnknownVariable.

(** An integer attribute read in its own type with no memory left. *)
Lemma nc4_get_att_same_type_witness :
  nc4_get_att false sample_policy sample_ext range_file 65536 NC_GLOBAL
    (Some "valid_range") true NC_INT true None true 0
  = Ok (NC_NOERR,
        {| out_xtype := Some NC_INT; out_len := Some 2; out_attnum := None;
           out_data := Some (Raw [1; 10]%Z) |}).
Proof.
  apply (nc4_get_att_same_type false sample_policy sample_ext range_file
           65536 NC_GLOBAL "valid_range" "valid_range" GroupAtts
           (sample_index [sample_att "valid_range" 0 NC_INT [1; 10]%Z]) 0
           (sample_att "valid_range" 0 NC_INT [1; 10]%Z)
           true NC_INT true None 0 4 [1; 10]%Z); evaluated.
Defined.


(** The same get with budget for one copy, evaluated: "good" and the NULL
    string are in the caller's array, followed by the NULL of the failed
    copy of "bad". *)
Example nc4_get_att_strings_short :
  nc4_get_att false sample_policy sample_ext strings_file 65536 NC_GLOBAL
    (Some "flag_meanings") false NC_STRING false None true 1
  = Ok (NC_ENOMEM,
        {| out_xtype := None; out_len := None; out_attnum := None;
           out_data := Some (Strings [Some "good"; None; None]) |}).
Proof. vm_compute. reflexivity. Qed.

(** The file with one variable, asked for variable 5 and for variable -2. *)
Lemma unknown_variable_witness :
  NC4_put_att false sample_policy sample_ext var_file 65536 5
    (Some "units") NC_INT 1 (Some (Raw [1%Z])) NC_INT 1
  = Ok (NC_ENOTVAR, var_file)
  /\ NC4_del_att false sample_policy sample_ext var_file 65536 (-2)
       (Some "units")
     = Ok (NC_ENOTVAR, var_file).
Proof.
  split.
  - apply (unknown_variable false sample_policy sample_ext var_file 65536 5);
      evaluated.
  - apply (unknown_variable false sample_policy sample_ext var_file 65536
             (-2) ltac:(evaluated) ltac:(evaluated)); evaluated.
Defined.

(** The attribute list as [getattlist] returns it after it has been
    written through the pointer. *)
Lemma getattlist_set_attlist grp varid loc l l' :
  getattlist grp varid = Ok (Some (loc, l)) ->
  getattlist (set_attlist grp loc l') varid = Ok (Some (loc, l')).
Proof.
  unfold getattlist, ncindexith_int, ncindexith, nclistget.
  destruct (varid =? NC_GLOBAL)%Z eqn:Hg.
  - intros [= <- <-]. reflexivity.
  - destruct (varid <? 0)%Z eqn:Hneg; [discriminate|].
    destruct (idx_list (grp_vars grp) !! Z.to_nat varid) as [var|] eqn:Hv;
      [|discriminate].
    destruct (Z.of_nat (obj_id (var_hdr var)) =? varid)%Z eqn:Hid;
      [|discriminate].
    intros [= <- <-]. cbn [set_attlist grp_vars idx_list].
    rewrite list_lookup_alter_eq, Hv. cbn [fmap option_fmap option_map].
    cbn [set_var_att var_hdr var_att]. rewrite Hid. reflexivity.
Qed.

(** Writing at the end of a vector that has just been extended. *)
Lemma insert_last {X : Type} (l : list X) (x y : X) :
  <[length l := y]> (l ++ [x]) = l ++ [y].
Proof. induction l as [|a l IH]; simpl; [reflexivity|]. rewrite IH. reflexivity. Qed.

Section PutMore.

Variable NCIUSEHASH : bool.
Variable pol : hashmap_policy.
Variable ext : externals.

(** X11: the argument checks of [NC4_put_att] in their order: the length, the
    name, the data pointer, the write permission, the name check. A
    refused put changes nothing. The order shows in a read-only file: a
    put there with a missing name or without data reports the argument,
    not the permission. *)
Theorem NC4_put_att_argument_checks F ncid varid file_type len data
    mem_type mem loc attlist :
  getattlist (nc_grp F) varid = Ok (Some (loc, attlist)) ->
  let put name :=
    NC4_put_att NCIUSEHASH pol ext F ncid varid name file_type len data
      mem_type mem in
  ((X_INT_MAX < Z.of_nat len)%Z ->
   forall name, put name = Ok (NC_EINVAL, F))
  /\ ((Z.of_nat len <= X_INT_MAX)%Z ->
      put None = Ok (NC_EBADNAME, F)
      /\ forall nm,
          (NC_MAX_NAME < String.length nm ->
           put (Some nm) = Ok (NC_EBADNAME, F))
          /\ (String.length nm <= NC_MAX_NAME ->
              (len <> 0 -> data = None -> put (Some nm) = Ok (NC_EINVAL, F))
              /\ (len = 0 \/ data <> None ->
                  (no_write (nc_h5 F) = true ->
                   put (Some nm) = Ok (NC_EPERM, F))
                  /\ (no_write (nc_h5 F) = false ->
                      forall e norm,
                        nc4_check_name ext nm = (e, norm) -> e <> NC_NOERR ->
                        put (Some nm) = Ok (e, F))))).
Proof.
  intros Hlist put. unfold put, NC4_put_att. rewrite Hlist. split.
  - intros Hlen name. apply Z.ltb_lt in Hlen. rewrite Hlen. reflexivity.
  - intros Hlen. apply Z.ltb_ge in Hlen. rewrite Hlen.
    split; [reflexivity|]. intros nm. split.
    + intros Hname. apply Nat.ltb_lt in Hname. rewrite Hname. reflexivity.
    + intros Hname. apply Nat.ltb_ge in Hname. rewrite Hname. split.
      * intros Hl ->. apply Nat.eqb_neq in Hl. rewrite Hl. reflexivity.
      * intros Hdata.
        assert (Hd : negb (len =? 0) && bool_decide (data = None) = false).
        { destruct Hdata as [->|Hd]; [reflexivity|].
          rewrite bool_decide_eq_false_2 by exact Hd. apply andb_false_r. }
        rewrite Hd. split; intros ->; [reflexivity|].
        intros e norm -> He. destruct e; try reflexivity. contradiction.
Qed.

(** The put with arguments that pass the checks, up to the settling of
    define mode: a new attribute needs define mode, an existing one when
    its footprint grows. *)
Lemma NC4_put_att_settle flag F ncid varid name norm file_type len data
    mem_type mem loc attlist :
  getattlist (nc_grp F) varid = Ok (Some (loc, attlist)) ->
  (Z.of_nat len <= X_INT_MAX)%Z ->
  String.length name <= NC_MAX_NAME ->
  len = 0 \/ data <> None ->
  no_write (nc_h5 F) = false ->
  nc4_check_name ext name = (NC_NOERR, norm) ->
  (nc_ext_ncid F =? ncid)%Z && (varid =? NC_GLOBAL)%Z
    && bool_decide (grp_parent (nc_grp F) = None)
    && reserved_nameonly name = false ->
  NC4_put_att flag pol ext F ncid varid (Some name) file_type len data
    mem_type mem
  = let found := ncindexlookup flag pol attlist norm in
    let '(retval, h5) :=
      if match found with
         | None => negb (indef (nc_h5 F))
         | Some (_, att) =>
             negb (indef (nc_h5 F)) && grows ext att file_type len
         end
      then require_define ext (nc_h5 F) NC_EINDEFINE
      else (NC_NOERR, nc_h5 F) in
    let F := set_h5 F h5 in
    if negb (is_ok retval) then Ok (retval, F)
    else if (file_type =? NC_NAT)%Z || (mem_type =? NC_NAT)%Z
    then Ok (NC_EBADTYPE, F)
    else
      let '(retval, type_size) := nc4_get_typelen_mem ext h5 file_type in
      if negb (is_ok retval) then Ok (retval, F)
      else if negb (file_type =? mem_type)%Z
              && ((file_type =? NC_CHAR)%Z || (mem_type =? NC_CHAR)%Z
                  || (file_type =? NC_STRING)%Z || (mem_type =? NC_STRING)%Z)
      then Ok (NC_ECHAR, F)
      else if classic h5 && (NC_DOUBLE <? file_type)%Z then
        Ok (NC_ESTRICTNC3, F)
      else
        put_store flag pol ext F loc attlist found norm varid
          file_type len data mem_type type_size mem.
Proof.
  intros Hlist Hlen Hname Hdata Hwrite Hcheck Hres.
  unfold NC4_put_att. rewrite Hlist.
  apply Z.ltb_ge in Hlen. rewrite Hlen.
  apply Nat.ltb_ge in Hname. rewrite Hname.
  assert (Hd : negb (len =? 0) && bool_decide (data = None) = false).
  { destruct Hdata as [->|Hd]; [reflexivity|].
    rewrite bool_decide_eq_false_2 by exact Hd. apply andb_false_r. }
  rewrite Hd, Hwrite, Hcheck. cbn [is_ok negb]. rewrite Hres.
  reflexivity.
Qed.

(** X12: a classic-model file outside define mode: a put of a new attribute,
    or of an existing one whose footprint (length times type size, in
    [size_t]) grows, is refused with [NC_EINDEFINE] and changes nothing;
    the file is not put into define mode. *)
Theorem NC4_put_att_classic_data_mode F ncid varid name norm file_type len
    data mem_type mem loc attlist :
  getattlist (nc_grp F) varid = Ok (Some (loc, attlist)) ->
  (Z.of_nat len <= X_INT_MAX)%Z ->
  String.length name <= NC_MAX_NAME ->
  len = 0 \/ data <> None ->
  no_write (nc_h5 F) = false ->
  nc4_check_name ext name = (NC_NOERR, norm) ->
  (nc_ext_ncid F =? ncid)%Z && (varid =? NC_GLOBAL)%Z
    && bool_decide (grp_parent (nc_grp F) = None)
    && reserved_nameonly name = false ->
  indef (nc_h5 F) = false -> classic (nc_h5 F) = true ->
  (ncindexlookup NCIUSEHASH pol attlist norm = None
   \/ exists p att,
       ncindexlookup NCIUSEHASH pol attlist norm = Some (p, att)
       /\ grows ext att file_type len = true) ->
  NC4_put_att NCIUSEHASH pol ext F ncid varid (Some name) file_type len data
    mem_type mem
  = Ok (NC_EINDEFINE, F).
Proof.
  intros Hlist Hlen Hname Hdata Hwrite Hcheck Hres Hin Hcl Hfound.
  rewrite (NC4_put_att_settle NCIUSEHASH F ncid varid name norm file_type len
             data mem_type mem loc attlist) by assumption.
  cbv zeta. unfold require_define. rewrite Hin, Hcl.
  destruct Hfound as [->|(p & att & -> & ->)]; cbn [negb andb is_ok];
    rewrite set_h5_same; reflexivity.
Qed.

(** X13: the type checks of [NC4_put_att] come after define mode has been
    settled. A put refused for its types has stored nothing in the
    attribute list, but it leaves the file in the define mode it entered:
    the result carries the file info [h5'] that [NC4_redef] returned. The
    checks in their order: a missing type, a type unknown to the
    catalogue, a conversion between text and another type, a type beyond
    [NC_DOUBLE] in a classic-model file. *)
Theorem NC4_put_att_type_checks F ncid varid name norm file_type len data
    mem_type mem loc attlist h5' :
  getattlist (nc_grp F) varid = Ok (Some (loc, attlist)) ->
  (Z.of_nat len <= X_INT_MAX)%Z ->
  String.length name <= NC_MAX_NAME ->
  len = 0 \/ data <> None ->
  no_write (nc_h5 F) = false ->
  nc4_check_name ext name = (NC_NOERR, norm) ->
  (nc_ext_ncid F =? ncid)%Z && (varid =? NC_GLOBAL)%Z
    && bool_decide (grp_parent (nc_grp F) = None)
    && reserved_nameonly name = false ->
  (if match ncindexlookup NCIUSEHASH pol attlist norm with
      | None => negb (indef (nc_h5 F))
      | Some (_, att) =>
          negb (indef (nc_h5 F)) && grows ext att file_type len
      end
   then require_define ext (nc_h5 F) NC_EINDEFINE
   else (NC_NOERR, nc_h5 F)) = (NC_NOERR, h5') ->
  let put :=
    NC4_put_att NCIUSEHASH pol ext F ncid varid (Some name) file_type len
      data mem_type mem in
  (file_type = NC_NAT \/ mem_type = NC_NAT ->
   put = Ok (NC_EBADTYPE, set_h5 F h5'))
  /\ (file_type <> NC_NAT -> mem_type <> NC_NAT ->
      forall e type_size,
        nc4_get_typelen_mem ext h5' file_type = (e, type_size) ->
        (e <> NC_NOERR -> put = Ok (e, set_h5 F h5'))
        /\ (e = NC_NOERR ->
            (file_type <> mem_type ->
             file_type = NC_CHAR \/ mem_type = NC_CHAR
             \/ file_type = NC_STRING \/ mem_type = NC_STRING ->
             put = Ok (NC_ECHAR, set_h5 F h5'))
            /\ (file_type = mem_type
                \/ (file_type <> NC_CHAR /\ mem_type <> NC_CHAR
                    /\ file_type <> NC_STRING /\ mem_type <> NC_STRING) ->
                classic h5' = true -> (NC_DOUBLE < file_type)%Z ->
                put = Ok (NC_ESTRICTNC3, set_h5 F h5')))).
Proof.
  intros Hlist Hlen Hname Hdata Hwrite Hcheck Hres Hsettle put. unfold put.
  rewrite (NC4_put_att_settle NCIUSEHASH F ncid varid name norm file_type len
             data mem_type mem loc attlist) by assumption.
  cbv zeta. rewrite Hsettle. cbn [is_ok negb]. split.
  - intros [->| ->]; [reflexivity|]. rewrite orb_true_r. reflexivity.
  - intros Hf Hm e type_size Hsize.
    apply Z.eqb_neq in Hf, Hm. rewrite Hf, Hm, Hsize. cbn [orb]. split.
    + intros He. destruct e; try reflexivity. contradiction.
    + intros ->. cbn [is_ok negb]. split.
      * intros Hdiff Htext. apply Z.eqb_neq in Hdiff. rewrite Hdiff.
        cbn [negb andb].
        assert (Ht : (file_type =? NC_CHAR)%Z || (mem_type =? NC_CHAR)%Z
                     || (file_type =? NC_STRING)%Z
                     || (mem_type =? NC_STRING)%Z = true).
        { destruct Htext as [->|[->|[->| ->]]]; rewrite ?Z.eqb_refl,
            ?orb_true_r; reflexivity. }
        rewrite Ht. reflexivity.
      * intros Hcompat Hcl Hbig.
        assert (Hc : negb (file_type =? mem_type)%Z
                     && ((file_type =? NC_CHAR)%Z || (mem_type =? NC_CHAR)%Z
                         || (file_type =? NC_STRING)%Z
                         || (mem_type =? NC_STRING)%Z) = false).
        { destruct Hcompat as [->|(H1 & H2 & H3 & H4)].
          - rewrite Z.eqb_refl. reflexivity.
          - apply Z.eqb_neq in H1, H2, H3, H4. rewrite H1, H2, H3, H4.
            apply andb_false_r. }
        rewrite Hc, Hcl. apply Z.ltb_lt in Hbig. rewrite Hbig. reflexivity.
Qed.

End PutMore.

(** The linear search after an object has been replaced by one of the
    same name: every name finds what it found, the replaced object giving
    way to the new one. *)
Lemma lookup_linear_replace pol (idx : NCindex NC_ATT_INFO_T) (p : nat)
    (a a' : NC_ATT_INFO_T) (name : string) :
  idx_list idx !! p = Some a ->
  obj_name (att_hdr a') = obj_name (att_hdr a) ->
  ncindexlookup false pol (set_att idx p a') name =
  match ncindexlookup false pol idx name with
  | Some (q, b) => Some (q, if decide (q = p) then a' else b)
  | None => None
  end.
Proof.
  unfold ncindexlookup, set_att. cbn [idx_list].
  change (@hdr NC_ATT_INFO_T att_header) with att_hdr.
  generalize (idx_list idx) as l. intros l. revert p.
  induction l as [|x l IH]; intros p Hp Hn; [destruct p; discriminate|].
  destruct p as [|p]; simpl in *.
  - injection Hp as ->. rewrite Hn.
    destruct (decide (obj_name (att_hdr a) = name)); [reflexivity|].
    destruct (list_find _ l) as [[q b]|]; reflexivity.
  - destruct (decide (obj_name (att_hdr x) = name)); [reflexivity|].
    rewrite (IH p Hp Hn).
    destruct (list_find _ l) as [[q b]|]; [|reflexivity].
    simpl. destruct (decide (q = p)), (decide (S q = S p)); try reflexivity;
      lia.
Qed.

(** An allocation with budget left succeeds. *)
Lemma alloc_pos (m : nat) : 0 < m -> alloc m = Some (pred m).
Proof. destruct m; [lia|reflexivity]. Qed.

Section PutStored.

Variable pol : hashmap_policy.
Variable ext : externals.

Variables (F : nc_file) (ncid varid : Z) (name norm : string).
Variables (file_type : nc_type) (len : nat) (data : option payload).
Variables (mem_type : nc_type) (mem : nat).
Variables (loc : attloc) (attlist : NCindex NC_ATT_INFO_T).
Variables (h5' : NC_HDF5_FILE_INFO_T) (type_size : nat).
Variables (elems dest : list Z) (type_class : nc_type) (range_error : bool).
Variable strs : list (option string).

(** The arguments pass the checks. *)
Hypothesis Hlist : getattlist (nc_grp F) varid = Ok (Some (loc, attlist)).
Hypothesis Hlen : (Z.of_nat len <= X_INT_MAX)%Z.
Hypothesis Hname : String.length name <= NC_MAX_NAME.
Hypothesis Hwrite : no_write (nc_h5 F) = false.
Hypothesis Hcheck : nc4_check_name ext name = (NC_NOERR, norm).
Hypothesis Hres :
  (nc_ext_ncid F =? ncid)%Z && (varid =? NC_GLOBAL)%Z
    && bool_decide (grp_parent (nc_grp F) = None)
    && reserved_nameonly name = false.

(** Define mode is settled, with the file info [h5']. *)
Hypothesis Hsettle :
  (if match ncindexlookup false pol attlist norm with
      | None => negb (indef (nc_h5 F))
      | Some (_, att) =>
          negb (indef (nc_h5 F)) && grows ext att file_type len
      end
   then require_define ext (nc_h5 F) NC_EINDEFINE
   else (NC_NOERR, nc_h5 F)) = (NC_NOERR, h5').

(** The types pass the checks. *)
Hypothesis Hfile : file_type <> NC_NAT.
Hypothesis Hmemt : mem_type <> NC_NAT.
Hypothesis Hsize : nc4_get_typelen_mem ext h5' file_type = (NC_NOERR, type_size).
Hypothesis Hcompat :
  file_type = mem_type
  \/ (file_type <> NC_CHAR /\ mem_type <> NC_CHAR
      /\ file_type <> NC_STRING /\ mem_type <> NC_STRING).
Hypothesis Hclassic : classic h5' = false \/ (file_type <= NC_DOUBLE)%Z.

(** Not the fill value of a variable. *)
Hypothesis Hfill : norm <> _FillValue \/ varid = NC_GLOBAL.

Let put : result (nc_err * nc_file) :=
  NC4_put_att false pol ext F ncid varid (Some name) file_type len data
    mem_type mem.

(** The put up to the storing of the record. *)
Lemma NC4_put_att_reaches_store :
  len = 0 \/ data <> None ->
  put = put_store false pol ext (set_h5 F h5') loc attlist
          (ncindexlookup false pol attlist norm) norm varid file_type len
          data mem_type type_size mem.
Proof using Hlist Hlen Hname Hwrite Hcheck Hres Hsettle Hfile Hmemt Hsize
  Hcompat Hclassic.
  intros Hdata. unfold put.
  rewrite (NC4_put_att_settle pol ext false F ncid varid name norm file_type
             len data mem_type mem loc attlist); try assumption.
  cbv zeta. rewrite Hsettle. cbn [is_ok negb].
  apply Z.eqb_neq in Hfile, Hmemt. rewrite Hfile, Hmemt. cbn [orb].
  rewrite Hsize. cbn [is_ok negb].
  assert (Hc : negb (file_type =? mem_type)%Z
               && ((file_type =? NC_CHAR)%Z || (mem_type =? NC_CHAR)%Z
                   || (file_type =? NC_STRING)%Z
                   || (mem_type =? NC_STRING)%Z) = false).
  { destruct Hcompat as [Heq|(H1 & H2 & H3 & H4)].
    - apply Z.eqb_eq in Heq. rewrite Heq. reflexivity.
    - apply Z.eqb_neq in H1, H2, H3, H4. rewrite H1, H2, H3, H4.
      apply andb_false_r. }
  rewrite Hc.
  assert (Hk : classic h5' && (NC_DOUBLE <? file_type)%Z = false).
  { destruct Hclassic as [Hcl|Hle]; [rewrite Hcl; reflexivity|].
    apply Z.ltb_ge in Hle. rewrite Hle. apply andb_false_r. }
  rewrite Hk. reflexivity.
Qed.

(** The name is not that of the fill value of a variable. *)
Lemma put_store_not_fill :
  streq norm _FillValue && negb (varid =? NC_GLOBAL)%Z = false.
Proof using Hfill.
  destruct Hfill as [Hn|Hg].
  - rewrite (proj2 (streq_false _ _) Hn). reflexivity.
  - apply Z.eqb_eq in Hg. rewrite Hg. apply andb_false_r.
Qed.

Section Atomic.

(** Some elements of an atomic type, memory for the buffer, and a
    converter that accepts the types. *)
Hypothesis Hsome : len <> 0.
Hypothesis Hraw : data = Some (Raw elems).
Hypothesis Hclass : nc4_get_typeclass ext h5' file_type = (NC_NOERR, type_class).
Hypothesis Hatomic :
  type_class <> NC_VLEN /\ type_class <> NC_STRING /\ type_class <> NC_OPAQUE
  /\ type_class <> NC_COMPOUND /\ type_class <> NC_ENUM.
Hypothesis Hmem : 0 < mem.
Hypothesis Hconv :
  nc4_convert_type ext (Some elems) mem_type file_type len (classic h5')
  = (NC_NOERR, range_error, dest).

(** The record a put leaves under the header [h]. *)
Let stored (h : NC_OBJ) : NC_ATT_INFO_T :=
  {| att_hdr := h; att_nc_typeid := file_type; att_len := len;
     att_data := Some dest; att_stdata := None; att_vldata := None;
     att_dirty := true; att_created := false |}.

Let code : nc_err := if range_error then NC_ERANGE else NC_NOERR.

Lemma put_copy_atomic commit new_att att :
  att_len att = len ->
  put_copy ext h5' commit new_att att file_type len data mem_type type_size
    mem
  = Ok (code,
        commit (put_done (set_payload att (Some dest) (att_stdata att)
                            (att_vldata att)))).
Proof using Hsome Hraw Hclass Hatomic Hmem Hconv.
  intros Hl. unfold put_copy. rewrite Hl.
  apply Nat.eqb_neq in Hsome. rewrite Hsome. cbn [negb].
  rewrite Hclass. cbn [is_ok negb]. rewrite Hraw.
  destruct Hatomic as (H1 & H2 & H3 & H4 & H5).
  apply Z.eqb_neq in H1, H2, H3, H4, H5. rewrite H1, H2, H3, H4, H5.
  cbn [orb]. rewrite (alloc_pos mem Hmem), Hconv. reflexivity.
Qed.

(** The put of a name the list does not hold. *)
Lemma NC4_put_att_appends :
  norm ∉ att_names (idx_list attlist) ->
  put = Ok (code,
            set_grp (set_h5 F h5')
              (set_attlist (nc_grp F) loc
                 {| idx_list :=
                      idx_list attlist
                      ++ [stored {| obj_sort := NCATT; obj_name := norm;
                                    obj_id := ncindexsize attlist;
                                    obj_hashkey := NC_hashmapkey pol norm |}];
                    idx_map := idx_map attlist |})).
Proof using All.
  intros Hnew. apply lookup_linear_None with (pol := pol) in Hnew.
  rewrite NC4_put_att_reaches_store, Hnew
    by (right; rewrite Hraw; discriminate).
  unfold put_store, nc4_att_list_add. cbn [is_ok negb].
  cbn [put_metadata att_hdr obj_name].
  rewrite put_store_not_fill, put_copy_atomic by reflexivity.
  unfold set_att, ncindexadd, nclistpush, ncindexsize, nclistlength.
  cbn [snd idx_list idx_map]. rewrite insert_last. reflexivity.
Qed.

(** The put of a name the list holds. *)
Lemma NC4_put_att_overwrites p att :
  ncindexlookup false pol attlist norm = Some (p, att) ->
  put = Ok (code,
            set_grp (set_h5 F h5')
              (set_attlist (nc_grp F) loc
                 (set_att attlist p (stored (att_hdr att))))).
Proof using All.
  intros Hfound.
  rewrite NC4_put_att_reaches_store, Hfound
    by (right; rewrite Hraw; discriminate).
  unfold put_store. cbn [is_ok negb].
  cbn [put_metadata att_hdr].
  rewrite (lookup_linear_name pol _ _ _ _ Hfound).
  rewrite put_store_not_fill, put_copy_atomic by reflexivity. reflexivity.
Qed.

(** X14: a successful put of a new attribute (one whose name the list does not
    hold, the index built without hash table). The record is appended at
    the end of the list with the list's former size as its id, the file
    type, the length, the converted values, the dirty flag set; the
    returned code is [NC_ERANGE] when the converter reports a range error
    and the record is stored all the same. The name now finds the new
    record and every other name finds what it found. A list numbered by
    position stays so, and names stay distinct. *)
Theorem NC4_put_att_new :
  norm ∉ att_names (idx_list attlist) ->
  let new :=
    stored {| obj_sort := NCATT; obj_name := norm;
              obj_id := ncindexsize attlist;
              obj_hashkey := NC_hashmapkey pol norm |} in
  let attlist' :=
    {| idx_list := idx_list attlist ++ [new]; idx_map := idx_map attlist |} in
  put = Ok (code,
            set_grp (set_h5 F h5') (set_attlist (nc_grp F) loc attlist'))
  /\ ncindexlookup false pol attlist' norm = Some (ncindexsize attlist, new)
  /\ (forall nm, nm <> norm ->
      ncindexlookup false pol attlist' nm = ncindexlookup false pol attlist nm)
  /\ (ids_are_positions (idx_list attlist) ->
      ids_are_positions (idx_list attlist'))
  /\ (NoDup (att_names (idx_list attlist)) ->
      NoDup (att_names (idx_list attlist'))).
Proof using All.
  intros Hnew new attlist'.
  split; [exact (NC4_put_att_appends Hnew)|].
  pose proof (proj2 (lookup_linear_None pol attlist norm) Hnew) as Hnone.
  split; [|split; [|split]].
  - unfold attlist'. rewrite lookup_linear_push, Hnone.
    apply decide_True. reflexivity.
  - intros nm Hnm. unfold attlist'. rewrite lookup_linear_push.
    destruct (ncindexlookup false pol attlist nm); [reflexivity|].
    apply decide_False. intros Heq. apply Hnm. symmetry. exact Heq.
  - intros Hids i a. unfold attlist'. cbn [idx_list]. intros Hi.
    destruct (decide (i < length (idx_list attlist))) as [Hlt|Hge].
    + rewrite lookup_app_l in Hi by exact Hlt. exact (Hids i a Hi).
    + rewrite lookup_app_r in Hi by lia.
      destruct (i - length (idx_list attlist)) as [|k] eqn:Hk;
        [|destruct k; discriminate].
      injection Hi as <-. unfold new, stored, ncindexsize, nclistlength.
      cbn [att_hdr obj_id]. lia.
  - intros Hnd. unfold attlist', att_names. cbn [idx_list].
    rewrite fmap_app. apply NoDup_app. split; [exact Hnd|]. split.
    + intros x Hx Hin. apply list_elem_of_singleton in Hin.
      cbn [att_hdr obj_name new stored] in Hin. subst x. exact (Hnew Hx).
    + apply NoDup_singleton.
Qed.

(** X15: a successful put over an existing attribute (the index built without
    hash table). The record keeps its position and its header, so its
    name and id; it takes the new file type, length and converted values,
    its string and variable-length payloads are released, the dirty flag
    is set and [created] is cleared. The list keeps its size, its names
    and every other record; lookups by name find the same positions. *)
Theorem NC4_put_att_existing p att :
  ncindexlookup false pol attlist norm = Some (p, att) ->
  let att' := stored (att_hdr att) in
  let attlist' := set_att attlist p att' in
  put = Ok (code,
            set_grp (set_h5 F h5') (set_attlist (nc_grp F) loc attlist'))
  /\ ncindexsize attlist' = ncindexsize attlist
  /\ att_names (idx_list attlist') = att_names (idx_list attlist)
  /\ ncindexith attlist' p = Some att'
  /\ (forall q, q <> p -> ncindexith attlist' q = ncindexith attlist q)
  /\ ncindexlookup false pol attlist' norm = Some (p, att')
  /\ (forall nm, nm <> norm ->
      ncindexlookup false pol attlist' nm = ncindexlookup false pol attlist nm)
  /\ (ids_are_positions (idx_list attlist) ->
      ids_are_positions (idx_list attlist')).
Proof using All.
  intros Hfound att' attlist'.
  split; [exact (NC4_put_att_overwrites p att Hfound)|].
  pose proof (ncindexlookup_Some false pol attlist norm p att Hfound) as Hp.
  pose proof (lookup_linear_name pol attlist norm p att Hfound) as Hnm.
  assert (Hlt : p < length (idx_list attlist))
    by (eapply lookup_lt_Some; exact Hp).
  unfold attlist', ncindexsize, nclistlength, ncindexith, nclistget, set_att.
  cbn [idx_list].
  split; [apply length_insert|].
  split.
  { unfold att_names. rewrite list_fmap_insert. apply list_insert_id.
    rewrite list_lookup_fmap, Hp. reflexivity. }
  split; [apply list_lookup_insert_eq; exact Hlt|].
  split.
  { intros q Hq. apply list_lookup_insert_ne. intros Heq. apply Hq.
    symmetry. exact Heq. }
  split.
  { fold (set_att attlist p att').
    rewrite (lookup_linear_replace pol attlist p att att' norm Hp eq_refl).
    rewrite Hfound. rewrite decide_True by reflexivity. reflexivity. }
  split.
  { intros nm Hne. fold (set_att attlist p att').
    rewrite (lookup_linear_replace pol attlist p att att' nm Hp eq_refl).
    destruct (ncindexlookup false pol attlist nm) as [[q b]|] eqn:Hq;
      [|reflexivity].
    rewrite decide_False; [reflexivity|]. intros ->.
    pose proof (ncindexlookup_Some false pol attlist nm p b Hq) as Hb.
    pose proof (lookup_linear_name pol attlist nm p b Hq) as Hbn.
    rewrite Hp in Hb. injection Hb as <-. apply Hne. rewrite <- Hbn.
    exact Hnm. }
  intros Hids i a Hi.
  destruct (decide (i = p)) as [->|Hne].
  - rewrite list_lookup_insert_eq in Hi by exact Hlt. injection Hi as <-.
    exact (Hids p att Hp).
  - rewrite list_lookup_insert_ne in Hi by (intros Heq; apply Hne;
      symmetry; exact Heq).
    exact (Hids i a Hi).
Qed.

(** X16: put, then get. After a successful put, of a new or of an existing
    attribute, a get of the same name in the stored type (or with
    [NC_NAT]) returns the file type, the length and the values the
    converter produced at the put, with no memory needed: also when the
    put reported [NC_ERANGE]. *)
Theorem NC4_put_att_then_get :
  nc4_normalize_name ext name = (NC_NOERR, norm) ->
  (nc_ext_ncid F =? ncid)%Z && (varid =? NC_GLOBAL)%Z
    && reserved_nameonly norm = false ->
  exists F',
    put = Ok (code, F')
    /\ forall xtype lenp mem_type' mem',
        mem_type' = NC_NAT \/ mem_type' = file_type ->
        nc4_get_att false pol ext F' ncid varid (Some name) xtype mem_type'
          lenp None true mem'
        = Ok (NC_NOERR,
              {| out_xtype := if xtype then Some file_type else None;
                 out_len := if lenp then Some len else None;
                 out_attnum := None;
                 out_data := Some (Raw dest) |}).
Proof using All.
  intros Hnormal Hresget.
  assert (Hget : forall attlist' q h,
             ncindexlookup false pol attlist' norm = Some (q, stored h) ->
             forall xtype lenp mem_type' mem',
               mem_type' = NC_NAT \/ mem_type' = file_type ->
               nc4_get_att false pol ext
                 (set_grp (set_h5 F h5') (set_attlist (nc_grp F) loc attlist'))
                 ncid varid (Some name) xtype mem_type' lenp None true mem'
               = Ok (NC_NOERR,
                     {| out_xtype := if xtype then Some file_type else None;
                        out_len := if lenp then Some len else None;
                        out_attnum := None;
                        out_data := Some (Raw dest) |})).
  { intros attlist' q h Hq xtype lenp mem_type' mem' Hmt.
    rewrite (nc4_get_att_resolved false pol ext _ ncid varid name norm loc
               attlist' q (stored h));
      [|apply (getattlist_set_attlist _ _ _ attlist); exact Hlist
       |exact Hnormal|exact Hresget|exact Hq].
    rewrite (nc4_get_att_found_same_type ext h5' (stored h) xtype mem_type'
               lenp _ mem' type_size dest);
      try reflexivity; try assumption. }
  assert (Hcases :
            (exists p att,
                ncindexlookup false pol attlist norm = Some (p, att))
            \/ ncindexlookup false pol attlist norm = None).
  { clear. destruct (ncindexlookup false pol attlist norm) as [[p att]|];
      eauto. }
  destruct Hcases as [(p & att & Hfound)|Hfound].
  - eexists. split; [exact (NC4_put_att_overwrites p att Hfound)|].
    apply (Hget _ p (att_hdr att)).
    pose proof (ncindexlookup_Some false pol attlist norm p att Hfound) as Hp.
    rewrite (lookup_linear_replace pol attlist p att (stored (att_hdr att))
               norm Hp eq_refl).
    rewrite Hfound. rewrite decide_True by reflexivity. reflexivity.
  - pose proof (proj1 (lookup_linear_None pol attlist norm) Hfound) as Hnew.
    eexists. split; [exact (NC4_put_att_appends Hnew)|].
    eapply Hget. rewrite lookup_linear_push, Hfound.
    apply decide_True. reflexivity.
Qed.

End Atomic.

Section ZeroLength.

Hypothesis Hzero : len = 0.



End ZeroLength.

Section StringArray.

Hypothesis Hsome : len <> 0.
Hypothesis Hstrs : data = Some (Strings strs).
Hypothesis Hclass : nc4_get_typeclass ext h5' file_type = (NC_NOERR, NC_STRING).

(** The strings the put reads and the allocations it makes for them: one
    copy for every string that is not NULL. *)
Let wanted : list (option string) := take len strs.

Let needed : nat :=
  length (List.filter (fun s : option string => bool_decide (s <> None))
            wanted).

(** One more allocation, for the array. *)
Hypothesis Hbudget : needed < mem.

Let stored (h : NC_OBJ) : NC_ATT_INFO_T :=
  {| att_hdr := h; att_nc_typeid := file_type; att_len := len;
     att_data := None; att_stdata := Some wanted; att_vldata := None;
     att_dirty := true; att_created := false |}.

Lemma put_copy_strings (commit : NC_ATT_INFO_T -> nc_file) (new_att : bool)
    (att : NC_ATT_INFO_T) :
  att_len att = len -> att_vldata att = None ->
  (if new_att then att_data att else None) = None ->
  put_copy ext h5' commit new_att att file_type len data mem_type type_size
    mem
  = Ok (NC_NOERR,
        commit (put_done (set_payload att None (Some wanted) None))).
Proof using Hsome Hstrs Hclass Hbudget.
  intros Hl Hvl Hkept. unfold put_copy. rewrite Hl.
  apply Nat.eqb_neq in Hsome. rewrite Hsome. cbn [negb].
  rewrite Hclass. cbn [is_ok negb]. rewrite Hstrs.
  change (NC_STRING =? NC_VLEN)%Z with false.
  change (NC_STRING =? NC_STRING)%Z with true. cbn iota.
  assert (Hpos : 0 < mem) by (clear -Hbudget; lia).
  rewrite (alloc_pos mem Hpos), Hkept, Hvl.
  fold wanted.
  rewrite (copy_each_enough _ _ wanted (pred mem))
    by (clear -Hbudget; unfold needed in Hbudget; lia).
  reflexivity.
Qed.

(** X18: a successful put of a string array, and the get that follows (the
    index built without hash table). The record, appended for a new name
    or written in place for an existing one, holds copies of the first
    [len] strings and no plain data buffer: that of an existing attribute
    is released. The put needs one allocation for the array and one for
    every string that is not NULL. A get of the name in the stored type
    then returns the same strings, given budget for the copies. *)
Theorem NC4_put_att_strings :
  (norm ∉ att_names (idx_list attlist) ->
   put = Ok (NC_NOERR,
             set_grp (set_h5 F h5')
               (set_attlist (nc_grp F) loc
                  {| idx_list :=
                       idx_list attlist
                       ++ [stored {| obj_sort := NCATT; obj_name := norm;
                                     obj_id := ncindexsize attlist;
                                     obj_hashkey :=
                                       NC_hashmapkey pol norm |}];
                     idx_map := idx_map attlist |})))
  /\ (forall p att,
      ncindexlookup false pol attlist norm = Some (p, att) ->
      put = Ok (NC_NOERR,
                set_grp (set_h5 F h5')
                  (set_attlist (nc_grp F) loc
                     (set_att attlist p (stored (att_hdr att))))))
  /\ (nc4_normalize_name ext name = (NC_NOERR, norm) ->
      (nc_ext_ncid F =? ncid)%Z && (varid =? NC_GLOBAL)%Z
        && reserved_nameonly norm = false ->
      exists F',
        put = Ok (NC_NOERR, F')
        /\ forall xtype lenp mem_type' mem',
            mem_type' = NC_NAT \/ mem_type' = file_type ->
            needed <= mem' ->
            nc4_get_att false pol ext F' ncid varid (Some name) xtype
              mem_type' lenp None true mem'
            = Ok (NC_NOERR,
                  {| out_xtype := if xtype then Some file_type else None;
                     out_len := if lenp then Some len else None;
                     out_attnum := None;
                     out_data := Some (Strings wanted) |})).
Proof using Hlist Hlen Hname Hwrite Hcheck Hres Hsettle Hfile Hmemt Hsize
  Hcompat Hclassic Hfill Hsome Hstrs Hclass Hbudget.
  assert (Hdata : len = 0 \/ data <> None)
    by (right; rewrite Hstrs; discriminate).
  assert (Hnew : norm ∉ att_names (idx_list attlist) ->
            put = Ok (NC_NOERR,
                      set_grp (set_h5 F h5')
                        (set_attlist (nc_grp F) loc
                           {| idx_list :=
                                idx_list attlist
                                ++ [stored
                                      {| obj_sort := NCATT; obj_name := norm;
                                         obj_id := ncindexsize attlist;
                                         obj_hashkey :=
                                           NC_hashmapkey pol norm |}];
                              idx_map := idx_map attlist |}))).
  { intros Hnew. apply lookup_linear_None with (pol := pol) in Hnew.
    rewrite (NC4_put_att_reaches_store Hdata), Hnew.
    unfold put_store, nc4_att_list_add. cbn [is_ok negb].
    cbn [put_metadata att_hdr obj_name].
    rewrite put_store_not_fill, put_copy_strings by reflexivity.
    unfold set_att, ncindexadd, nclistpush, ncindexsize, nclistlength.
    cbn [snd idx_list idx_map]. rewrite insert_last. reflexivity. }
  assert (Hold : forall p att,
            ncindexlookup false pol attlist norm = Some (p, att) ->
            put = Ok (NC_NOERR,
                      set_grp (set_h5 F h5')
                        (set_attlist (nc_grp F) loc
                           (set_att attlist p (stored (att_hdr att)))))).
  { intros p att Hfound.
    rewrite (NC4_put_att_reaches_store Hdata), Hfound.
    unfold put_store. cbn [is_ok negb]. cbn [put_metadata att_hdr].
    rewrite (lookup_linear_name pol _ _ _ _ Hfound).
    rewrite put_store_not_fill, put_copy_strings by reflexivity.
    reflexivity. }
  split; [exact Hnew|]. split; [exact Hold|].
  intros Hnormal Hresget.
  assert (Hget : forall attlist' q h,
             ncindexlookup false pol attlist' norm = Some (q, stored h) ->
             forall xtype lenp mem_type' mem',
               mem_type' = NC_NAT \/ mem_type' = file_type ->
               needed <= mem' ->
               nc4_get_att false pol ext
                 (set_grp (set_h5 F h5') (set_attlist (nc_grp F) loc attlist'))
                 ncid varid (Some name) xtype mem_type' lenp None true mem'
               = Ok (NC_NOERR,
                     {| out_xtype := if xtype then Some file_type else None;
                        out_len := if lenp then Some len else None;
                        out_attnum := None;
                        out_data := Some (Strings wanted) |})).
  { intros attlist' q h Hq xtype lenp mem_type' mem' Hmt Hmem'.
    rewrite (nc4_get_att_resolved false pol ext _ ncid varid name norm loc
               attlist' q (stored h));
      [|apply (getattlist_set_attlist _ _ _ attlist); exact Hlist
       |exact Hnormal|exact Hresget|exact Hq].
    rewrite (nc4_get_att_found_strings ext h5' (stored h) xtype
               mem_type' lenp _ mem' type_size wanted);
      try reflexivity; try assumption.
    cbn [stored att_len].
    assert (Hw : take len wanted = wanted)
      by (unfold wanted; apply take_idemp).
    rewrite Hw, (copy_each_enough _ _ wanted mem' Hmem'). reflexivity. }
  assert (Hcases :
            (exists p att,
                ncindexlookup false pol attlist norm = Some (p, att))
            \/ ncindexlookup false pol attlist norm = None).
  { clear. destruct (ncindexlookup false pol attlist norm) as [[p att]|];
      eauto. }
  destruct Hcases as [(p & att & Hfound)|Hfound].
  - eexists. split; [exact (Hold p att Hfound)|].
    apply (Hget _ p (att_hdr att)).
    pose proof (ncindexlookup_Some false pol attlist norm p att Hfound) as Hp.
    rewrite (lookup_linear_replace pol attlist p att (stored (att_hdr att))
               norm Hp eq_refl).
    rewrite Hfound. rewrite decide_True by reflexivity. reflexivity.
  - pose proof (proj1 (lookup_linear_None pol attlist norm) Hfound) as Hnew'.
    eexists. split; [exact (Hnew Hnew')|].
    eapply Hget. rewrite lookup_linear_push, Hfound.
    apply decide_True. reflexivity.
Qed.

End StringArray.

End PutStored.


(** A read-only file: a put without a name reports the name. *)
Lemma NC4_put_att_argument_checks_witness :
  NC4_put_att false sample_policy sample_ext read_only_file 65536 NC_GLOBAL
    None NC_INT 1 None NC_INT 1
  = Ok (NC_EBADNAME, read_only_file).
Proof.
  apply (NC4_put_att_argument_checks false sample_policy sample_ext
           read_only_file 65536 NC_GLOBAL NC_INT 1 None NC_INT 1
           GroupAtts (grp_att (nc_grp read_only_file))); evaluated.
Defined.

(** A classic-model file in data mode, asked for a fifth attribute. *)
Lemma NC4_put_att_classic_data_mode_witness :
  NC4_put_att false sample_policy sample_ext
    (four_atts_file 0 NC_CLASSIC_MODEL) 65536 NC_GLOBAL (Some "a4") NC_INT 1
    (Some (Raw [14%Z])) NC_INT 1
  = Ok (NC_EINDEFINE, four_atts_file 0 NC_CLASSIC_MODEL).
Proof.
  apply (NC4_put_att_classic_data_mode false sample_policy sample_ext
           (four_atts_file 0 NC_CLASSIC_MODEL) 65536 NC_GLOBAL "a4" "a4"
           NC_INT 1 (Some (Raw [14%Z])) NC_INT 1 GroupAtts
           (sample_index four_atts)); [evaluated ..|left; reflexivity].
Defined.

(** A file in data mode, not classic: a put of text as integers is refused
    and leaves the file in define mode. *)
Lemma NC4_put_att_type_checks_witness :
  NC4_put_att false sample_policy sample_ext (four_atts_file 0 0) 65536
    NC_GLOBAL (Some "a4") NC_INT 1 (Some (Raw [14%Z])) NC_CHAR 1
  = Ok (NC_ECHAR, four_atts_file NC_INDEF 0).
Proof.
  apply (NC4_put_att_type_checks false sample_policy sample_ext
           (four_atts_file 0 0) 65536 NC_GLOBAL "a4" "a4" NC_INT 1
           (Some (Raw [14%Z])) NC_CHAR 1 GroupAtts (sample_index four_atts)
           (nc_h5 (four_atts_file NC_INDEF 0))
           ltac:(evaluated) ltac:(evaluated) ltac:(evaluated)
           ltac:(evaluated) ltac:(evaluated) ltac:(evaluated)
           ltac:(evaluated) ltac:(evaluated)) with (e := NC_NOERR)
         (type_size := 4); evaluated.
Defined.

(** A second attribute put into the file that holds "valid_range". *)
Lemma NC4_put_att_new_witness :
  NC4_put_att false sample_policy sample_ext range_file 65536 NC_GLOBAL
    (Some "history") NC_INT 1 (Some (Raw [7%Z])) NC_INT 1
  = Ok (NC_NOERR,
        sample_file NC_INDEF 0 1
          [sample_att "valid_range" 0 NC_INT [1; 10]%Z;
           plain_att "history" 1 NC_INT 1 (Some [7%Z]) true]).
Proof.
  destruct (NC4_put_att_new sample_policy sample_ext range_file 65536
              NC_GLOBAL "history" "history" NC_INT 1 (Some (Raw [7%Z]))
              NC_INT 1 GroupAtts (grp_att (nc_grp range_file))
              (nc_h5 range_file) 4 [7%Z] [7%Z] NC_INT false)
    as [Hput _]; [evaluated ..|exact Hput].
Defined.

(** "valid_range" overwritten with three values. *)
Lemma NC4_put_att_existing_witness :
  NC4_put_att false sample_policy sample_ext range_file 65536 NC_GLOBAL
    (Some "valid_range") NC_INT 3 (Some (Raw [1; 5; 10]%Z)) NC_INT 1
  = Ok (NC_NOERR,
        sample_file NC_INDEF 0 1
          [plain_att "valid_range" 0 NC_INT 3 (Some [1; 5; 10]%Z) true]).
Proof.
  destruct (NC4_put_att_existing sample_policy sample_ext range_file 65536
              NC_GLOBAL "valid_range" "valid_range" NC_INT 3
              (Some (Raw [1; 5; 10]%Z)) NC_INT 1 GroupAtts
              (grp_att (nc_grp range_file)) (nc_h5 range_file) 4
              [1; 5; 10]%Z [1; 5; 10]%Z NC_INT false)
    with (p := 0) (att := sample_att "valid_range" 0 NC_INT [1; 10]%Z)
    as [Hput _]; [evaluated ..|exact Hput].
Defined.

(** The integer 70000 put as a short: the put reports [NC_ERANGE], and the
    get returns the value the converter stored. *)
Lemma NC4_put_att_then_get_witness :
  exists F',
    NC4_put_att false sample_policy sample_ext range_file 65536 NC_GLOBAL
      (Some "history") NC_SHORT 1 (Some (Raw [70000%Z])) NC_INT 1
    = Ok (NC_ERANGE, F')
    /\ nc4_get_att false sample_policy sample_ext F' 65536 NC_GLOBAL
         (Some "history") true NC_NAT true None true 0
       = Ok (NC_NOERR,
             {| out_xtype := Some NC_SHORT; out_len := Some 1;
                out_attnum := None; out_data := Some (Raw [4464%Z]) |}).
Proof.
  destruct (NC4_put_att_then_get sample_policy sample_ext range_file 65536
              NC_GLOBAL "history" "history" NC_SHORT 1
              (Some (Raw [70000%Z])) NC_INT 1 GroupAtts
              (grp_att (nc_grp range_file)) (nc_h5 range_file) 2
              [70000%Z] [4464%Z] NC_INT true)
    as (F' & Hput & Hget); [evaluated ..|].
  exists F'. split; [exact Hput|]. apply Hget. left. reflexivity.
Defined.


(** Two strings, the second NULL, put with memory for the array and one
    copy, and read back with memory for one copy. *)
Lemma NC4_put_att_strings_witness :
  exists F',
    NC4_put_att false sample_policy sample_ext range_file 65536 NC_GLOBAL
      (Some "flags") NC_STRING 2 (Some (Strings [Some "a"; None])) NC_STRING 2
    = Ok (NC_NOERR, F')
    /\ nc4_get_att false sample_policy sample_ext F' 65536 NC_GLOBAL
         (Some "flags") true NC_NAT true None true 1
       = Ok (NC_NOERR,
             {| out_xtype := Some NC_STRING; out_len := Some 2;
                out_attnum := None;
                out_data := Some (Strings [Some "a"; None]) |}).
Proof.
  destruct (NC4_put_att_strings sample_policy sample_ext range_file 65536
              NC_GLOBAL "flags" "flags" NC_STRING 2
              (Some (Strings [Some "a"; None])) NC_STRING 2 GroupAtts
              (grp_att (nc_grp range_file)) (nc_h5 range_file) 8
              [Some "a"; None])
    as (_ & _ & Hround); [evaluated ..|].
  destruct Hround as (F' & Hput & Hget); [evaluated ..|].
  exists F'. split; [exact Hput|].
  apply Hget; [left; reflexivity|vm_compute; lia].
Defined.

(** Renumbering keeps the names. *)
Lemma att_names_renumber (k : nat) (l : list NC_ATT_INFO_T) :
  att_names (renumber k <$> l) = att_names l.
Proof.
  unfold att_names. rewrite <- list_fmap_compose. apply list_fmap_ext.
  intros i a _. unfold compose, renumber.
  destruct (k <? obj_id (att_hdr a)); reflexivity.
Qed.

(** In a list without duplicates, the element deleted is gone. *)
Lemma NoDup_delete_absent {X : Type} (l : list X) (i : nat) (x : X) :
  NoDup l -> l !! i = Some x -> x ∉ delete i l.
Proof.
  intros Hnd Hi Hin. apply list_elem_of_lookup in Hin as (j & Hj).
  destruct (decide (j < i)) as [Hlt|Hge].
  - rewrite list_lookup_delete_lt in Hj by exact Hlt.
    pose proof (NoDup_lookup l j i x Hnd Hj Hi). lia.
  - rewrite list_lookup_delete_ge in Hj by lia.
    pose proof (NoDup_lookup l (S j) i x Hnd Hj Hi). lia.
Qed.

Section DeleteMore.

Variable NCIUSEHASH : bool.
Variable pol : hashmap_policy.
Variable ext : externals.

(** X19: the refusals of [NC4_del_att] in their order: a NULL name, a
    read-only file, a classic-model file outside define mode, a failed
    [NC4_redef], a name the list does not hold. The first three leave the
    file as it was. The name is looked up after define mode has been
    settled and as it was given, without normalisation: deleting an absent
    attribute from a file in data mode leaves the file in define mode. *)
Theorem NC4_del_att_refusals F ncid varid :
  NC4_del_att NCIUSEHASH pol ext F ncid varid None = Ok (NC_EINVAL, F)
  /\ (forall name, no_write (nc_h5 F) = true ->
      NC4_del_att NCIUSEHASH pol ext F ncid varid (Some name)
      = Ok (NC_EPERM, F))
  /\ (forall name, no_write (nc_h5 F) = false ->
      indef (nc_h5 F) = false -> classic (nc_h5 F) = true ->
      NC4_del_att NCIUSEHASH pol ext F ncid varid (Some name)
      = Ok (NC_ENOTINDEFINE, F))
  /\ (forall name e h5', no_write (nc_h5 F) = false ->
      indef (nc_h5 F) = false -> classic (nc_h5 F) = false ->
      NC4_redef ext (nc_h5 F) = (e, h5') -> e <> NC_NOERR ->
      NC4_del_att NCIUSEHASH pol ext F ncid varid (Some name)
      = Ok (e, set_h5 F h5'))
  /\ (forall name loc attlist h5', no_write (nc_h5 F) = false ->
      (if negb (indef (nc_h5 F))
       then require_define ext (nc_h5 F) NC_ENOTINDEFINE
       else (NC_NOERR, nc_h5 F)) = (NC_NOERR, h5') ->
      getattlist (nc_grp F) varid = Ok (Some (loc, attlist)) ->
      ncindexlookup NCIUSEHASH pol attlist name = None ->
      NC4_del_att NCIUSEHASH pol ext F ncid varid (Some name)
      = Ok (NC_ENOTATT, set_h5 F h5')).
Proof.
  split; [reflexivity|]. split; [|split; [|split]].
  - intros name Hw. unfold NC4_del_att. rewrite Hw. reflexivity.
  - intros name Hw Hin Hcl. unfold NC4_del_att, require_define.
    rewrite Hw, Hin, Hcl. cbn [negb is_ok]. rewrite set_h5_same.
    reflexivity.
  - intros name e h5' Hw Hin Hcl Hredef He.
    unfold NC4_del_att, require_define.
    rewrite Hw, Hin, Hcl, Hredef. cbn [negb].
    destruct e; try reflexivity. contradiction.
  - intros name loc attlist h5' Hw Hdef Hlist Hlook.
    unfold NC4_del_att. rewrite Hw, Hdef. cbn [is_ok negb set_h5 nc_grp].
    rewrite Hlist, Hlook. reflexivity.
Qed.

(** X20: delete, then look up (the index built without hash table, a list
    numbered by position with distinct names). After the delete the name
    finds nothing; every other attribute is found under its name, those
    before the deleted one where they were, those after it one position
    lower and with their id lowered to match. Names stay distinct. *)
Theorem NC4_del_att_then_lookup F ncid varid name loc attlist p att h5' :
  no_write (nc_h5 F) = false ->
  (if negb (indef (nc_h5 F)) then require_define ext (nc_h5 F) NC_ENOTINDEFINE
   else (NC_NOERR, nc_h5 F)) = (NC_NOERR, h5') ->
  getattlist (nc_grp F) varid = Ok (Some (loc, attlist)) ->
  ncindexlookup false pol attlist name = Some (p, att) ->
  att_created att = false ->
  ids_are_positions (idx_list attlist) ->
  NoDup (att_names (idx_list attlist)) ->
  exists attlist',
    NC4_del_att false pol ext F ncid varid (Some name)
    = Ok (NC_NOERR,
          set_grp (set_h5 F h5') (set_attlist (nc_grp F) loc attlist'))
    /\ ncindexlookup false pol attlist' name = None
    /\ (forall j b, idx_list attlist !! j = Some b -> j < p ->
        ncindexlookup false pol attlist' (obj_name (att_hdr b))
        = Some (j, b))
    /\ (forall j b, idx_list attlist !! j = Some b -> p < j ->
        ncindexlookup false pol attlist' (obj_name (att_hdr b))
        = Some (j - 1, with_id b (j - 1)))
    /\ NoDup (att_names (idx_list attlist')).
Proof.
  intros Hw Hdef Hlist Hlook Hcr Hids Hnd.
  pose proof (ncindexlookup_Some false pol attlist name p att Hlook) as Hp.
  pose proof (lookup_linear_name pol attlist name p att Hlook) as Hname.
  pose proof (Hids p att Hp) as Hid.
  destruct (NC4_del_att_removes false pol ext F ncid varid name loc attlist
              p att h5' Hw Hdef Hlist Hlook Hcr)
    as (attlist' & Hdel & Hl' & _).
  rewrite Hid in Hl'.
  assert (Hnames : att_names (idx_list attlist')
                   = delete p (att_names (idx_list attlist))).
  { rewrite Hl', att_names_renumber. unfold att_names.
    apply list_fmap_delete. }
  assert (Hnd' : NoDup (att_names (idx_list attlist'))).
  { rewrite Hnames. eapply sublist_NoDup; [exact Hnd|].
    apply sublist_delete. }
  exists attlist'. split; [exact Hdel|]. split; [|split; [|split]].
  - apply lookup_linear_None. rewrite Hnames.
    apply NoDup_delete_absent; [exact Hnd|].
    unfold att_names. rewrite list_lookup_fmap, Hp. cbn. rewrite Hname.
    reflexivity.
  - intros j b Hj Hlt. apply lookup_linear_at; [exact Hnd'|].
    rewrite Hl', (renumber_delete_lookup _ p j Hids).
    apply Nat.ltb_lt in Hlt. rewrite Hlt. exact Hj.
  - intros j b Hj Hgt.
    change (obj_name (att_hdr b))
      with (obj_name (att_hdr (with_id b (j - 1)))).
    apply lookup_linear_at; [exact Hnd'|].
    rewrite Hl', (renumber_delete_lookup _ p (j - 1) Hids).
    assert (Hge : (j - 1 <? p) = false) by (apply Nat.ltb_ge; lia).
    rewrite Hge. replace (S (j - 1)) with j by lia. rewrite Hj. reflexivity.
  - exact Hnd'.
Qed.

End DeleteMore.

(** "a1" deleted from the four attributes: "a0" stays, "a3" moves from
    position 3 to position 2. *)
Lemma NC4_del_att_then_lookup_witness :
  exists attlist',
    NC4_del_att false sample_policy sample_ext (four_atts_file NC_INDEF 0)
      65536 NC_GLOBAL (Some "a1")
    = Ok (NC_NOERR,
          set_grp (four_atts_file NC_INDEF 0)
            (set_attlist (nc_grp (four_atts_file NC_INDEF 0)) GroupAtts
               attlist'))
    /\ ncindexlookup false sample_policy attlist' "a1" = None
    /\ ncindexlookup false sample_policy attlist' "a3"
       = Some (2, sample_att "a3" 2 NC_INT [13%Z]).
Proof.
  destruct (NC4_del_att_then_lookup sample_policy sample_ext
              (four_atts_file NC_INDEF 0) 65536 NC_GLOBAL "a1" GroupAtts
              (sample_index four_atts) 1 (sample_att "a1" 1 NC_INT [11%Z])
              (nc_h5 (four_atts_file NC_INDEF 0)))
    as (attlist' & Hdel & Hgone & _ & Hafter & _).
  - evaluated.
  - evaluated.
  - evaluated.
  - evaluated.
  - evaluated.
  - intros i a Hi.
    destruct i as [|[|[|[|i]]]]; try discriminate; injection Hi as <-;
      reflexivity.
  - evaluated.
  - exists attlist'. split; [exact Hdel|]. split; [exact Hgone|].
    apply (Hafter 3 (sample_att "a3" 3 NC_INT [13%Z])); evaluated.
Defined.

(** Writing a fresh element into a list without duplicates. *)
Lemma NoDup_insert_fresh {X : Type} (l : list X) (i : nat) (x : X) :
  NoDup l -> x ∉ l -> NoDup (<[i:=x]> l).
Proof.
  intros Hnd Hx. apply NoDup_alt. intros j k y Hj Hk.
  destruct (decide (j = i)) as [->|Hji], (decide (k = i)) as [->|Hki];
    try reflexivity.
  - apply list_lookup_insert_Some in Hj as [(_ & <- & _)|(Hne & _)];
      [|contradiction].
    rewrite list_lookup_insert_ne in Hk by (intros Heq; apply Hki;
      symmetry; exact Heq).
    exfalso. apply Hx. eapply list_elem_of_lookup_2. exact Hk.
  - apply list_lookup_insert_Some in Hk as [(_ & <- & _)|(Hne & _)];
      [|contradiction].
    rewrite list_lookup_insert_ne in Hj by (intros Heq; apply Hji;
      symmetry; exact Heq).
    exfalso. apply Hx. eapply list_elem_of_lookup_2. exact Hj.
  - rewrite list_lookup_insert_ne in Hj by (intros Heq; apply Hji;
      symmetry; exact Heq).
    rewrite list_lookup_insert_ne in Hk by (intros Heq; apply Hki;
      symmetry; exact Heq).
    exact (proj1 (NoDup_alt l) Hnd j k y Hj Hk).
Qed.

Section RenameMore.

Variable pol : hashmap_policy.
Variable ext : externals.

(** The linear search for the name of a record written over another one,
    when no record had the name. *)
Lemma lookup_linear_written (idx : NCindex NC_ATT_INFO_T) p a' :
  obj_name (att_hdr a') ∉ att_names (idx_list idx) ->
  p < length (idx_list idx) ->
  ncindexlookup false pol (set_att idx p a') (obj_name (att_hdr a'))
  = Some (p, a').
Proof.
  intros Hnew Hlt. unfold ncindexlookup. apply list_find_Some.
  cbn [set_att idx_list].
  split; [apply list_lookup_insert_eq; exact Hlt|].
  split; [reflexivity|].
  intros j y Hj Hjp Hy. rewrite list_lookup_insert_ne in Hj by lia.
  apply Hnew.
  change (@hdr NC_ATT_INFO_T att_header) with att_hdr in Hy.
  rewrite <- Hy. eapply att_names_lookup. exact Hj.
Qed.

(** The linear search for the name of the record written over, when names
    are distinct and the new record has another name. *)
Lemma lookup_linear_overwritten (idx : NCindex NC_ATT_INFO_T) p a a' :
  NoDup (att_names (idx_list idx)) ->
  idx_list idx !! p = Some a ->
  obj_name (att_hdr a') <> obj_name (att_hdr a) ->
  ncindexlookup false pol (set_att idx p a') (obj_name (att_hdr a)) = None.
Proof.
  intros Hnd Hp Hne. apply lookup_linear_None. cbn [set_att idx_list].
  assert (Hlt : p < length (idx_list idx))
    by (eapply lookup_lt_Some; exact Hp).
  unfold att_names. rewrite list_fmap_insert. intros Hin.
  apply list_elem_of_lookup in Hin as (j & Hj).
  destruct (decide (j = p)) as [->|Hjp].
  - rewrite list_lookup_insert_eq in Hj
      by (rewrite length_fmap; exact Hlt).
    injection Hj as Hj. exact (Hne Hj).
  - rewrite list_lookup_insert_ne in Hj
      by (intros Heq; apply Hjp; symmetry; exact Heq).
    apply Hjp. eapply (NoDup_lookup _ j p _ Hnd); [exact Hj|].
    unfold att_names. rewrite list_lookup_fmap, Hp. reflexivity.
Qed.

(** X21: the refusals of [NC4_rename_att] in their order: a NULL name, a new
    name that is too long, a read-only file, a new name that fails the name
    check, a new name in use, an old name that fails normalisation, and a
    failure to delete the attribute from the HDF5 file. Each leaves the
    file as it was. The length of the new name is tested before the file
    is looked at, and the old name is normalised only after the new name
    has been found free. *)
Theorem NC4_rename_att_refusals flag F ncid varid :
  let rename := NC4_rename_att flag pol ext F ncid varid in
  (forall newname, rename None newname = Ok (NC_EINVAL, F))
  /\ (forall name, rename name None = Ok (NC_EINVAL, F))
  /\ (forall name newname, NC_MAX_NAME < String.length newname ->
      rename (Some name) (Some newname) = Ok (NC_EMAXNAME, F))
  /\ (forall name newname, String.length newname <= NC_MAX_NAME ->
      no_write (nc_h5 F) = true ->
      rename (Some name) (Some newname) = Ok (NC_EPERM, F))
  /\ (forall name newname e nn, String.length newname <= NC_MAX_NAME ->
      no_write (nc_h5 F) = false ->
      nc4_check_name ext newname = (e, nn) -> e <> NC_NOERR ->
      rename (Some name) (Some newname) = Ok (e, F))
  /\ (forall name newname nn loc attlist,
      String.length newname <= NC_MAX_NAME ->
      no_write (nc_h5 F) = false ->
      nc4_check_name ext newname = (NC_NOERR, nn) ->
      getattlist (nc_grp F) varid = Ok (Some (loc, attlist)) ->
      (forall found, ncindexlookup flag pol attlist nn = Some found ->
       rename (Some name) (Some newname) = Ok (NC_ENAMEINUSE, F))
      /\ (ncindexlookup flag pol attlist nn = None ->
          forall e on, nc4_normalize_name ext name = (e, on) ->
          (e <> NC_NOERR -> rename (Some name) (Some newname) = Ok (e, F))
          /\ (e = NC_NOERR ->
              forall p att e',
                ncindexlookup flag pol attlist on = Some (p, att) ->
                indef (nc_h5 F) = true \/ classic (nc_h5 F) = false
                \/ String.length nn <= String.length (obj_name (att_hdr att)) ->
                rename_delete_original ext (nc_grp F) varid att = inl e' ->
                rename (Some name) (Some newname) = Ok (e', F)))).
Proof.
  intros rename. unfold rename, NC4_rename_att.
  split; [intros [?|]; reflexivity|].
  split; [intros [?|]; reflexivity|].
  split.
  { intros name newname Hlen. apply Nat.ltb_lt in Hlen. rewrite Hlen.
    reflexivity. }
  split.
  { intros name newname Hlen Hw. apply Nat.ltb_ge in Hlen.
    rewrite Hlen, Hw. reflexivity. }
  split.
  { intros name newname e nn Hlen Hw Hcheck He. apply Nat.ltb_ge in Hlen.
    rewrite Hlen, Hw, Hcheck. destruct e; try reflexivity. contradiction. }
  intros name newname nn loc attlist Hlen Hw Hcheck Hlist.
  apply Nat.ltb_ge in Hlen. rewrite Hlen, Hw, Hcheck. cbn [is_ok negb].
  rewrite Hlist. split.
  - intros found ->. reflexivity.
  - intros -> e on ->. split.
    + intros He. destruct e; try reflexivity. contradiction.
    + intros -> p att e' -> Hcase ->. cbn [is_ok negb].
      assert (Hcond : negb (indef (nc_h5 F))
                      && (String.length (obj_name (att_hdr att))
                          <? String.length nn)%nat
                      && classic (nc_h5 F) = false).
      { destruct Hcase as [->| [->|Hle]].
        - reflexivity.
        - apply andb_false_r.
        - apply Nat.ltb_ge in Hle. rewrite Hle. rewrite andb_false_r.
          reflexivity. }
      rewrite Hcond. reflexivity.
Qed.

(** A rename that passes the checks, in the index built without hash
    table. *)
Lemma NC4_rename_att_stores F ncid varid name newname nn on loc attlist p
    att created :
  String.length newname <= NC_MAX_NAME ->
  no_write (nc_h5 F) = false ->
  nc4_check_name ext newname = (NC_NOERR, nn) ->
  nc4_normalize_name ext name = (NC_NOERR, on) ->
  getattlist (nc_grp F) varid = Ok (Some (loc, attlist)) ->
  ncindexlookup false pol attlist nn = None ->
  ncindexlookup false pol attlist on = Some (p, att) ->
  indef (nc_h5 F) = true \/ classic (nc_h5 F) = false
  \/ String.length nn <= String.length on ->
  rename_delete_original ext (nc_grp F) varid att = inr created ->
  NC4_rename_att false pol ext F ncid varid (Some name) (Some newname)
  = Ok (NC_NOERR,
        set_grp F
          (set_attlist (nc_grp F) loc
             (set_att attlist p (renamed pol att nn created)))).
Proof.
  intros Hlen Hw Hcheck Hnorm Hlist Hnn Hon Hcase Hdel.
  unfold NC4_rename_att. apply Nat.ltb_ge in Hlen.
  rewrite Hlen, Hw, Hcheck. cbn [is_ok negb].
  rewrite Hlist, Hnn, Hnorm. cbn [is_ok negb]. rewrite Hon.
  rewrite (lookup_linear_name pol _ _ _ _ Hon).
  assert (Hcond : negb (indef (nc_h5 F))
                  && (String.length on <? String.length nn)%nat
                  && classic (nc_h5 F) = false).
  { destruct Hcase as [->| [->|Hle]].
    - reflexivity.
    - apply andb_false_r.
    - apply Nat.ltb_ge in Hle. rewrite Hle. rewrite andb_false_r.
      reflexivity. }
  rewrite Hcond, Hdel. reflexivity.
Qed.

(** X22: rename, then get (the index built without hash table, distinct
    names). After a successful rename every get under the new name
    answers as the get under the old name answered before, for all
    arguments: type, length, id and data are those of the attribute
    renamed. A get under the old name fails with [NC_ENOTATT]. Names stay
    distinct and a list numbered by position stays so. *)
Theorem NC4_rename_att_then_get F ncid varid name newname nn on loc attlist
    p att created :
  String.length newname <= NC_MAX_NAME ->
  no_write (nc_h5 F) = false ->
  nc4_check_name ext newname = (NC_NOERR, nn) ->
  nc4_normalize_name ext newname = (NC_NOERR, nn) ->
  nc4_normalize_name ext name = (NC_NOERR, on) ->
  getattlist (nc_grp F) varid = Ok (Some (loc, attlist)) ->
  NoDup (att_names (idx_list attlist)) ->
  nn ∉ att_names (idx_list attlist) ->
  ncindexlookup false pol attlist on = Some (p, att) ->
  indef (nc_h5 F) = true \/ classic (nc_h5 F) = false
  \/ String.length nn <= String.length on ->
  rename_delete_original ext (nc_grp F) varid att = inr created ->
  (nc_ext_ncid F =? ncid)%Z && (varid =? NC_GLOBAL)%Z
    && reserved_nameonly on = false ->
  (nc_ext_ncid F =? ncid)%Z && (varid =? NC_GLOBAL)%Z
    && reserved_nameonly nn = false ->
  exists attlist',
    NC4_rename_att false pol ext F ncid varid (Some name) (Some newname)
    = Ok (NC_NOERR, set_grp F (set_attlist (nc_grp F) loc attlist'))
    /\ (forall xtype mem_type lenp attnum data mem,
        nc4_get_att false pol ext
          (set_grp F (set_attlist (nc_grp F) loc attlist')) ncid varid
          (Some newname) xtype mem_type lenp attnum data mem
        = nc4_get_att false pol ext F ncid varid (Some name) xtype mem_type
            lenp attnum data mem)
    /\ (forall xtype mem_type lenp attnum data mem,
        nc4_get_att false pol ext
          (set_grp F (set_attlist (nc_grp F) loc attlist')) ncid varid
          (Some name) xtype mem_type lenp attnum data mem
        = Ok (NC_ENOTATT, no_out))
    /\ att_names (idx_list attlist') = <[p:=nn]> (att_names (idx_list attlist))
    /\ NoDup (att_names (idx_list attlist'))
    /\ (ids_are_positions (idx_list attlist) ->
        ids_are_positions (idx_list attlist')).
Proof.
  intros Hlen Hw Hcheck Hnormnew Hnorm Hlist Hnd Hnn Hon Hcase Hdel Hreson
    Hresnn.
  pose proof (ncindexlookup_Some false pol attlist on p att Hon) as Hp.
  pose proof (lookup_linear_name pol attlist on p att Hon) as Hname.
  assert (Hlt : p < length (idx_list attlist))
    by (eapply lookup_lt_Some; exact Hp).
  set (att' := renamed pol att nn created).
  exists (set_att attlist p att').
  assert (Hlist' : getattlist
                     (nc_grp (set_grp F (set_attlist (nc_grp F) loc
                                           (set_att attlist p att')))) varid
                   = Ok (Some (loc, set_att attlist p att'))).
  { cbn [set_grp nc_grp]. apply (getattlist_set_attlist _ _ _ attlist).
    exact Hlist. }
  split; [|split; [|split; [|split; [|split]]]].
  - apply (NC4_rename_att_stores F ncid varid name newname nn on loc attlist
             p att created); try assumption.
    apply lookup_linear_None. exact Hnn.
  - intros xtype mem_type lenp attnum data mem.
    rewrite (nc4_get_att_resolved false pol ext _ ncid varid newname nn loc
               (set_att attlist p att') p att' xtype mem_type lenp attnum
               data mem Hlist' Hnormnew Hresnn
               (lookup_linear_written attlist p att' Hnn Hlt)).
    rewrite (nc4_get_att_resolved false pol ext F ncid varid name on loc
               attlist p att xtype mem_type lenp attnum data mem Hlist Hnorm
               Hreson Hon).
    reflexivity.
  - intros xtype mem_type lenp attnum data mem.
    apply (nc4_get_att_unresolved false pol ext _ ncid varid name on loc
             (set_att attlist p att')); try assumption.
    rewrite <- Hname.
    apply (lookup_linear_overwritten attlist p att att' Hnd Hp).
    cbn [att' renamed att_hdr obj_name]. rewrite Hname. intros ->.
    apply Hnn. rewrite <- Hname. eapply att_names_lookup. exact Hp.
  - cbn [set_att idx_list]. unfold att_names. apply list_fmap_insert.
  - cbn [set_att idx_list]. unfold att_names. rewrite list_fmap_insert.
    apply NoDup_insert_fresh; assumption.
  - intros Hids i a Hi. cbn [set_att idx_list] in Hi.
    destruct (decide (i = p)) as [->|Hne].
    + rewrite list_lookup_insert_eq in Hi by exact Hlt. injection Hi as <-.
      exact (Hids p att Hp).
    + rewrite list_lookup_insert_ne in Hi
        by (intros Heq; apply Hne; symmetry; exact Heq).
      exact (Hids i a Hi).
Qed.

End RenameMore.

Section GetAbsent.

Variable pol : hashmap_policy.
Variable ext : externals.

(** X9: a get that finds no attribute (the index built without hash table).
    A NULL name is refused with [NC_EBADNAME] and a name that fails
    normalisation with the code of the normalisation. A name the list
    does not hold gives [NC_ENOTATT], for the get and for the three
    inquiries built on it, whatever is asked for; nothing is written
    through the output pointers. *)
Theorem nc4_get_att_absent F ncid varid loc attlist :
  getattlist (nc_grp F) varid = Ok (Some (loc, attlist)) ->
  (forall xtype mem_type lenp attnum data mem,
      nc4_get_att false pol ext F ncid varid None xtype mem_type lenp attnum
        data mem
      = Ok (NC_EBADNAME, no_out))
  /\ (forall nm e norm xtype mem_type lenp attnum data mem,
      nc4_normalize_name ext nm = (e, norm) -> e <> NC_NOERR ->
      nc4_get_att false pol ext F ncid varid (Some nm) xtype mem_type lenp
        attnum data mem
      = Ok (e, no_out))
  /\ (forall nm norm,
      nc4_normalize_name ext nm = (NC_NOERR, norm) ->
      (nc_ext_ncid F =? ncid)%Z && (varid =? NC_GLOBAL)%Z
        && reserved_nameonly norm = false ->
      norm ∉ att_names (idx_list attlist) ->
      (forall xtype mem_type lenp attnum data mem,
          nc4_get_att false pol ext F ncid varid (Some nm) xtype mem_type
            lenp attnum data mem
          = Ok (NC_ENOTATT, no_out))
      /\ (forall xtypep lenp mem,
          NC4_inq_att false pol ext F ncid varid (Some nm) xtypep lenp mem
          = Ok (NC_ENOTATT, no_out))
      /\ (forall attnump mem,
          NC4_inq_attid false pol ext F ncid varid (Some nm) attnump mem
          = Ok (NC_ENOTATT, no_out))
      /\ (forall value memtype mem,
          NC4_get_att false pol ext F ncid varid (Some nm) value memtype mem
          = Ok (NC_ENOTATT, no_out))).
Proof.
  intros Hlist.
  split; [|split].
  - intros. unfold nc4_get_att. unfold getattlist in Hlist.
    destruct (varid =? NC_GLOBAL)%Z; [reflexivity|].
    destruct (ncindexith_int (grp_vars (nc_grp F)) varid) as [var|];
      [|discriminate].
    destruct (Z.of_nat (obj_id (var_hdr var)) =? varid)%Z;
      [reflexivity|discriminate].
  - intros nm e norm xtype mem_type lenp attnum data mem Hnorm He.
    unfold nc4_get_att. rewrite Hnorm.
    assert (Hne : negb (is_ok e) = true) by (destruct e; try reflexivity;
      contradiction).
    rewrite Hne. unfold getattlist in Hlist.
    destruct (varid =? NC_GLOBAL)%Z; [reflexivity|].
    destruct (ncindexith_int (grp_vars (nc_grp F)) varid) as [var|];
      [|discriminate].
    destruct (Z.of_nat (obj_id (var_hdr var)) =? varid)%Z;
      [reflexivity|discriminate].
  - intros nm norm Hnorm Hres Hnew.
    apply (lookup_linear_None pol) in Hnew.
    assert (Hget : forall xtype mem_type lenp attnum data mem,
               nc4_get_att false pol ext F ncid varid (Some nm) xtype
                 mem_type lenp attnum data mem
               = Ok (NC_ENOTATT, no_out)).
    { intros. apply (nc4_get_att_unresolved false pol ext F ncid varid nm
                       norm loc attlist); assumption. }
    split; [exact Hget|].
    split; [intros; apply Hget|].
    split; intros; apply Hget.
Qed.

End GetAbsent.

(** The file that holds "valid_range", asked for the id of "history". *)
Lemma nc4_get_att_absent_witness :
  NC4_inq_attid false sample_policy sample_ext range_file 65536 NC_GLOBAL
    (Some "history") (Some 0%Z) 1
  = Ok (NC_ENOTATT, no_out).
Proof.
  apply (nc4_get_att_absent sample_policy sample_ext range_file 65536
           NC_GLOBAL GroupAtts (grp_att (nc_grp range_file))
           ltac:(evaluated)) with (norm := "history"); evaluated.
Defined.

(** "a1" renamed to "b1" in the four attributes: "b1" reads as "a1" did. *)
Lemma NC4_rename_att_then_get_witness :
  exists attlist',
    NC4_rename_att false sample_policy sample_ext
      (four_atts_file NC_INDEF 0) 65536 NC_GLOBAL (Some "a1") (Some "b1")
    = Ok (NC_NOERR,
          set_grp (four_atts_file NC_INDEF 0)
            (set_attlist (nc_grp (four_atts_file NC_INDEF 0)) GroupAtts
               attlist'))
    /\ nc4_get_att false sample_policy sample_ext
         (set_grp (four_atts_file NC_INDEF 0)
            (set_attlist (nc_grp (four_atts_file NC_INDEF 0)) GroupAtts
               attlist'))
         65536 NC_GLOBAL (Some "b1") true NC_NAT true (Some 0%Z) true 1
       = Ok (NC_NOERR,
             {| out_xtype := Some NC_INT; out_len := Some 1;
                out_attnum := Some 1%Z; out_data := Some (Raw [11%Z]) |})
    /\ att_names (idx_list attlist') = ["a0"; "b1"; "a2"; "a3"].
Proof.
  destruct (NC4_rename_att_then_get sample_policy sample_ext
              (four_atts_file NC_INDEF 0) 65536 NC_GLOBAL "a1" "b1" "b1" "a1"
              GroupAtts (sample_index four_atts) 1
              (sample_att "a1" 1 NC_INT [11%Z]) false)
    as (attlist' & Hrename & Hget & _ & Hnames & _); [evaluated ..|].
  exists attlist'. split; [exact Hrename|]. split; [|exact Hnames].
  rewrite Hget. reflexivity.
Defined.
